(** * Service Marketplace API: access control and resource lifecycle

    A shallow embedding of [src/main.py] (the FastAPI handlers, the
    serializer and the password helpers) and of the field lists of
    [src/schemas.py], over an explicit model of the document store,
    followed by the properties of the specification that were checked
    against it and by further properties of the code.

    Conventions of the embedding.
    - A Python [str] is a [string] of bytes (its UTF-8 encoding), so
      [.encode()] is the identity; [str.lower] and [str.strip] are modelled
      on the ASCII range.
    - A Python [dict] is an association list in insertion order.
    - A handler is a computation over the database that ends in a value or
      in a raised exception; the database after a raise is kept, so that
      "nothing was written" can be stated.
    - What the code draws from its environment is an explicit argument:
      the bytes of [secrets.token_hex], the [ObjectId] the driver
      generates, the instant [datetime.now(timezone.utc)] returns.
    - The libraries the code calls are modelled next to it: [hashlib]
      (SHA-256, checked on test vectors), [bson.ObjectId], [datetime],
      the collections of [pymongo] and the request models of [pydantic].
      [database.create_document], which main.py imports, is not among the
      sources; its model is marked as such.
    - What the listings leave to the server and to the driver, the
      regular expressions, the limit and the sort of a cursor, is a
      parameter of their model; the properties state what they ask of
      it. *)

From Stdlib Require Import ZArith QArith String Ascii List Bool Lia
  Permutation.
Import ListNotations.
Close Scope Q_scope.
Open Scope string_scope.
Open Scope list_scope.

(* ================================================================== *)
(** * Python string helpers *)
(* ================================================================== *)

Module PyStr.

(** [str.lower] on one ASCII character. *)
Definition lower_char (c : ascii) : ascii :=
  let n := nat_of_ascii c in
  if andb (Nat.leb 65 n) (Nat.leb n 90) then ascii_of_nat (n + 32) else c.

(** [s.lower()] *)
Fixpoint lower (s : string) : string :=
  match s with
  | EmptyString => EmptyString
  | String c s' => String (lower_char c) (lower s')
  end.

(** [c.isspace()] for a code point below 128: TAB..CR, FS..US and SPACE. *)
Definition isspace (c : ascii) : bool :=
  let n := nat_of_ascii c in
  orb (andb (Nat.leb 9 n) (Nat.leb n 13))
      (orb (andb (Nat.leb 28 n) (Nat.leb n 31)) (Nat.eqb n 32)).

(** [s.lstrip()] *)
Fixpoint lstrip (s : string) : string :=
  match s with
  | EmptyString => EmptyString
  | String c s' => if isspace c then lstrip s' else s
  end.

(** [s.rstrip()] *)
Fixpoint rstrip (s : string) : string :=
  match s with
  | EmptyString => EmptyString
  | String c s' =>
      match rstrip s' with
      | EmptyString => if isspace c then EmptyString else String c EmptyString
      | r => String c r
      end
  end.

(** [s.strip()] *)
Definition strip (s : string) : string := rstrip (lstrip s).

(** [s.startswith(p)] *)
Fixpoint startswith (s p : string) {struct p} : bool :=
  match p with
  | EmptyString => true
  | String c p' =>
      match s with
      | EmptyString => false
      | String d s' => andb (Ascii.eqb c d) (startswith s' p')
      end
  end.

(** [s.split(" ", 1)]: the text before the first space and, when there is
    a space, the text after it. *)
Fixpoint split_space_1 (s : string) : list string :=
  match s with
  | EmptyString => [EmptyString]
  | String c s' =>
      if Ascii.eqb c " "%char then [EmptyString; s']
      else match split_space_1 s' with
           | h :: t => String c h :: t
           | [] => [String c EmptyString]
           end
  end.

(** [not s] for an optional string: [None] and [""] are falsy. *)
Definition falsy (s : option string) : bool :=
  match s with
  | None => true
  | Some EmptyString => true
  | Some _ => false
  end.

End PyStr.

(* ================================================================== *)
(** * Hexadecimal text: [binascii.hexlify] and [bytes.fromhex] *)
(* ================================================================== *)

Module Hex.

Definition digit (n : nat) : ascii :=
  if Nat.ltb n 10 then ascii_of_nat (48 + n) else ascii_of_nat (87 + n).

(** Value of a hexadecimal digit, in either case. *)
Definition value_of (c : ascii) : option nat :=
  let n := nat_of_ascii c in
  if andb (Nat.leb 48 n) (Nat.leb n 57) then Some (n - 48)
  else if andb (Nat.leb 97 n) (Nat.leb n 102) then Some (n - 87)
  else if andb (Nat.leb 65 n) (Nat.leb n 70) then Some (n - 55)
  else None.

(** Two lower-case digits per byte. *)
Fixpoint hexlify (bytes : string) : string :=
  match bytes with
  | EmptyString => EmptyString
  | String b rest =>
      let n := nat_of_ascii b in
      String (digit (n / 16)) (String (digit (n mod 16)) (hexlify rest))
  end.

(** The C-level [Py_ISSPACE] that [bytes.fromhex] skips between bytes. *)
Definition c_isspace (c : ascii) : bool :=
  let n := nat_of_ascii c in
  orb (andb (Nat.leb 9 n) (Nat.leb n 13)) (Nat.eqb n 32).

(** [bytes.fromhex(s)]; [None] stands for its [ValueError]. *)
Fixpoint fromhex (s : string) : option string :=
  match s with
  | EmptyString => Some EmptyString
  | String c s' =>
      if c_isspace c then fromhex s'
      else
        match value_of c, s' with
        | Some hi, String c2 s'' =>
            match value_of c2 with
            | Some lo =>
                match fromhex s'' with
                | Some rest => Some (String (ascii_of_nat (16 * hi + lo)) rest)
                | None => None
                end
            | None => None
            end
        | _, _ => None
        end
  end.

End Hex.

(* ================================================================== *)
(** * SHA-256 ([hashlib.sha256(...).hexdigest()]) *)
(* ================================================================== *)

Module Sha256.
Local Open Scope Z_scope.

Definition w32 (x : Z) : Z := x mod 4294967296.
Definition add32 (x y : Z) : Z := w32 (x + y).
Definition rotr (n x : Z) : Z :=
  Z.lor (Z.shiftr x n) (w32 (Z.shiftl x (32 - n))).
Definition not32 (x : Z) : Z := 4294967295 - x.

Definition Ch (x y z : Z) := Z.lxor (Z.land x y) (Z.land (not32 x) z).
Definition Maj (x y z : Z) :=
  Z.lxor (Z.lxor (Z.land x y) (Z.land x z)) (Z.land y z).
Definition Sigma0 x := Z.lxor (Z.lxor (rotr 2 x) (rotr 13 x)) (rotr 22 x).
Definition Sigma1 x := Z.lxor (Z.lxor (rotr 6 x) (rotr 11 x)) (rotr 25 x).
Definition sigma0 x := Z.lxor (Z.lxor (rotr 7 x) (rotr 18 x)) (Z.shiftr x 3).
Definition sigma1 x := Z.lxor (Z.lxor (rotr 17 x) (rotr 19 x)) (Z.shiftr x 10).

(** The constants are not tabulated but derived as the standard defines
    them, from the first sixty-four primes: the first thirty-two bits of
    the fractional part of the cube root (round constants) and of the
    square root (initial state, first eight primes). *)
Definition is_prime (n : nat) : bool :=
  forallb (fun d => negb (Nat.eqb (n mod d) 0)) (seq 2 (n - 2)).

Definition primes : list Z :=
  map Z.of_nat (filter is_prime (seq 2 310)).

(** Integer cube root of a number below 2^108, bit by bit. *)
Definition icbrt (n : Z) : Z :=
  fold_left
    (fun x b => let y := x + 2 ^ Z.of_nat b in
                if y * y * y <=? n then y else x)
    (rev (seq 0 36)) 0.

Definition K : list Z :=
  map (fun p => w32 (icbrt (p * 2 ^ 96))) primes.

Definition H0 : list Z :=
  map (fun p => w32 (Z.sqrt (p * 2 ^ 64))) (firstn 8 primes).

Definition bytes_of (s : string) : list Z :=
  map (fun c => Z.of_nat (nat_of_ascii c)) (list_ascii_of_string s).

(** Big-endian bytes of [x], [n] of them. *)
Fixpoint be_bytes (n : nat) (x : Z) : list Z :=
  match n with
  | O => []
  | S n' => be_bytes n' (x / 256) ++ [x mod 256]
  end.

(** The message followed by 0x80, zeros up to 56 modulo 64, and its length
    in bits on eight bytes. *)
Definition pad (msg : list Z) : list Z :=
  let len := Z.of_nat (length msg) in
  let zeros := Z.to_nat ((55 - len) mod 64) in
  msg ++ [128] ++ repeat 0 zeros ++ be_bytes 8 (8 * len).

Fixpoint words (fuel : nat) (bs : list Z) : list Z :=
  match fuel, bs with
  | S f, a :: b :: c :: d :: rest =>
      (((a * 256 + b) * 256 + c) * 256 + d) :: words f rest
  | _, _ => []
  end.

(** Extends the sixteen words of a block to the sixty-four of the
    schedule; [w] holds the schedule so far, most recent word first. *)
Fixpoint schedule (n : nat) (w : list Z) : list Z :=
  match n with
  | O => w
  | S n' =>
      let x := add32 (add32 (sigma1 (nth 1 w 0)) (nth 6 w 0))
                     (add32 (sigma0 (nth 14 w 0)) (nth 15 w 0)) in
      schedule n' (x :: w)
  end.

Definition state := (Z * Z * Z * Z * Z * Z * Z * Z)%type.

Definition round (s : state) (kw : Z * Z) : state :=
  let '(a, b, c, d, e, f, g, h) := s in
  let t1 := add32 (add32 (add32 h (Sigma1 e)) (add32 (Ch e f g) (fst kw))) (snd kw) in
  let t2 := add32 (Sigma0 a) (Maj a b c) in
  (add32 t1 t2, a, b, c, add32 d t1, e, f, g).

Definition compress (s : state) (block : list Z) : state :=
  let w := rev (schedule 48 (rev block)) in
  let '(a, b, c, d, e, f, g, h) := fold_left round (combine K w) s in
  let '(a0, b0, c0, d0, e0, f0, g0, h0) := s in
  (add32 a0 a, add32 b0 b, add32 c0 c, add32 d0 d,
   add32 e0 e, add32 f0 f, add32 g0 g, add32 h0 h).

Fixpoint blocks (fuel : nat) (s : state) (ws : list Z) : state :=
  match fuel with
  | O => s
  | S f =>
      match ws with
      | [] => s
      | _ => blocks f (compress s (firstn 16 ws)) (skipn 16 ws)
      end
  end.

Definition digest (msg : list Z) : list Z :=
  let bs := pad msg in
  let ws := words (length bs) bs in
  let init := (nth 0 H0 0, nth 1 H0 0, nth 2 H0 0, nth 3 H0 0,
               nth 4 H0 0, nth 5 H0 0, nth 6 H0 0, nth 7 H0 0) in
  let '(a, b, c, d, e, f, g, h) := blocks (length ws) init ws in
  flat_map (be_bytes 4) [a; b; c; d; e; f; g; h].

Definition string_of_bytes (bs : list Z) : string :=
  string_of_list_ascii (map (fun b => ascii_of_nat (Z.to_nat b)) bs).

(** [hashlib.sha256(s.encode()).hexdigest()] *)
Definition hexdigest (s : string) : string :=
  Hex.hexlify (string_of_bytes (digest (bytes_of s))).

End Sha256.

(* ================================================================== *)
(** * Timestamps ([datetime]) *)
(* ================================================================== *)

(** A [datetime] is modelled by the instant it denotes, in microseconds
    since 1970-01-01T00:00:00 UTC.  [astimezone(timezone.utc)] keeps the
    instant, so it is the identity here; the process time zone, which
    Python consults for a naive value, is taken to be UTC, and the store
    is taken to give a timestamp back as it was written (BSON keeps its
    milliseconds only; no property below depends on the fraction).  The
    calendar fields are meaningful for the years 1 to 9999 that Python
    supports. *)
Definition datetime := Z.

Module DateTime.
Local Open Scope Z_scope.

Definition astimezone_utc (t : datetime) : datetime := t.

(** Decimal digits of [n], least significant last, on [width] places. *)
Fixpoint dec (width : nat) (n : Z) : string :=
  match width with
  | O => EmptyString
  | S w => dec w (n / 10) ++ String (ascii_of_nat (48 + Z.to_nat (n mod 10))) EmptyString
  end.

(** Proleptic Gregorian date of a day number counted from 1970-01-01. *)
Definition civil (days : Z) : Z * Z * Z :=
  let z := days + 719468 in
  let era := z / 146097 in
  let doe := z - era * 146097 in
  let yoe := (doe - doe / 1460 + doe / 36524 - doe / 146096) / 365 in
  let doy := doe - (365 * yoe + yoe / 4 - yoe / 100) in
  let mp := (5 * doy + 2) / 153 in
  let d := doy - (153 * mp + 2) / 5 + 1 in
  let m := if mp <? 10 then mp + 3 else mp - 9 in
  let y := yoe + era * 400 + (if m <=? 2 then 1 else 0) in
  (y, m, d).

(** The text of a UTC value with separator [sep]; the fraction is printed
    only when the microseconds are not zero. *)
Definition format (sep : string) (t : datetime) : string :=
  let day := t / 86400000000 in
  let us := t mod 86400000000 in
  let '(y, m, d) := civil day in
  let secs := us / 1000000 in
  let frac := us mod 1000000 in
  dec 4 y ++ "-" ++ dec 2 m ++ "-" ++ dec 2 d ++ sep
    ++ dec 2 (secs / 3600) ++ ":" ++ dec 2 (secs / 60 mod 60) ++ ":" ++ dec 2 (secs mod 60)
    ++ (if frac =? 0 then "" else "." ++ dec 6 frac)
    ++ "+00:00".

(** [t.isoformat()] *)
Definition isoformat (t : datetime) : string := format "T" t.

(** [str(t)] *)
Definition to_str (t : datetime) : string := format " " t.

End DateTime.

(* ================================================================== *)
(** * Python values and dictionaries *)
(* ================================================================== *)

(** The twelve bytes of a BSON [ObjectId]. *)
Definition ObjectId := string.

(** Lookup in an association list: [d.get(k)] as an option. *)
Fixpoint alist_get {V : Type} (k : string) (d : list (string * V)) : option V :=
  match d with
  | [] => None
  | (k', v) :: d' => if String.eqb k k' then Some v else alist_get k d'
  end.

#[warnings="-register-all"]
Inductive value : Type :=
| VNone
| VBool (b : bool)
| VNum (q : Q)
| VStr (s : string)
| VObjectId (o : ObjectId)
| VDatetime (t : datetime)
| VList (l : list value)
| VDict (d : list (string * value)).

Definition dict := list (string * value).

(** [k in d] *)
Definition dict_mem (k : string) (d : dict) : bool :=
  match alist_get k d with Some _ => true | None => false end.

(** [d.get(k)], with [None] for a missing key. *)
Definition dict_get_default (k : string) (d : dict) : value :=
  match alist_get k d with Some v => v | None => VNone end.

(** [d[k] = v]: in place when the key is there, at the end otherwise. *)
Fixpoint dict_set (k : string) (v : value) (d : dict) : dict :=
  match d with
  | [] => [(k, v)]
  | (k', v') :: d' =>
      if String.eqb k k' then (k, v) :: d' else (k', v') :: dict_set k v d'
  end.

(** The dictionary left by [d.pop(k)]: no entry under [k] remains. *)
Definition dict_remove (k : string) (d : dict) : dict :=
  filter (fun kv => negb (String.eqb k (fst kv))) d.

(** [d.update(e)] *)
Definition dict_update (e d : dict) : dict :=
  fold_left (fun acc kv => dict_set (fst kv) (snd kv) acc) e d.

(** Python [==]: numbers and booleans compare by value, lists pointwise,
    dictionaries as finite maps whatever the order of their keys. *)
Fixpoint py_eq (a b : value) {struct a} : bool :=
  match a, b with
  | VNone, VNone => true
  | VBool x, VBool y => Bool.eqb x y
  | VBool x, VNum q => Qeq_bool (if x then 1%Q else 0%Q) q
  | VNum q, VBool x => Qeq_bool q (if x then 1%Q else 0%Q)
  | VNum p, VNum q => Qeq_bool p q
  | VStr s, VStr t => String.eqb s t
  | VObjectId o, VObjectId p => String.eqb o p
  | VDatetime s, VDatetime t => Z.eqb s t
  | VList l, VList m =>
      (fix go (l m : list value) {struct l} : bool :=
         match l, m with
         | [], [] => true
         | x :: l', y :: m' => andb (py_eq x y) (go l' m')
         | _, _ => false
         end) l m
  | VDict d, VDict e =>
      andb (Nat.eqb (length d) (length e))
        ((fix go (d : list (string * value)) : bool :=
            match d with
            | [] => true
            | (k, v) :: d' =>
                andb (match alist_get k e with
                      | Some w => py_eq v w
                      | None => false
                      end) (go d')
            end) d)
  | _, _ => false
  end.

(** [a != b] *)
Definition py_ne (a b : value) : bool := negb (py_eq a b).

(** Truth value of a Python object ([not v] is its negation). *)
Definition truthy (v : value) : bool :=
  match v with
  | VNone => false
  | VBool b => b
  | VNum q => negb (Qeq_bool q 0%Q)
  | VStr s => negb (String.eqb s "")
  | VObjectId _ => true
  | VDatetime _ => true
  | VList l => match l with [] => false | _ => true end
  | VDict d => match d with [] => false | _ => true end
  end.

(** [not doc] for a value that is [None] or a dictionary. *)
Definition falsy_doc (doc : option dict) : bool :=
  match doc with
  | None => true
  | Some [] => true
  | Some _ => false
  end.

(** [str(v)].  It is exact on [None], booleans, strings, [ObjectId]s (24
    lower-case hexadecimal digits) and timestamps, the only values a
    stored [_id] takes being [ObjectId]s.  Python's [repr] of floats and
    of containers is outside this model: a number, a list and a
    dictionary are rendered by a fixed tag. *)
Definition py_str (v : value) : string :=
  match v with
  | VNone => "None"
  | VBool true => "True"
  | VBool false => "False"
  | VNum _ => "<number>"
  | VStr s => s
  | VObjectId o => Hex.hexlify o
  | VDatetime t => DateTime.to_str t
  | VList _ => "<list>"
  | VDict _ => "<dict>"
  end.

(** [isinstance(v, datetime)] then [v.astimezone(timezone.utc).isoformat()],
    any other value as it is: one step of the loop of [serialize]. *)
Definition iso_if_datetime (v : value) : value :=
  match v with
  | VDatetime t => VStr (DateTime.isoformat (DateTime.astimezone_utc t))
  | _ => v
  end.

(** The body of [serialize] after its guard (main.py, lines 37 to 44). *)
Definition serialize_dict (doc : dict) : dict :=
  let d := doc in
  let d :=
    match alist_get "_id" d with
    | Some oid => dict_set "id" (VStr (py_str oid)) (dict_remove "_id" d)
    | None => d
    end in
  map (fun kv => (fst kv, iso_if_datetime (snd kv))) d.

(** [serialize(doc)] (main.py, lines 34 to 44); [None] is Python's [None]. *)
Definition serialize (doc : option dict) : option dict :=
  if falsy_doc doc then doc
  else option_map serialize_dict doc.

(* ================================================================== *)
(** * Exceptions and the handler monad *)
(* ================================================================== *)

Inductive exn : Type :=
| HTTPException (status_code : Z) (detail : string)
| RequestValidationError
| KeyError (key : string)
| TypeError
| IndexError
| AttributeError
| WriteError
| DuplicateKeyError.

Inductive outcome (A : Type) : Type :=
| Ok (a : A)
| Raise (e : exn).
Arguments Ok {A} a.
Arguments Raise {A} e.

(** The three collections the handlers reach through [db[...]]. *)
Record DB : Type := mkDB {
  user : list dict;
  service : list dict;
  booking : list dict
}.

Inductive collection : Type := c_user | c_service | c_booking.

Definition coll (c : collection) (db : DB) : list dict :=
  match c with
  | c_user => user db
  | c_service => service db
  | c_booking => booking db
  end.

Definition set_coll (c : collection) (l : list dict) (db : DB) : DB :=
  match c with
  | c_user => mkDB l (service db) (booking db)
  | c_service => mkDB (user db) l (booking db)
  | c_booking => mkDB (user db) (service db) l
  end.

(** A computation on the database: its outcome and the database it
    leaves, also when it raises. *)
Definition M (A : Type) : Type := DB -> outcome A * DB.

Definition ret {A : Type} (a : A) : M A := fun db => (Ok a, db).

Definition raise {A : Type} (e : exn) : M A := fun db => (Raise e, db).

Definition bind {A B : Type} (m : M A) (k : A -> M B) : M B :=
  fun db =>
    match m db with
    | (Ok a, db') => k a db'
    | (Raise e, db') => (Raise e, db')
    end.

Declare Scope py_scope.
Delimit Scope py_scope with py.
Notation "x <- m ;; k" := (bind m (fun x => k))
  (at level 61, m at next level, right associativity) : py_scope.
Notation "m ;;; k" := (bind m (fun _ => k))
  (at level 61, right associativity) : py_scope.
Open Scope py_scope.

(** [o[k]] for a value that is [None] or a dictionary. *)
Definition subscript (o : option dict) (k : string) : M value :=
  match o with
  | None => raise TypeError
  | Some d =>
      match alist_get k d with
      | Some v => ret v
      | None => raise (KeyError k)
      end
  end.

(** [o.get(k)] for a value that is [None] or a dictionary. *)
Definition dot_get (o : option dict) (k : string) : M value :=
  match o with
  | None => raise AttributeError
  | Some d => ret (dict_get_default k d)
  end.

(** [v[k]] for an arbitrary value. *)
Definition subscript_value (v : value) (k : string) : M value :=
  match v with
  | VDict d => subscript (Some d) k
  | _ => raise TypeError
  end.

(* ================================================================== *)
(** * The document store (pymongo collections) *)
(* ================================================================== *)

(** One condition [{field: target}] of a filter: the stored value equals
    the target, or is an array with an element that does; a missing field
    matches [None].  The filters of main.py compare with a string or an
    [ObjectId], for which the store's equality and Python's agree. *)
Definition field_matches (stored : option value) (target : value) : bool :=
  match stored with
  | None => py_eq VNone target
  | Some x =>
      orb (py_eq x target)
          (match x with
           | VList l => existsb (fun y => py_eq y target) l
           | _ => false
           end)
  end.

(** A filter is a dictionary of conditions, all of which must hold. *)
Definition matches (filt : dict) (d : dict) : bool :=
  forallb (fun kv => field_matches (alist_get (fst kv) d) (snd kv)) filt.

Inductive update_op : Type :=
| Set_ (fields : dict)                 (* {"$set": fields} *)
| Push (field : string) (v : value).   (* {"$push": {field: v}} *)

(** The document after an update operator; [None] when the server refuses
    it ([$push] on a field that is not an array). *)
Definition apply_update (u : update_op) (d : dict) : option dict :=
  match u with
  | Set_ fields => Some (dict_update fields d)
  | Push k v =>
      match alist_get k d with
      | None => Some (dict_set k (VList [v]) d)
      | Some (VList l) => Some (dict_set k (VList (l ++ [v])) d)
      | Some _ => None
      end
  end.

(** Rewrites the first document that satisfies [p]. *)
Fixpoint update_first (p : dict -> bool) (f : dict -> option dict)
    (l : list dict) : option (list dict) :=
  match l with
  | [] => Some []
  | d :: l' =>
      if p d then option_map (fun d' => d' :: l') (f d)
      else option_map (cons d) (update_first p f l')
  end.

(** Drops the first document that satisfies [p]. *)
Fixpoint remove_first (p : dict -> bool) (l : list dict) : list dict :=
  match l with
  | [] => []
  | d :: l' => if p d then l' else d :: remove_first p l'
  end.

(** [db[c].find_one(filt)] *)
Definition find_one (c : collection) (filt : dict) : M (option dict) :=
  fun db => (Ok (find (matches filt) (coll c db)), db).

(** [db[c].update_one(filt, u)] *)
Definition update_one (c : collection) (filt : dict) (u : update_op) : M unit :=
  fun db =>
    match update_first (matches filt) (apply_update u) (coll c db) with
    | Some l => (Ok tt, set_coll c l db)
    | None => (Raise WriteError, db)
    end.

(** [db[c].delete_one(filt)] *)
Definition delete_one (c : collection) (filt : dict) : M unit :=
  fun db => (Ok tt, set_coll c (remove_first (matches filt) (coll c db)) db).

(** [db[c].insert_one(doc).inserted_id].  A document without [_id] gets
    the [ObjectId] [fresh] that the driver generates; the collection
    refuses an [_id] it already holds. *)
Definition insert_one (c : collection) (doc : dict) (fresh : ObjectId) : M value :=
  fun db =>
    let id := match alist_get "_id" doc with
              | Some v => v
              | None => VObjectId fresh
              end in
    let stored := if dict_mem "_id" doc then doc else ("_id", id) :: doc in
    if existsb (matches [("_id", id)]) (coll c db)
    then (Raise DuplicateKeyError, db)
    else (Ok id, set_coll c (coll c db ++ [stored]) db).

(** Modelled from the spec: [database.create_document] is imported by
    main.py (line 10) and is not among the sources.  The specification
    asks of the store an insert that assigns the primary identifier, and
    has bookings listed most recent first; main.py orders them by
    [created_at] and maintains [updated_at].  The helper is taken to stamp
    both fields with the current instant, insert the document and return
    the new identifier as a string. *)
Definition create_document (c : collection) (data : dict)
    (now : datetime) (fresh : ObjectId) : M string :=
  let data_dict := dict_set "updated_at" (VDatetime now)
                     (dict_set "created_at" (VDatetime now) data) in
  inserted_id <- insert_one c data_dict fresh ;;
  ret (py_str inserted_id).

(* ================================================================== *)
(** * Request models (main.py, lines 68 to 129) *)
(* ================================================================== *)

Definition opt_str (o : option string) : value :=
  match o with Some s => VStr s | None => VNone end.

Definition str_list (l : list string) : value := VList (map VStr l).

Module SignupRequest.
Record t : Type := mk {
  name : string;
  email : string;
  password : string;
  country : option string;
  province : option string
}.
End SignupRequest.

Module LoginRequest.
Record t : Type := mk { email : string; password : string }.
End LoginRequest.

Module ProviderModeRequest.
Record t : Type := mk { enabled : bool }.
End ProviderModeRequest.

Module Question.
Record t : Type := mk {
  id : string;
  text : string;
  type : string;
  required : bool;
  options : option (list string)
}.
Definition model_dump (q : t) : dict :=
  [ ("id", VStr (id q)); ("text", VStr (text q)); ("type", VStr (type q));
    ("required", VBool (required q));
    ("options", match options q with Some l => str_list l | None => VNone end) ].
End Question.

Module AvailabilitySlot.
Record t : Type := mk { start : string; end_ : string }.
Definition model_dump (a : t) : dict :=
  [ ("start", VStr (start a)); ("end", VStr (end_ a)) ].
End AvailabilitySlot.

Module ServiceCreateRequest.
Record t : Type := mk {
  name : string;
  description : string;
  price : Q;                 (* float, validated [ge=0] *)
  category : string;
  country : option string;
  province : option string;
  photos : list string;
  videos : list string;
  questions : list Question.t;
  availability : list AvailabilitySlot.t
}.
Definition model_dump (r : t) : dict :=
  [ ("name", VStr (name r)); ("description", VStr (description r));
    ("price", VNum (price r)); ("category", VStr (category r));
    ("country", opt_str (country r)); ("province", opt_str (province r));
    ("photos", str_list (photos r)); ("videos", str_list (videos r));
    ("questions", VList (map (fun q => VDict (Question.model_dump q)) (questions r)));
    ("availability",
      VList (map (fun a => VDict (AvailabilitySlot.model_dump a)) (availability r))) ].
End ServiceCreateRequest.

(** [class ServiceUpdateRequest(ServiceCreateRequest)]: the inherited
    fields, then [is_active]. *)
Module ServiceUpdateRequest.
Record t : Type := mk {
  base : ServiceCreateRequest.t;
  is_active : option bool
}.
Definition model_dump (r : t) : dict :=
  ServiceCreateRequest.model_dump (base r)
    ++ [ ("is_active", match is_active r with Some b => VBool b | None => VNone end) ].
End ServiceUpdateRequest.

Module BookingAnswer.
Record t : Type := mk { question_id : string; answer : value }.
Definition model_dump (a : t) : dict :=
  [ ("question_id", VStr (question_id a)); ("answer", answer a) ].
End BookingAnswer.

Module BookingCreateRequest.
Record t : Type := mk {
  service_id : string;
  scheduled_start : option string;
  scheduled_end : option string;
  message : option string;
  answers : list BookingAnswer.t
}.
End BookingCreateRequest.

Module BookingStatusUpdate.
Record t : Type := mk { status : string }.

(** [Field(..., pattern="^(accepted|declined|canceled)$")]: the whole
    string is one of the three words (the anchors of the pattern are those
    of the regular expressions of pydantic-core, where [$] is the end of
    the text and nothing else). *)
Definition pattern_ok (s : string) : bool :=
  orb (String.eqb s "accepted")
      (orb (String.eqb s "declined") (String.eqb s "canceled")).

(** Construction of the model from the request body, as the framework
    does before it calls the handler. *)
Definition validate (raw_status : string) : M t :=
  if pattern_ok raw_status then ret (mk raw_status)
  else raise RequestValidationError.
End BookingStatusUpdate.

(* ================================================================== *)
(** * Utility helpers (main.py, lines 27 to 62) *)
(* ================================================================== *)

(** [ObjectId(oid)]: a string of 24 characters that [bytes.fromhex]
    accepts, or an [ObjectId]; [None] stands for the exception. *)
Definition ObjectId_of (oid : value) : option ObjectId :=
  match oid with
  | VObjectId o => Some o
  | VStr s => if Nat.eqb (String.length s) 24 then Hex.fromhex s else None
  | _ => None
  end.

Definition to_object_id (id_str : value) : M ObjectId :=
  match ObjectId_of id_str with
  | Some o => ret o
  | None => raise (HTTPException 400 "Invalid ID format")
  end.

(** [secrets.token_hex(n)], from the random bytes [rnd] of the system. *)
Definition token_hex (n : nat) (rnd : string) : string :=
  Hex.hexlify (String.substring 0 n rnd).

Definition hash_password (rnd : string) (password : string)
    (salt : option string) : dict :=
  let salt := if PyStr.falsy salt then token_hex 8 rnd
              else match salt with Some s => s | None => "" end in
  let hashed := Sha256.hexdigest (salt ++ password) in
  [("salt", VStr salt); ("hash", VStr hashed)].

Definition verify_password (password salt : string) (hash_val : value) : bool :=
  py_eq (VStr (Sha256.hexdigest (salt ++ password))) hash_val.

Definition new_token (rnd : string) : string := token_hex 24 rnd.

(* ================================================================== *)
(** * Auth dependency (main.py, lines 136 to 145) *)
(* ================================================================== *)

Definition get_current_user (authorization : option string) : M (option dict) :=
  if PyStr.falsy authorization then
    raise (HTTPException 401 "Missing Authorization header")
  else
    let authorization := match authorization with Some a => a | None => "" end in
    if negb (PyStr.startswith (PyStr.lower authorization) "bearer ") then
      raise (HTTPException 401 "Invalid auth scheme")
    else
      match nth_error (PyStr.split_space_1 authorization) 1 with
      | None => raise IndexError
      | Some rest =>
          let token := PyStr.strip rest in
          user <- find_one c_user [("tokens", VStr token)] ;;
          if falsy_doc user then
            raise (HTTPException 401 "Invalid or expired token")
          else ret (serialize user)
      end.

(** [current = Depends(get_current_user)]: the framework resolves the
    dependency and hands its result to the handler. *)
Definition Depends {A : Type} (authorization : option string)
    (handler : option dict -> M A) : M A :=
  current <- get_current_user authorization ;;
  handler current.

(* ================================================================== *)
(** * Authentication (main.py, lines 188 to 229) *)
(* ================================================================== *)

Definition opt_dict (o : option dict) : value :=
  match o with Some d => VDict d | None => VNone end.

(** [signup]; [rnd_salt] and [rnd_token] are the bytes the two calls of
    [secrets.token_hex] draw, [fresh] the identifier the driver assigns. *)
Definition signup (payload : SignupRequest.t)
    (rnd_salt rnd_token : string) (fresh : ObjectId) : M dict :=
  existing <- find_one c_user
                [("email", VStr (PyStr.lower (SignupRequest.email payload)))] ;;
  if negb (falsy_doc existing) then
    raise (HTTPException 409 "Email already registered")
  else
    let pwd := hash_password rnd_salt (SignupRequest.password payload) None in
    let token := new_token rnd_token in
    let user_doc :=
      [ ("name", VStr (SignupRequest.name payload));
        ("email", VStr (PyStr.lower (SignupRequest.email payload)));
        ("country", opt_str (SignupRequest.country payload));
        ("province", opt_str (SignupRequest.province payload));
        ("provider_mode", VBool false);
        ("avatar_url", VNone);
        ("password", VDict [ ("salt", dict_get_default "salt" pwd);
                             ("hash", dict_get_default "hash" pwd) ]);
        ("tokens", VList [VStr token]) ] in
    result_id <- insert_one c_user user_doc fresh ;;
    ret [ ("user", VDict [ ("id", VStr (py_str result_id));
                           ("name", VStr (SignupRequest.name payload));
                           ("email", VStr (SignupRequest.email payload));
                           ("provider_mode", VBool false) ]);
          ("token", VStr token) ].

Definition login (payload : LoginRequest.t) (rnd_token : string) : M dict :=
  user <- find_one c_user
            [("email", VStr (PyStr.lower (LoginRequest.email payload)))] ;;
  if orb (falsy_doc user)
         (negb (match user with Some u => dict_mem "password" u | None => false end))
  then raise (HTTPException 401 "Invalid credentials")
  else
    pw <- subscript user "password" ;;
    salt <- subscript_value pw "salt" ;;
    pw' <- subscript user "password" ;;
    hash_val <- subscript_value pw' "hash" ;;
    match salt with
    | VStr salt =>
        if negb (verify_password (LoginRequest.password payload) salt hash_val)
        then raise (HTTPException 401 "Invalid credentials")
        else
          let token := new_token rnd_token in
          uid <- subscript user "_id" ;;
          update_one c_user [("_id", uid)] (Push "tokens" (VStr token)) ;;;
          ret [ ("user", opt_dict (serialize user)); ("token", VStr token) ]
    | _ => raise TypeError
    end.

Definition me (current : option dict) : M (option dict) := ret current.

Definition set_provider_mode (req : ProviderModeRequest.t)
    (current : option dict) : M dict :=
  cid <- subscript current "id" ;;
  oid <- to_object_id cid ;;
  update_one c_user [("_id", VObjectId oid)]
    (Set_ [("provider_mode", VBool (ProviderModeRequest.enabled req))]) ;;;
  ret [("provider_mode", VBool (ProviderModeRequest.enabled req))].

(* ================================================================== *)
(** * Services (main.py, lines 235 to 297) *)
(* ================================================================== *)

Definition create_service (data : ServiceCreateRequest.t)
    (current : option dict) (now : datetime) (fresh : ObjectId)
    : M (option dict) :=
  pm <- dot_get current "provider_mode" ;;
  if negb (truthy pm) then
    raise (HTTPException 403 "Enable provider mode to create services")
  else
    let doc := ServiceCreateRequest.model_dump data in
    cid <- subscript current "id" ;;
    let doc := dict_set "provider_id" cid doc in
    new_id <- create_document c_service doc now fresh ;;
    oid <- to_object_id (VStr new_id) ;;
    inserted <- find_one c_service [("_id", VObjectId oid)] ;;
    ret (serialize inserted).

Definition get_service (service_id : string) : M (option dict) :=
  oid <- to_object_id (VStr service_id) ;;
  svc <- find_one c_service [("_id", VObjectId oid)] ;;
  if falsy_doc svc then raise (HTTPException 404 "Service not found")
  else ret (serialize svc).

(** [{k: v for k, v in d.items() if v is not None}] *)
Definition drop_none (d : dict) : dict :=
  filter (fun kv => match snd kv with VNone => false | _ => true end) d.

Definition update_service (service_id : string)
    (payload : ServiceUpdateRequest.t) (current : option dict)
    (now : datetime) : M (option dict) :=
  oid <- to_object_id (VStr service_id) ;;
  svc <- find_one c_service [("_id", VObjectId oid)] ;;
  if falsy_doc svc then raise (HTTPException 404 "Service not found")
  else
    pid <- dot_get svc "provider_id" ;;
    cid <- subscript current "id" ;;
    if py_ne pid cid then raise (HTTPException 403 "Not your service")
    else
      let update := drop_none (ServiceUpdateRequest.model_dump payload) in
      let update := dict_set "updated_at" (VDatetime now) update in
      sid <- subscript svc "_id" ;;
      update_one c_service [("_id", sid)] (Set_ update) ;;;
      sid' <- subscript svc "_id" ;;
      new_doc <- find_one c_service [("_id", sid')] ;;
      ret (serialize new_doc).

Definition delete_service (service_id : string) (current : option dict)
    : M dict :=
  oid <- to_object_id (VStr service_id) ;;
  svc <- find_one c_service [("_id", VObjectId oid)] ;;
  if falsy_doc svc then raise (HTTPException 404 "Service not found")
  else
    pid <- dot_get svc "provider_id" ;;
    cid <- subscript current "id" ;;
    if py_ne pid cid then raise (HTTPException 403 "Not your service")
    else
      sid <- subscript svc "_id" ;;
      delete_one c_service [("_id", sid)] ;;;
      ret [("deleted", VBool true)].

(* ================================================================== *)
(** * Bookings (main.py, lines 303 to 340) *)
(* ================================================================== *)

Definition create_booking (data : BookingCreateRequest.t)
    (current : option dict) (now : datetime) (fresh : ObjectId)
    : M (option dict) :=
  oid <- to_object_id (VStr (BookingCreateRequest.service_id data)) ;;
  svc <- find_one c_service [("_id", VObjectId oid)] ;;
  if falsy_doc svc then raise (HTTPException 404 "Service not found")
  else
    provider_id <- subscript svc "provider_id" ;;
    customer_id <- subscript current "id" ;;
    total_price <- dot_get svc "price" ;;
    let doc :=
      [ ("service_id", VStr (BookingCreateRequest.service_id data));
        ("provider_id", provider_id);
        ("customer_id", customer_id);
        ("scheduled_start", opt_str (BookingCreateRequest.scheduled_start data));
        ("scheduled_end", opt_str (BookingCreateRequest.scheduled_end data));
        ("message", opt_str (BookingCreateRequest.message data));
        ("answers",
          VList (map (fun a => VDict (BookingAnswer.model_dump a))
                     (BookingCreateRequest.answers data)));
        ("status", VStr "pending");
        ("total_price", total_price) ] in
    new_id <- create_document c_booking doc now fresh ;;
    oid' <- to_object_id (VStr new_id) ;;
    created <- find_one c_booking [("_id", VObjectId oid')] ;;
    ret (serialize created).

Definition update_booking_status (booking_id : string)
    (req : BookingStatusUpdate.t) (current : option dict)
    (now : datetime) : M (option dict) :=
  oid <- to_object_id (VStr booking_id) ;;
  bk <- find_one c_booking [("_id", VObjectId oid)] ;;
  if falsy_doc bk then raise (HTTPException 404 "Booking not found")
  else
    pid <- dot_get bk "provider_id" ;;
    cid <- subscript current "id" ;;
    if py_ne pid cid then
      raise (HTTPException 403 "Only provider can change status")
    else
      bid <- subscript bk "_id" ;;
      update_one c_booking [("_id", bid)]
        (Set_ [ ("status", VStr (BookingStatusUpdate.status req));
                ("updated_at", VDatetime now) ]) ;;;
      bid' <- subscript bk "_id" ;;
      new_doc <- find_one c_booking [("_id", bid')] ;;
      ret (serialize new_doc).

(* ================================================================== *)
(** * The routes, with their dependency and body validation *)
(* ================================================================== *)

Module Route.

Definition post_me_provider_mode (authorization : option string)
    (req : ProviderModeRequest.t) : M dict :=
  Depends authorization (set_provider_mode req).

Definition post_services (authorization : option string)
    (data : ServiceCreateRequest.t) (now : datetime) (fresh : ObjectId)
    : M (option dict) :=
  Depends authorization (fun current => create_service data current now fresh).

Definition put_service (authorization : option string) (service_id : string)
    (payload : ServiceUpdateRequest.t) (now : datetime) : M (option dict) :=
  Depends authorization
    (fun current => update_service service_id payload current now).

Definition delete_service (authorization : option string)
    (service_id : string) : M dict :=
  Depends authorization (fun current => delete_service service_id current).

Definition post_bookings (authorization : option string)
    (data : BookingCreateRequest.t) (now : datetime) (fresh : ObjectId)
    : M (option dict) :=
  Depends authorization (fun current => create_booking data current now fresh).

(** The dependency is resolved first, then the body is validated, then
    the handler runs. *)
Definition patch_booking_status (authorization : option string)
    (booking_id : string) (raw_status : string) (now : datetime)
    : M (option dict) :=
  Depends authorization
    (fun current =>
       req <- BookingStatusUpdate.validate raw_status ;;
       update_booking_status booking_id req current now).

End Route.

(* ================================================================== *)
(** * Store invariant *)
(* ================================================================== *)

(** The [ObjectId] under [_id], when there is one. *)
Definition oid_of (d : dict) : option ObjectId :=
  match alist_get "_id" d with
  | Some (VObjectId o) => Some o
  | _ => None
  end.

Definition has_oid (o : ObjectId) (d : dict) : bool :=
  match oid_of d with
  | Some o' => String.eqb o' o
  | None => false
  end.

(** What the server guarantees of a collection: every document carries a
    twelve-byte [ObjectId] under [_id], and no two carry the same. *)
Fixpoint ids_ok (l : list dict) : bool :=
  match l with
  | [] => true
  | d :: l' =>
      match oid_of d with
      | Some o =>
          andb (Nat.eqb (String.length o) 12)
               (andb (negb (existsb (has_oid o) l')) (ids_ok l'))
      | None => false
      end
  end.

Definition db_ok (db : DB) : bool :=
  andb (ids_ok (user db)) (andb (ids_ok (service db)) (ids_ok (booking db))).

(** A computation keeps the invariant of the store. *)
Definition preserves {A : Type} (m : M A) : Prop :=
  forall db, db_ok db = true -> db_ok (snd (m db)) = true.

(** The header a client sends with a token. *)
Definition bearer (token : string) : option string :=
  Some ("Bearer " ++ token)%string.

(** [token] is held by no user of the collection. *)
Definition token_unused (token : string) (users : list dict) : bool :=
  negb (existsb (matches [("tokens", VStr token)]) users).

(** No character of [s] is white space. *)
Fixpoint no_space (s : string) : bool :=
  match s with
  | EmptyString => true
  | String c s' => andb (negb (PyStr.isspace c)) (no_space s')
  end.

(** The request carrying [authorization] is authenticated as the user
    whose public identifier is [uid]. *)
Definition authenticates (authorization : option string) (db : DB)
    (uid : value) : Prop :=
  exists view,
    get_current_user authorization db = (Ok (Some view), db)
    /\ alist_get "id" view = Some uid.

(** A service update request, as the route receives it. *)
Record service_update : Type := mkServiceUpdate {
  su_service_id : string;
  su_payload : ServiceUpdateRequest.t;
  su_current : option dict;
  su_now : datetime
}.

(** The database after a series of calls of [update_service], whatever
    their outcomes. *)
Definition update_services (reqs : list service_update) (db : DB) : DB :=
  fold_left
    (fun db r =>
       snd (update_service (su_service_id r) (su_payload r)
              (su_current r) (su_now r) db))
    reqs db.

(** What [get_current_user] does once the header has yielded a token
    (main.py, lines 142 to 145). *)
Definition lookup_token (token : string) : M (option dict) :=
  fun db =>
    let user := find (matches [("tokens", VStr token)]) (user db) in
    if falsy_doc user
    then (Raise (HTTPException 401 "Invalid or expired token"), db)
    else (Ok (serialize user), db).

(** The document that [signup] hands to [insert_one], with the identifier
    the driver adds. *)
Definition new_user_doc (payload : SignupRequest.t)
    (rnd_salt rnd_token : string) (fresh : ObjectId) : dict :=
  [ ("_id", VObjectId fresh);
    ("name", VStr (SignupRequest.name payload));
    ("email", VStr (PyStr.lower (SignupRequest.email payload)));
    ("country", opt_str (SignupRequest.country payload));
    ("province", opt_str (SignupRequest.province payload));
    ("provider_mode", VBool false);
    ("avatar_url", VNone);
    ("password",
      VDict [ ("salt", VStr (token_hex 8 rnd_salt));
              ("hash", VStr (Sha256.hexdigest
                               (token_hex 8 rnd_salt
                                ++ SignupRequest.password payload))) ]);
    ("tokens", VList [VStr (new_token rnd_token)]) ].

(** The token list of a user document. *)
Definition tokens_of (u : dict) : list value :=
  match alist_get "tokens" u with
  | Some (VList l) => l
  | _ => []
  end.

(** The filter by which [signup] and [login] look a user up. *)
Definition by_email (email : string) : dict :=
  [("email", VStr (PyStr.lower email))].

(** The document that [create_service] stores for the caller whose public
    identifier is [cid]. *)
Definition new_service_doc (data : ServiceCreateRequest.t) (cid : value)
    (now : datetime) (fresh : ObjectId) : dict :=
  ("_id", VObjectId fresh)
  :: dict_set "updated_at" (VDatetime now)
       (dict_set "created_at" (VDatetime now)
          (dict_set "provider_id" cid (ServiceCreateRequest.model_dump data))).

(** The fields that [update_service] sets. *)
Definition service_update_fields (payload : ServiceUpdateRequest.t)
    (now : datetime) : dict :=
  dict_set "updated_at" (VDatetime now)
    (drop_none (ServiceUpdateRequest.model_dump payload)).

(* ================================================================== *)
(** * A small marketplace, built by running the handlers *)
(* ================================================================== *)

Module Demo.

Definition alice_id : ObjectId := "alice-000001".
Definition bob_id : ObjectId := "bob---000002".
Definition lawn_id : ObjectId := "lawn--000003".
Definition visit_id : ObjectId := "visit-000004".

Definition alice_rnd : string := "alice-session-entropy-01".
Definition alice_rnd2 : string := "alice-session-entropy-02".
Definition alice_rnd3 : string := "alice-session-entropy-03".
Definition bob_rnd : string := "bob-session-entropy-0001".

Definition alice_token : string := new_token alice_rnd.
Definition bob_token : string := new_token bob_rnd.

Definition t0 : datetime := 1704067200000000%Z.
Definition t1 : datetime := 1709210096123456%Z.

Definition alice_signup : SignupRequest.t :=
  SignupRequest.mk "Alice" "Alice@Example.com" "correct horse" None None.
Definition bob_signup : SignupRequest.t :=
  SignupRequest.mk "Bob" "bob@example.com" "battery staple" (Some "CA") None.
Definition alice_login : LoginRequest.t :=
  LoginRequest.mk "ALICE@example.com" "correct horse".

Definition lawn : ServiceCreateRequest.t :=
  ServiceCreateRequest.mk "Lawn mowing" "Front and back" (100 # 1) "garden"
    None None [] []
    [Question.mk "q1" "Gate code?" "text" true None]
    [AvailabilitySlot.mk "2024-03-01T09:00:00" "2024-03-01T12:00:00"].

Definition lawn_dearer : ServiceUpdateRequest.t :=
  ServiceUpdateRequest.mk
    (ServiceCreateRequest.mk "Lawn mowing" "Front and back" (200 # 1) "garden"
       None None [] [] [] [])
    None.

Definition visit : BookingCreateRequest.t :=
  BookingCreateRequest.mk (Hex.hexlify lawn_id) None None (Some "Mornings")
    [BookingAnswer.mk "q1" (VStr "1234")].

Definition empty : DB := mkDB [] [] [].

(** Alice and Bob have signed up. *)
Definition users : DB :=
  snd (signup bob_signup "bob-salt" bob_rnd bob_id
         (snd (signup alice_signup "alicesal" alice_rnd alice_id empty))).

(** Alice has turned provider mode on and published a service. *)
Definition with_service : DB :=
  snd (Route.post_services (bearer alice_token) lawn t0 lawn_id
         (snd (Route.post_me_provider_mode (bearer alice_token)
                 (ProviderModeRequest.mk true) users))).

(** Bob has booked it. *)
Definition with_booking : DB :=
  snd (Route.post_bookings (bearer bob_token) visit t0 visit_id with_service).

(** The views of Alice and of Bob that the dependency hands to a handler. *)
Definition alice : option dict :=
  match fst (get_current_user (bearer alice_token) with_booking) with
  | Ok v => v
  | Raise _ => None
  end.

Definition bob : option dict :=
  match fst (get_current_user (bearer bob_token) with_booking) with
  | Ok v => v
  | Raise _ => None
  end.

End Demo.

(* ================================================================== *)
(** * Proof automation: stepping through a handler *)
(* ================================================================== *)

(** Backwards, from the outcome of a run: the operation at the head of the
    run is split on, and the branches that raise are closed. *)
Ltac step :=
  match goal with
  | H : match ?x with _ => _ end = _ |- _ => destruct x eqn:?
  | H : match ?x with _ => _ end _ = _ |- _ => destruct x eqn:?
  end.

Ltac inv_pair :=
  repeat match goal with
  | H : (_, _) = (_, _) |- _ => injection H as ? ?; subst
  | H : Ok _ = Ok _ |- _ => injection H as ?; subst
  | H : Some _ = Some _ |- _ => injection H as ?; subst
  | H : Raise _ = Ok _ |- _ => discriminate H
  | H : Ok _ = Raise _ |- _ => discriminate H
  end.

Ltac unfold_run :=
  unfold create_document, subscript_value in *;
  unfold bind, to_object_id, find_one, dot_get, subscript,
    update_one, delete_one, insert_one, ret, raise in *.

Ltac run_inv :=
  unfold_run;
  repeat (step; try discriminate; inv_pair;
          cbn [fst snd coll set_coll user service booking] in * );
  try discriminate.

(** Forwards, from what is known of the state. *)
Ltac run_with tac :=
  unfold_run;
  repeat (cbv beta iota;
          cbn [fst snd negb coll set_coll user service booking]; tac).

(* ================================================================== *)
(** * The view of the caller (main.py, lines 221 to 223) *)
(* ================================================================== *)

(** [GET /me]: the handler [me] behind its dependency. *)
Definition get_me (authorization : option string) : M (option dict) :=
  Depends authorization me.

(* ================================================================== *)
(** * Queries with operators (pymongo [find]) *)
(* ================================================================== *)

(** What a query asks of one field. *)
Inductive cond : Type :=
| CEq (v : value)                     (* {field: v} *)
| CNe (v : value)                     (* {field: {"$ne": v}} *)
| CRegex (pattern options : string).  (* {field: {"$regex": .., "$options": ..}} *)

(** An entry of a query: a condition on the field it is keyed by, or,
    under the key [$or], a list of alternatives. *)
Inductive clause : Type :=
| Field (c : cond)
| Or (alts : list (list (string * cond))).

Definition query := list (string * clause).

(** [filt[k] = v] *)
Fixpoint query_set (k : string) (v : clause) (q : query) : query :=
  match q with
  | [] => [(k, v)]
  | (k', v') :: q' =>
      if String.eqb k k' then (k, v) :: q' else (k', v') :: query_set k v q'
  end.

(** Equality as the store decides it: a boolean equals only a boolean,
    where Python has [False == 0]; on the other values that main.py
    compares with, strings, the two agree. *)
Definition bson_eq (x target : value) : bool :=
  match x, target with
  | VBool a, VBool b => Bool.eqb a b
  | VBool _, _ => false
  | _, VBool _ => false
  | _, _ => py_eq x target
  end.

(** [{field: target}] on a stored value: it equals the target or is an
    array with an element that does; a missing field equals [None]. *)
Definition store_field_matches (stored : option value) (target : value) : bool :=
  match stored with
  | None => bson_eq VNone target
  | Some x =>
      orb (bson_eq x target)
          (match x with
           | VList l => existsb (fun y => bson_eq y target) l
           | _ => false
           end)
  end.

(** A regular expression on a stored value: it is searched for in a
    string, or in the strings of an array. *)
Definition regex_field (m : string -> bool) (stored : option value) : bool :=
  match stored with
  | Some (VStr s) => m s
  | Some (VList l) =>
      existsb (fun y => match y with VStr s => m s | _ => false end) l
  | _ => false
  end.

Section Driver.

(** The regular expressions of the server: [regex pattern options] is the
    search for the pattern in a text, or [None] where the server refuses
    the pattern. *)
Variable regex : string -> string -> option (string -> bool).

(** [cursor.limit(n)] and [cursor.sort(key, direction)], on the documents
    a query finds, in the order of the collection. *)
Variable cursor_limit : Z -> list dict -> list dict.
Variable cursor_sort : string -> Z -> list dict -> list dict.

Definition cond_valid (c : cond) : bool :=
  match c with
  | CRegex p o => match regex p o with Some _ => true | None => false end
  | _ => true
  end.

Definition clause_valid (cl : clause) : bool :=
  match cl with
  | Field c => cond_valid c
  | Or alts => forallb (forallb (fun kc => cond_valid (snd kc))) alts
  end.

Definition cond_holds (stored : option value) (c : cond) : bool :=
  match c with
  | CEq v => store_field_matches stored v
  | CNe v => negb (store_field_matches stored v)
  | CRegex p o =>
      match regex p o with
      | Some m => regex_field m stored
      | None => false
      end
  end.

Definition all_hold (filt : list (string * cond)) (d : dict) : bool :=
  forallb (fun kc => cond_holds (alist_get (fst kc) d) (snd kc)) filt.

Definition clause_holds (k : string) (cl : clause) (d : dict) : bool :=
  match cl with
  | Field c => cond_holds (alist_get k d) c
  | Or alts => existsb (fun alt => all_hold alt d) alts
  end.

Definition query_holds (q : query) (d : dict) : bool :=
  forallb (fun kcl => clause_holds (fst kcl) (snd kcl) d) q.

(** [db[c].find(q)], read to the end: the documents that satisfy every
    entry, in the order of the collection; [None] when the server refuses
    the query and the driver raises [OperationFailure]. *)
Definition find_query (q : query) (l : list dict) : option (list dict) :=
  if forallb (fun kcl => clause_valid (snd kcl)) q
  then Some (filter (query_holds q) l)
  else None.

(* ------------------------------------------------------------------ *)
(** ** Listing services (main.py, lines 246 to 264) *)

(** [if v: filt[k] = v] *)
Definition set_if_given (k : string) (v : option string) (filt : query) : query :=
  if PyStr.falsy v then filt else query_set k (Field (CEq (opt_str v))) filt.

Definition list_services_filter
    (q country province category provider_id : option string) : query :=
  let filt := [("is_active", Field (CNe (VBool false)))] in
  let filt := set_if_given "country" country filt in
  let filt := set_if_given "province" province filt in
  let filt := set_if_given "category" category filt in
  let filt := set_if_given "provider_id" provider_id filt in
  if PyStr.falsy q then filt
  else
    let q := match q with Some p => p | None => "" end in
    query_set "$or"
      (Or [ [("name", CRegex q "i")]; [("description", CRegex q "i")] ])
      filt.

(** [list_services]: [None] stands for the [OperationFailure] that
    escapes the handler when the server refuses [q] as a pattern. *)
Definition list_services
    (q country province category provider_id : option string) (limit : Z)
    (db : DB) : option (list (option dict)) :=
  let filt := list_services_filter q country province category provider_id in
  match find_query filt (service db) with
  | Some found =>
      Some (map (fun x => serialize (Some x))
              (cursor_limit (Z.min limit 100) found))
  | None => None
  end.

(* ------------------------------------------------------------------ *)
(** ** Listing bookings (main.py, lines 324 to 328) *)

(** The field by which [list_bookings] selects. *)
Definition party (role : string) : string :=
  if String.eqb role "customer" then "customer_id" else "provider_id".

(** [Query("customer", pattern="^(customer|provider)$")] *)
Definition role_ok (role : string) : bool :=
  orb (String.eqb role "customer") (String.eqb role "provider").

Definition list_bookings (role : string) (current : option dict)
    : M (list (option dict)) :=
  cid <- subscript current "id" ;;
  let filt := if String.eqb role "customer" then [("customer_id", cid)]
              else [("provider_id", cid)] in
  fun db =>
    let cursor := cursor_sort "created_at" (-1)
                    (filter (matches filt) (coll c_booking db)) in
    (Ok (map (fun x => serialize (Some x)) cursor), db).

(** [GET /bookings]: the dependency is resolved first, then the query
    parameter is validated, then the handler runs. *)
Definition get_bookings (authorization : option string) (role : string)
    : M (list (option dict)) :=
  Depends authorization
    (fun current =>
       if role_ok role then list_bookings role current
       else raise RequestValidationError).

End Driver.

(* ================================================================== *)
(** * Schemas (schemas.py) and their listing (main.py, lines 344 to 353) *)
(* ================================================================== *)

(** [list(Model.model_fields.keys())]: the fields in the order of their
    declaration. *)
Module Schemas.

Definition User : list string :=
  [ "name"; "email"; "country"; "province"; "provider_mode"; "avatar_url" ].

Definition Service : list string :=
  [ "provider_id"; "name"; "description"; "price"; "category"; "country";
    "province"; "photos"; "videos"; "questions"; "availability"; "is_active" ].

Definition Booking : list string :=
  [ "service_id"; "provider_id"; "customer_id"; "scheduled_start";
    "scheduled_end"; "message"; "answers"; "status"; "total_price" ].

End Schemas.

Definition get_schema_models : dict :=
  [ ("models",
      VList
        [ VDict [ ("name", VStr "User"); ("collection", VStr "user");
                  ("fields", str_list Schemas.User) ];
          VDict [ ("name", VStr "Service"); ("collection", VStr "service");
                  ("fields", str_list Schemas.Service) ];
          VDict [ ("name", VStr "Booking"); ("collection", VStr "booking");
                  ("fields", str_list Schemas.Booking) ] ]) ].

(** The field names that [get_schema_models] gives for a collection. *)
Definition schema_fields (collection_name : string) : list string :=
  match alist_get "models" get_schema_models with
  | Some (VList models) =>
      match find (fun m => match m with
                           | VDict d =>
                               py_eq (dict_get_default "collection" d)
                                 (VStr collection_name)
                           | _ => false
                           end) models with
      | Some (VDict d) =>
          match alist_get "fields" d with
          | Some (VList l) =>
              flat_map (fun v => match v with VStr s => [s] | _ => [] end) l
          | _ => []
          end
      | _ => []
      end
  | _ => []
  end.

(* ================================================================== *)
(** * The documents the handlers store *)
(* ================================================================== *)

(** A value is a timestamp. *)
Definition is_datetime (v : value) : bool :=
  match v with VDatetime _ => true | _ => false end.


(** The document that [create_booking] stores: the provider is the one
    the service names, the customer is the caller, the price is the
    service's. *)
Definition new_booking_doc (data : BookingCreateRequest.t)
    (provider_id customer_id total_price : value)
    (now : datetime) (fresh : ObjectId) : dict :=
  ("_id", VObjectId fresh)
  :: dict_set "updated_at" (VDatetime now)
       (dict_set "created_at" (VDatetime now)
          [ ("service_id", VStr (BookingCreateRequest.service_id data));
            ("provider_id", provider_id);
            ("customer_id", customer_id);
            ("scheduled_start",
              opt_str (BookingCreateRequest.scheduled_start data));
            ("scheduled_end", opt_str (BookingCreateRequest.scheduled_end data));
            ("message", opt_str (BookingCreateRequest.message data));
            ("answers",
              VList (map (fun a => VDict (BookingAnswer.model_dump a))
                         (BookingCreateRequest.answers data)));
            ("status", VStr "pending");
            ("total_price", total_price) ]).

(* ================================================================== *)
(** * A driver to run the listings with *)
(* ================================================================== *)

Module DemoDriver.

(** [p] occurs in [s]. *)
Fixpoint contains (s p : string) : bool :=
  orb (PyStr.startswith s p)
      (match s with
       | EmptyString => false
       | String _ s' => contains s' p
       end).

(** Patterns without operators: the text is searched for the pattern,
    letters compared without case under the option [i]. *)
Definition regex (pattern options : string) : option (string -> bool) :=
  if contains options "i"
  then Some (fun s => contains (PyStr.lower s) (PyStr.lower pattern))
  else Some (fun s => contains s pattern).

(** No limit for 0, and otherwise as many documents as the limit says. *)
Definition cursor_limit (n : Z) (l : list dict) : list dict :=
  if Z.eqb n 0 then l else firstn (Z.to_nat (Z.abs n)) l.

(** The instant under a key, for the documents that carry one. *)
Definition instant (key : string) (d : dict) : Z :=
  match alist_get key d with Some (VDatetime t) => t | _ => 0%Z end.

Fixpoint insert_by (key : string) (direction : Z) (d : dict) (l : list dict)
    : list dict :=
  match l with
  | [] => [d]
  | x :: l' =>
      if Z.leb (direction * instant key x) (direction * instant key d)
      then d :: l else x :: insert_by key direction d l'
  end.

(** An insertion sort on the instant under [key]. *)
Definition cursor_sort (key : string) (direction : Z) (l : list dict)
    : list dict :=
  fold_right (insert_by key direction) [] l.

End DemoDriver.

(* ================================================================== *)
(** * Proof automation: runs that end in any outcome *)
(* ================================================================== *)

(** As [step], for a run that inserts a document built by the handler:
    the lookup of [_id] in such a document is settled by computation. *)
Ltac settle_new_doc :=
  match goal with
  | H : context [alist_get "_id" ?d] |- _ =>
      progress change (alist_get "_id" d) with (@None value) in H
  | H : context [dict_mem "_id" ?d] |- _ =>
      progress change (dict_mem "_id" d) with false in H
  | H : context [py_str (VObjectId ?o)] |- _ =>
      progress change (py_str (VObjectId o)) with (Hex.hexlify o) in H
  end.

Ltac run_cases :=
  unfold_run;
  repeat (first [settle_new_doc | step]; try discriminate; inv_pair;
          cbn [fst snd coll set_coll user service booking] in * );
  try discriminate.

(* ================================================================== *)
(** * Properties *)
(* ================================================================== *)

(** ** Test vectors of the library models *)

Example sha256_of_abc : Sha256.hexdigest "abc" = "ba7816bf8f01cfea414140de5dae2223b00361a396177a9cb410ff61f20015ad".
Proof. vm_compute. reflexivity. Qed.
Example sha256_of_empty : Sha256.hexdigest "" = "e3b0c44298fc1c149afbf4c8996fb92427ae41e4649b934ca495991b7852b855".
Proof. vm_compute. reflexivity. Qed.
Example sha256_of_two_blocks : Sha256.hexdigest "aaaaaaaaaaaaaaaaaaaaaaaaaaaaaaaaaaaaaaaaaaaaaaaaaaaaaaaaaaaaaaaaaaaaaa" = "6bd5e5034855a11241f0dee8fc72850ffd9955b28347a86428b5fa19119f6ad0".
Proof. vm_compute. reflexivity. Qed.
Example sha256_constants :
  nth 0 Sha256.K 0%Z = 0x428a2f98%Z /\ nth 63 Sha256.K 0%Z = 0xc67178f2%Z
  /\ nth 0 Sha256.H0 0%Z = 0x6a09e667%Z /\ length Sha256.K = 64.
Proof. vm_compute. auto. Qed.
Example fromhex_skips_spaces : Hex.fromhex "aa bBcc
" = Some (String (ascii_of_nat 170) (String (ascii_of_nat 187) (String (ascii_of_nat 204) ""))).
Proof. vm_compute. reflexivity. Qed.
Example split_on_first_space : PyStr.split_space_1 "Bearer  tok " = ["Bearer"; " tok "].
Proof. reflexivity. Qed.
Example strip_both_ends : PyStr.strip "  a b  " = "a b". Proof. reflexivity. Qed.

Example isoformat_leap_day : DateTime.isoformat 1709210096123456%Z = "2024-02-29T12:34:56.123456+00:00".
Proof. vm_compute. reflexivity. Qed.
Example isoformat_whole_second : DateTime.isoformat 1704067200000000%Z = "2024-01-01T00:00:00+00:00".
Proof. vm_compute. reflexivity. Qed.
Example isoformat_before_epoch : DateTime.isoformat (-1)%Z = "1969-12-31T23:59:59.999999+00:00".
Proof. vm_compute. reflexivity. Qed.
Example str_of_last_instant : DateTime.to_str 253402300799999999%Z = "9999-12-31 23:59:59.999999+00:00".
Proof. vm_compute. reflexivity. Qed.

Lemma append_keeps_suffix (a b suffix : string) :
  (exists body, b = (body ++ suffix)%string) ->
  exists body, (a ++ b)%string = (body ++ suffix)%string.
Proof.
  intros [body ->]. exists (a ++ body)%string.
  induction a as [|c a IH]; simpl; [reflexivity|]. rewrite IH. reflexivity.
Qed.

(** The text of a timestamp always ends with the UTC offset. *)
Lemma isoformat_is_utc (t : datetime) :
  exists body, DateTime.isoformat t = (body ++ "+00:00")%string.
Proof.
  unfold DateTime.isoformat, DateTime.format.
  destruct (DateTime.civil _) as [[y m] d].
  do 12 apply append_keeps_suffix.
  exists ""%string. reflexivity.
Qed.

(** ** Hexadecimal text *)

Lemma fromhex_byte (b : ascii) (rest : string) :
  Hex.fromhex (Hex.hexlify (String b rest))
  = match Hex.fromhex (Hex.hexlify rest) with
    | Some r => Some (String b r)
    | None => None
    end.
Proof.
  destruct b as [[] [] [] [] [] [] [] []]; reflexivity.
Qed.

Lemma fromhex_hexlify (bytes : string) :
  Hex.fromhex (Hex.hexlify bytes) = Some bytes.
Proof.
  induction bytes as [|b rest IH].
  - reflexivity.
  - rewrite fromhex_byte, IH. reflexivity.
Qed.

Lemma length_hexlify (bytes : string) :
  String.length (Hex.hexlify bytes) = 2 * String.length bytes.
Proof.
  induction bytes as [|b rest IH]; simpl; [reflexivity|].
  rewrite IH. lia.
Qed.

Lemma ObjectId_of_hexlify (o : ObjectId) :
  String.length o = 12 -> ObjectId_of (VStr (Hex.hexlify o)) = Some o.
Proof.
  intros Hlen. unfold ObjectId_of.
  rewrite length_hexlify, Hlen. simpl. apply fromhex_hexlify.
Qed.

(** ** Whitespace *)

Lemma rstrip_no_space (s : string) : no_space s = true -> PyStr.rstrip s = s.
Proof.
  induction s as [|c s IH]; simpl; [reflexivity|].
  intros H. apply andb_prop in H. destruct H as [Hc Hs].
  rewrite (IH Hs). destruct s.
  - apply negb_true_iff in Hc. rewrite Hc. reflexivity.
  - reflexivity.
Qed.

Lemma strip_no_space (s : string) : no_space s = true -> PyStr.strip s = s.
Proof.
  intros H. unfold PyStr.strip.
  assert (PyStr.lstrip s = s) as ->.
  { destruct s; simpl in *; [reflexivity|].
    apply andb_prop in H. destruct H as [Hc _].
    apply negb_true_iff in Hc. rewrite Hc. reflexivity. }
  apply rstrip_no_space. exact H.
Qed.

Lemma no_space_hexlify (bytes : string) : no_space (Hex.hexlify bytes) = true.
Proof.
  induction bytes as [|b rest IH]; [reflexivity|].
  change (Hex.hexlify (String b rest))
    with (String (Hex.digit (nat_of_ascii b / 16))
            (String (Hex.digit (nat_of_ascii b mod 16)) (Hex.hexlify rest))).
  cbn [no_space]. rewrite IH.
  destruct b as [[] [] [] [] [] [] [] []]; reflexivity.
Qed.

Lemma strip_token_hex (n : nat) (rnd : string) :
  PyStr.strip (token_hex n rnd) = token_hex n rnd.
Proof. apply strip_no_space, no_space_hexlify. Qed.

(** ** Dictionaries *)

Lemma alist_get_dict_set_eq (k : string) (v : value) (d : dict) :
  alist_get k (dict_set k v d) = Some v.
Proof.
  induction d as [|[k' v'] d IH]; simpl.
  - rewrite String.eqb_refl. reflexivity.
  - destruct (String.eqb k k') eqn:E; simpl.
    + rewrite String.eqb_refl. reflexivity.
    + rewrite E. exact IH.
Qed.

Lemma alist_get_dict_set_neq (k k' : string) (v : value) (d : dict) :
  k' <> k -> alist_get k' (dict_set k v d) = alist_get k' d.
Proof.
  intros Hne. apply String.eqb_neq in Hne.
  induction d as [|[k0 v0] d IH]; simpl.
  - rewrite Hne. reflexivity.
  - destruct (String.eqb k k0) eqn:E; simpl.
    + apply String.eqb_eq in E. subst k0. rewrite Hne. reflexivity.
    + destruct (String.eqb k' k0); [reflexivity | exact IH].
Qed.

Lemma alist_get_dict_update_notin (e d : dict) (k : string) :
  alist_get k e = None -> alist_get k (dict_update e d) = alist_get k d.
Proof.
  unfold dict_update. revert d.
  induction e as [|[k0 v0] e IH]; intros d H; simpl in *; [reflexivity|].
  destruct (String.eqb k k0) eqn:E; [discriminate|].
  rewrite (IH _ H). apply alist_get_dict_set_neq.
  apply String.eqb_neq. exact E.
Qed.

Lemma alist_get_dict_remove_eq (k : string) (d : dict) :
  alist_get k (dict_remove k d) = None.
Proof.
  unfold dict_remove.
  induction d as [|[k' v'] d IH]; simpl; [reflexivity|].
  destruct (String.eqb k k') eqn:E; simpl; [exact IH|].
  rewrite E. exact IH.
Qed.

Lemma alist_get_dict_remove_neq (k k' : string) (d : dict) :
  k' <> k -> alist_get k' (dict_remove k d) = alist_get k' d.
Proof.
  intros Hne. apply String.eqb_neq in Hne. unfold dict_remove.
  induction d as [|[k0 v0] d IH]; simpl; [reflexivity|].
  destruct (String.eqb k k0) eqn:E; simpl.
  - apply String.eqb_eq in E. subst k0. rewrite Hne. exact IH.
  - destruct (String.eqb k' k0); [reflexivity | exact IH].
Qed.

Lemma alist_get_map_values (f : value -> value) (k : string) (d : dict) :
  alist_get k (map (fun kv => (fst kv, f (snd kv))) d)
  = option_map f (alist_get k d).
Proof.
  induction d as [|[k' v'] d IH]; simpl; [reflexivity|].
  destruct (String.eqb k k'); [reflexivity | exact IH].
Qed.

(** ** The serializer, field by field *)

Lemma serialize_dict_other (d : dict) (k : string) :
  k <> "_id" -> k <> "id" ->
  alist_get k (serialize_dict d) = option_map iso_if_datetime (alist_get k d).
Proof.
  intros H1 H2. unfold serialize_dict.
  rewrite alist_get_map_values.
  destruct (alist_get "_id" d); [|reflexivity].
  rewrite alist_get_dict_set_neq by assumption.
  rewrite alist_get_dict_remove_neq by assumption. reflexivity.
Qed.

Lemma serialize_dict_id (d : dict) (v : value) :
  alist_get "_id" d = Some v ->
  alist_get "id" (serialize_dict d) = Some (VStr (py_str v))
  /\ alist_get "_id" (serialize_dict d) = None.
Proof.
  intros H. unfold serialize_dict. rewrite H, !alist_get_map_values.
  rewrite alist_get_dict_set_eq.
  rewrite alist_get_dict_set_neq by discriminate.
  rewrite alist_get_dict_remove_eq. split; reflexivity.
Qed.

Lemma serialize_dict_no_id (d : dict) (k : string) :
  alist_get "_id" d = None ->
  alist_get k (serialize_dict d) = option_map iso_if_datetime (alist_get k d).
Proof.
  intros H. unfold serialize_dict. rewrite H. apply alist_get_map_values.
Qed.

Lemma serialize_some (d : dict) : serialize (Some d) = Some (serialize_dict d).
Proof. destruct d; reflexivity. Qed.

(** ** The store *)

Lemma find_split {A : Type} (p : A -> bool) (l : list A) (x : A) :
  find p l = Some x ->
  exists l1 l2, l = l1 ++ x :: l2 /\ p x = true /\ existsb p l1 = false.
Proof.
  induction l as [|a l IH]; simpl; [discriminate|].
  destruct (p a) eqn:E.
  - intros H. injection H as ->. exists [], l. auto.
  - intros H. destruct (IH H) as (l1 & l2 & -> & Hx & Hl1).
    exists (a :: l1), l2. simpl. rewrite E. auto.
Qed.

Lemma find_app_first {A : Type} (p : A -> bool) (l1 l2 : list A) (x : A) :
  existsb p l1 = false -> p x = true -> find p (l1 ++ x :: l2) = Some x.
Proof.
  induction l1 as [|a l1 IH]; simpl; intros H Hx.
  - rewrite Hx. reflexivity.
  - apply orb_false_iff in H. destruct H as [Ha Hl]. rewrite Ha. auto.
Qed.

Lemma find_none_existsb {A : Type} (p : A -> bool) (l : list A) :
  find p l = None <-> existsb p l = false.
Proof.
  induction l as [|a l IH]; simpl; [tauto|].
  destruct (p a); simpl; [split; discriminate | exact IH].
Qed.

Lemma update_first_split (p : dict -> bool) (f : dict -> option dict)
    (l1 l2 : list dict) (x : dict) :
  existsb p l1 = false -> p x = true ->
  update_first p f (l1 ++ x :: l2) = option_map (fun x' => l1 ++ x' :: l2) (f x).
Proof.
  induction l1 as [|a l1 IH]; simpl; intros H Hx.
  - rewrite Hx. reflexivity.
  - apply orb_false_iff in H. destruct H as [Ha Hl]. rewrite Ha.
    rewrite (IH Hl Hx). destruct (f x); reflexivity.
Qed.

Lemma remove_first_split (p : dict -> bool) (l1 l2 : list dict) (x : dict) :
  existsb p l1 = false -> p x = true ->
  remove_first p (l1 ++ x :: l2) = l1 ++ l2.
Proof.
  induction l1 as [|a l1 IH]; simpl; intros H Hx.
  - rewrite Hx. reflexivity.
  - apply orb_false_iff in H. destruct H as [Ha Hl]. rewrite Ha.
    rewrite (IH Hl Hx). reflexivity.
Qed.

(** A filter on [_id] against a document whose [_id] is an [ObjectId]. *)
Lemma matches_id (o : ObjectId) (d : dict) :
  matches [("_id", VObjectId o)] d
  = match alist_get "_id" d with
    | Some v => field_matches (Some v) (VObjectId o)
    | None => false
    end.
Proof.
  unfold matches. simpl. destruct (alist_get "_id" d); simpl.
  - apply andb_true_r.
  - reflexivity.
Qed.

Lemma matches_id_has_oid (o : ObjectId) (d : dict) :
  oid_of d <> None -> matches [("_id", VObjectId o)] d = has_oid o d.
Proof.
  rewrite matches_id. unfold has_oid, oid_of.
  destruct (alist_get "_id" d) as [[]|]; try congruence.
  intros _. simpl. rewrite orb_false_r. reflexivity.
Qed.

Lemma matches_nonempty (k : string) (s : value) (d : dict) :
  py_eq VNone s = false -> matches [(k, s)] d = true -> falsy_doc (Some d) = false.
Proof.
  intros Hs. destruct d; [|reflexivity].
  unfold matches. cbn [forallb fst snd alist_get field_matches].
  rewrite Hs. discriminate.
Qed.

Lemma update_first_Forall2 (R : dict -> dict -> Prop) (p : dict -> bool)
    (f : dict -> option dict) (l l' : list dict) :
  (forall d, R d d) -> (forall d d', f d = Some d' -> R d d') ->
  update_first p f l = Some l' -> Forall2 R l l'.
Proof.
  intros Hrefl Hf. revert l'.
  induction l as [|a l IH]; simpl; intros l' H.
  - injection H as <-. constructor.
  - destruct (p a).
    + destruct (f a) as [a'|] eqn:E; [|discriminate].
      injection H as <-. constructor; [auto|].
      clear -Hrefl. induction l; constructor; auto.
    + destruct (update_first p f l) as [l0|]; [|discriminate].
      injection H as <-. constructor; auto.
Qed.

(** ** The guards of the mutating handlers *)

Lemma find_matches_truthy (k : string) (t : value) (l : list dict) (d : dict) :
  py_eq VNone t = false ->
  find (matches [(k, t)]) l = Some d -> falsy_doc (Some d) = false.
Proof.
  intros Ht H. apply find_some in H. destruct H as [_ H].
  eapply matches_nonempty; eassumption.
Qed.


Lemma delete_service_missing id oid current db :
  ObjectId_of (VStr id) = Some oid ->
  find (matches [("_id", VObjectId oid)]) (service db) = None ->
  delete_service id current db
  = (Raise (HTTPException 404 "Service not found"), db).
Proof.
  intros H1 H2. unfold delete_service.
  run_with ltac:(rewrite ?H1, ?H2). reflexivity.
Qed.




Lemma update_booking_status_not_owner id oid req c cid bk now db :
  ObjectId_of (VStr id) = Some oid ->
  find (matches [("_id", VObjectId oid)]) (booking db) = Some bk ->
  alist_get "id" c = Some cid ->
  py_ne (dict_get_default "provider_id" bk) cid = true ->
  update_booking_status id req (Some c) now db
  = (Raise (HTTPException 403 "Only provider can change status"), db).
Proof.
  intros H1 H2 H3 H4. unfold update_booking_status.
  pose proof (find_matches_truthy "_id" (VObjectId oid) _ _ eq_refl H2) as H5.
  run_with ltac:(rewrite ?H1, ?H2, ?H3, ?H4, ?H5). reflexivity.
Qed.


(** ** Service updates leave the bookings alone *)

Lemma update_service_booking_frame id payload current now db :
  booking (snd (update_service id payload current now db)) = booking db.
Proof.
  unfold update_service.
  destruct (ObjectId_of (VStr id)) as [oid|] eqn:E1;
    [|run_with ltac:(rewrite ?E1); reflexivity].
  destruct (find (matches [("_id", VObjectId oid)]) (service db)) as [svc|] eqn:E2;
    [|run_with ltac:(rewrite ?E1, ?E2); reflexivity].
  destruct (falsy_doc (Some svc)) eqn:E3;
    [run_with ltac:(rewrite ?E1, ?E2, ?E3); reflexivity|].
  destruct current as [c|];
    [|run_with ltac:(rewrite ?E1, ?E2, ?E3); reflexivity].
  destruct (alist_get "id" c) as [cid|] eqn:E4;
    [|run_with ltac:(rewrite ?E1, ?E2, ?E3, ?E4); reflexivity].
  destruct (py_ne (dict_get_default "provider_id" svc) cid) eqn:E5;
    [run_with ltac:(rewrite ?E1, ?E2, ?E3, ?E4, ?E5); reflexivity|].
  destruct (alist_get "_id" svc) as [sid|] eqn:E6;
    [|run_with ltac:(rewrite ?E1, ?E2, ?E3, ?E4, ?E5, ?E6); reflexivity].
  run_with ltac:(rewrite ?E1, ?E2, ?E3, ?E4, ?E5, ?E6).
  match goal with
  | |- context [update_first ?p ?f ?l] => destruct (update_first p f l)
  end; cbv beta iota; cbn [fst snd coll set_coll user service booking];
    rewrite ?E6; reflexivity.
Qed.

Lemma update_services_booking_frame reqs db :
  booking (update_services reqs db) = booking db.
Proof.
  unfold update_services. revert db.
  induction reqs as [|r reqs IH]; intros db; simpl; [reflexivity|].
  rewrite IH. apply update_service_booking_frame.
Qed.

(** ** The store invariant *)

Lemma ids_ok_In (l : list dict) (d : dict) :
  ids_ok l = true -> In d l ->
  exists o, alist_get "_id" d = Some (VObjectId o) /\ String.length o = 12.
Proof.
  induction l as [|a l IH]; simpl; [tauto|].
  unfold oid_of at 1.
  destruct (alist_get "_id" a) as [[]|] eqn:E; try discriminate.
  intros H [<-|Hd].
  - apply andb_prop in H. destruct H as [H _].
    apply Nat.eqb_eq in H. eauto.
  - apply andb_prop in H. destruct H as [_ H].
    apply andb_prop in H. destruct H as [_ H]. auto.
Qed.

Lemma existsb_matches_id (o : ObjectId) (l : list dict) :
  ids_ok l = true ->
  existsb (matches [("_id", VObjectId o)]) l = existsb (has_oid o) l.
Proof.
  intros H. induction l as [|a l IH]; [reflexivity|].
  simpl in H. destruct (oid_of a) as [o'|] eqn:E; [|discriminate].
  apply andb_prop in H. destruct H as [_ H].
  apply andb_prop in H. destruct H as [_ H].
  cbn [existsb]. rewrite (IH H). f_equal.
  apply matches_id_has_oid. congruence.
Qed.

Lemma existsb_has_oid_app (o : ObjectId) (l1 l2 : list dict) (u : dict) :
  existsb (has_oid o) (l1 ++ u :: l2)
  = orb (existsb (has_oid o) l1) (orb (has_oid o u) (existsb (has_oid o) l2)).
Proof. rewrite existsb_app. reflexivity. Qed.

Lemma has_oid_sym (o o' : ObjectId) (d d' : dict) :
  oid_of d = Some o -> oid_of d' = Some o' -> has_oid o d' = has_oid o' d.
Proof.
  intros H H'. unfold has_oid. rewrite H, H'. apply String.eqb_sym.
Qed.

(** In a collection that satisfies the invariant, nothing before or after
    a document shares its identifier. *)
Lemma ids_ok_unique (l1 l2 : list dict) (u : dict) (o : ObjectId) :
  ids_ok (l1 ++ u :: l2) = true -> oid_of u = Some o ->
  existsb (has_oid o) l1 = false /\ existsb (has_oid o) l2 = false
  /\ String.length o = 12.
Proof.
  intros H Hu. induction l1 as [|a l1 IH]; simpl in H.
  - rewrite Hu in H.
    apply andb_prop in H. destruct H as [Hl H].
    apply andb_prop in H. destruct H as [H _].
    apply negb_true_iff in H. apply Nat.eqb_eq in Hl. auto.
  - destruct (oid_of a) as [o'|] eqn:E; [|discriminate].
    apply andb_prop in H. destruct H as [_ H].
    apply andb_prop in H. destruct H as [Ha H].
    destruct (IH H) as (H1 & H2 & H3).
    split; [|auto]. cbn [existsb]. rewrite H1, orb_false_r.
    apply negb_true_iff in Ha. rewrite existsb_has_oid_app in Ha.
    apply orb_false_iff in Ha. destruct Ha as [_ Ha].
    apply orb_false_iff in Ha. destruct Ha as [Ha _].
    rewrite (has_oid_sym o o' u a Hu E). exact Ha.
Qed.

(** Rewriting a document without touching its identifier keeps the
    invariant. *)
Lemma ids_ok_replace (l1 l2 : list dict) (u u' : dict) :
  oid_of u' = oid_of u ->
  ids_ok (l1 ++ u :: l2) = true -> ids_ok (l1 ++ u' :: l2) = true.
Proof.
  intros Hu. induction l1 as [|a l1 IH]; simpl.
  - rewrite Hu. tauto.
  - destruct (oid_of a) as [o|]; [|discriminate].
    intros H. apply andb_prop in H. destruct H as [Hl H].
    apply andb_prop in H. destruct H as [Ha H].
    rewrite Hl, (IH H), andb_true_r. simpl.
    rewrite existsb_has_oid_app in *.
    assert (has_oid o u' = has_oid o u) as ->
      by (unfold has_oid; rewrite Hu; reflexivity).
    exact Ha.
Qed.

Lemma ids_ok_snoc (l : list dict) (d : dict) (o : ObjectId) :
  ids_ok l = true -> oid_of d = Some o -> String.length o = 12 ->
  existsb (has_oid o) l = false -> ids_ok (l ++ [d]) = true.
Proof.
  intros Hl Hd Hlen. induction l as [|a l IH]; simpl.
  - intros _. rewrite Hd, Hlen. reflexivity.
  - simpl in Hl. destruct (oid_of a) as [o'|] eqn:E; [|discriminate].
    apply andb_prop in Hl. destruct Hl as [Hl1 Hl].
    apply andb_prop in Hl. destruct Hl as [Ha Hl].
    intros H. apply orb_false_iff in H. destruct H as [H1 H2].
    rewrite Hl1, (IH Hl H2), andb_true_r. simpl.
    rewrite existsb_app. cbn [existsb].
    apply negb_true_iff in Ha. rewrite Ha. simpl.
    rewrite (has_oid_sym o' o a d E Hd), H1. reflexivity.
Qed.

(** What a lookup by identifier finds carries exactly that identifier. *)
Lemma find_by_id_oid (o : ObjectId) (l : list dict) (d : dict) :
  ids_ok l = true ->
  find (matches [("_id", VObjectId o)]) l = Some d ->
  alist_get "_id" d = Some (VObjectId o).
Proof.
  intros Hok H. apply find_some in H. destruct H as [Hin Hm].
  destruct (ids_ok_In l d Hok Hin) as (o' & E & _).
  rewrite matches_id_has_oid in Hm by (unfold oid_of; rewrite E; discriminate).
  unfold has_oid, oid_of in Hm. rewrite E in Hm.
  apply String.eqb_eq in Hm. congruence.
Qed.

Lemma matches_same_field (k : string) (t : value) (d d' : dict) :
  alist_get k d' = alist_get k d -> matches [(k, t)] d' = matches [(k, t)] d.
Proof.
  intros H. unfold matches. cbn [forallb fst snd]. rewrite H. reflexivity.
Qed.

Lemma py_eq_str_refl (s : string) : py_eq (VStr s) (VStr s) = true.
Proof. apply String.eqb_refl. Qed.

(** ** The status update by the provider *)


(** The status update on a booking that exists and that the caller owns. *)
Lemma update_booking_status_owner
    (booking_id : string) (oid : ObjectId) (bk c : dict) (cid : value)
    (req : BookingStatusUpdate.t) (now : datetime) (db : DB) :
  ids_ok (booking db) = true ->
  ObjectId_of (VStr booking_id) = Some oid ->
  find (matches [("_id", VObjectId oid)]) (booking db) = Some bk ->
  alist_get "id" c = Some cid ->
  py_eq (dict_get_default "provider_id" bk) cid = true ->
  let bk' := dict_update [ ("status", VStr (BookingStatusUpdate.status req));
                           ("updated_at", VDatetime now) ] bk in
  exists l1 l2,
    booking db = l1 ++ bk :: l2
    /\ update_booking_status booking_id req (Some c) now db
       = (Ok (serialize (Some bk')),
          mkDB (user db) (service db) (l1 ++ bk' :: l2))
    /\ find (matches [("_id", VObjectId oid)]) (l1 ++ bk' :: l2) = Some bk'
    /\ ids_ok (l1 ++ bk' :: l2) = true.
Proof.
  intros Hok Hoid Hfind Hcid Hown bk'.
  pose proof (find_by_id_oid _ _ _ Hok Hfind) as Hid.
  pose proof (find_matches_truthy "_id" (VObjectId oid) _ _ eq_refl Hfind) as Ht.
  destruct (find_split _ _ _ Hfind) as (l1 & l2 & Hl & Hm & Hl1).
  assert (alist_get "_id" bk' = alist_get "_id" bk) as Hid'
    by (apply alist_get_dict_update_notin; reflexivity).
  assert (matches [("_id", VObjectId oid)] bk' = true) as Hm'
    by (rewrite (matches_same_field _ _ _ _ Hid'); exact Hm).
  assert (find (matches [("_id", VObjectId oid)]) (l1 ++ bk' :: l2) = Some bk')
    as Hfind' by (apply find_app_first; assumption).
  exists l1, l2. split; [exact Hl|]. split; [|split; [exact Hfind'|]].
  - unfold update_booking_status.
    assert (py_ne (dict_get_default "provider_id" bk) cid = false) as Hne
      by (unfold py_ne; rewrite Hown; reflexivity).
    pose proof (update_first_split (matches [("_id", VObjectId oid)])
                  (apply_update
                     (Set_ [ ("status", VStr (BookingStatusUpdate.status req));
                             ("updated_at", VDatetime now) ]))
                  l1 l2 bk Hl1 Hm) as Hupd.
    rewrite <- Hl in Hupd. cbn [apply_update option_map] in Hupd.
    fold bk' in Hupd.
    run_with ltac:(rewrite ?Hoid, ?Hfind, ?Ht, ?Hcid, ?Hne, ?Hid, ?Hupd, ?Hfind').
    reflexivity.
  - rewrite Hl in Hok. eapply ids_ok_replace; [|exact Hok].
    unfold oid_of. rewrite Hid'. reflexivity.
Qed.

(** ** The auth dependency *)

Lemma get_current_user_bearer (token : string) (db : DB) :
  PyStr.strip token = token ->
  get_current_user (bearer token) db = lookup_token token db.
Proof.
  intros Hs. unfold get_current_user, bearer.
  change (PyStr.falsy (Some ("Bearer " ++ token)%string)) with false.
  cbv beta iota.
  change (negb (PyStr.startswith (PyStr.lower ("Bearer " ++ token)) "bearer "))
    with false.
  change (nth_error (PyStr.split_space_1 ("Bearer " ++ token)) 1)
    with (Some token).
  cbv beta iota. rewrite Hs.
  unfold bind, find_one, lookup_token, raise, ret. cbn [coll].
  destruct (falsy_doc _); reflexivity.
Qed.

Lemma get_current_user_inv (h : option string) (db db' : DB) (r : option dict) :
  get_current_user h db = (Ok r, db') ->
  exists token u,
    db' = db /\ r = Some (serialize_dict u)
    /\ find (matches [("tokens", VStr token)]) (user db) = Some u
    /\ forall db2, get_current_user h db2 = lookup_token token db2.
Proof.
  unfold get_current_user.
  destruct (PyStr.falsy h); [discriminate|].
  destruct (negb _); [discriminate|].
  destruct (nth_error _ 1) as [rest|]; [|discriminate].
  intros H. exists (PyStr.strip rest).
  unfold bind, find_one, raise, ret in H. cbn [coll] in H.
  destruct (find _ (user db)) as [u|] eqn:E; [|discriminate].
  exists u. rewrite serialize_some in H.
  destruct (falsy_doc (Some u)); [discriminate|].
  injection H as <- <-. repeat split; try reflexivity.
  intros db2. unfold bind, find_one, lookup_token, raise, ret. cbn [coll].
  destruct (falsy_doc _); reflexivity.
Qed.

Lemma lookup_token_found (token : string) (db : DB) (u : dict) :
  find (matches [("tokens", VStr token)]) (user db) = Some u ->
  lookup_token token db = (Ok (Some (serialize_dict u)), db).
Proof.
  intros H. unfold lookup_token. rewrite H.
  rewrite (find_matches_truthy "tokens" (VStr token) _ _ eq_refl H).
  rewrite serialize_some. reflexivity.
Qed.

(** ** Signup *)



Lemma signup_inv payload rnd_salt rnd_token fresh db r db' :
  signup payload rnd_salt rnd_token fresh db = (Ok r, db') ->
  db' = mkDB (user db ++ [new_user_doc payload rnd_salt rnd_token fresh])
          (service db) (booking db)
  /\ r = [ ("user", VDict [ ("id", VStr (Hex.hexlify fresh));
                            ("name", VStr (SignupRequest.name payload));
                            ("email", VStr (SignupRequest.email payload));
                            ("provider_mode", VBool false) ]);
           ("token", VStr (new_token rnd_token)) ]
  /\ existsb (matches [("_id", VObjectId fresh)]) (user db) = false.
Proof.
  unfold signup. intros H. run_inv.
  all: repeat split; try reflexivity; assumption.
Qed.

Lemma matches_token_appended (t token : string) (u : dict) (toks : list value) :
  alist_get "tokens" u = Some (VList toks) ->
  matches [("tokens", VStr t)] (dict_set "tokens" (VList (toks ++ [VStr token])) u)
  = orb (matches [("tokens", VStr t)] u) (String.eqb token t).
Proof.
  intros H. unfold matches. cbn [forallb fst snd].
  rewrite alist_get_dict_set_eq, H. unfold field_matches.
  cbn [py_eq orb]. rewrite existsb_app. cbn [existsb py_eq].
  rewrite !andb_true_r, orb_false_r. reflexivity.
Qed.

Lemma matches_token_new_user payload rnd_salt rnd_token fresh :
  matches [("tokens", VStr (new_token rnd_token))]
    (new_user_doc payload rnd_salt rnd_token fresh) = true.
Proof.
  unfold matches, new_user_doc.
  cbn [forallb fst snd alist_get String.eqb Ascii.eqb Bool.eqb field_matches
       existsb py_eq orb andb].
  rewrite String.eqb_refl. reflexivity.
Qed.

(** ** Login *)

Lemma find_app_split {A : Type} (p : A -> bool) (l1 l2 : list A) :
  find p (l1 ++ l2)
  = match find p l1 with Some x => Some x | None => find p l2 end.
Proof.
  induction l1 as [|a l1 IH]; simpl; [reflexivity|].
  destruct (p a); [reflexivity | exact IH].
Qed.

Lemma existsb_matches_id_prefix (o : ObjectId) (l1 l2 : list dict) :
  ids_ok (l1 ++ l2) = true ->
  existsb (matches [("_id", VObjectId o)]) l1 = existsb (has_oid o) l1.
Proof.
  induction l1 as [|a l1 IH]; [reflexivity|]. simpl.
  destruct (oid_of a) as [o'|] eqn:E; [|discriminate].
  intros H. apply andb_prop in H. destruct H as [_ H].
  apply andb_prop in H. destruct H as [_ H].
  rewrite (IH H). f_equal. apply matches_id_has_oid. congruence.
Qed.

(** The effect of [$push] of a token on one user document. *)
Lemma push_token (token : string) (u u' : dict) :
  apply_update (Push "tokens" (VStr token)) u = Some u' ->
  tokens_of u' = tokens_of u ++ [VStr token]
  /\ (forall k, k <> "tokens" -> alist_get k u' = alist_get k u)
  /\ (forall t, matches [("tokens", VStr t)] u'
                = orb (matches [("tokens", VStr t)] u) (String.eqb token t))
  /\ alist_get "tokens" (serialize_dict u) = alist_get "tokens" u.
Proof.
  unfold apply_update, tokens_of.
  rewrite (serialize_dict_other u "tokens") by discriminate.
  destruct (alist_get "tokens" u) as [[]|] eqn:E; try discriminate;
    intros H; injection H as <-.
  - rewrite alist_get_dict_set_eq.
    split; [reflexivity|].
    split; [intros k Hk; apply alist_get_dict_set_neq; exact Hk|].
    split; [|reflexivity].
    intros t. apply matches_token_appended. exact E.
  - rewrite alist_get_dict_set_eq.
    split; [reflexivity|].
    split; [intros k Hk; apply alist_get_dict_set_neq; exact Hk|].
    split; [|reflexivity].
    intros t. unfold matches. cbn [forallb fst snd].
    rewrite alist_get_dict_set_eq, E. unfold field_matches.
    cbn [py_eq existsb orb andb]. rewrite orb_false_r, andb_true_r.
    reflexivity.
Qed.

(** What a successful [login] has done. *)
Lemma login_inv (payload : LoginRequest.t) (rnd : string)
    (db db' : DB) (r : dict) :
  ids_ok (user db) = true ->
  login payload rnd db = (Ok r, db') ->
  exists l1 l2 u u' o,
    user db = l1 ++ u :: l2
    /\ existsb (matches (by_email (LoginRequest.email payload))) l1 = false
    /\ matches (by_email (LoginRequest.email payload)) u = true
    /\ alist_get "_id" u = Some (VObjectId o)
    /\ apply_update (Push "tokens" (VStr (new_token rnd))) u = Some u'
    /\ db' = mkDB (l1 ++ u' :: l2) (service db) (booking db)
    /\ r = [ ("user", VDict (serialize_dict u));
             ("token", VStr (new_token rnd)) ].
Proof.
  intros Hok H. unfold login in H. run_inv.
  match goal with
  | H : find _ (user _) = Some ?u |- _ =>
      destruct (find_split _ _ _ H) as (l1 & l2 & Hl & Hm & Hl1);
      pose proof (find_some _ _ H) as [Hin _]
  end.
  match goal with
  | H : In ?u _ |- _ =>
      destruct (ids_ok_In _ _ Hok H) as (o & Hid & Hlen)
  end.
  rewrite Hl in Hok.
  destruct (ids_ok_unique _ _ _ o Hok) as (Hu1 & _ & _);
    [unfold oid_of; rewrite Hid; reflexivity|].
  rewrite <- (existsb_matches_id_prefix o _ _ Hok) in Hu1.
  match goal with
  | H : update_first _ _ _ = Some _, H' : alist_get "_id" _ = Some ?a |- _ =>
      rewrite Hid in H'; injection H' as <-;
      rewrite Hl in H; rewrite update_first_split in H;
        [|exact Hu1
         |rewrite matches_id_has_oid by (unfold oid_of; rewrite Hid; discriminate);
          unfold has_oid, oid_of; rewrite Hid; apply String.eqb_refl]
  end.
  match goal with
  | H : option_map _ (apply_update ?op ?u) = Some _ |- _ =>
      destruct (apply_update op u) as [u'|] eqn:Hpush; [|discriminate];
      injection H as <-
  end.
  rewrite serialize_some.
  eexists l1, l2, _, u', o. repeat split; eassumption || reflexivity.
Qed.

Lemma lookup_token_inv (t : string) (db db' : DB) (v : dict) :
  lookup_token t db = (Ok (Some v), db') ->
  exists w, find (matches [("tokens", VStr t)]) (user db) = Some w
            /\ v = serialize_dict w.
Proof.
  unfold lookup_token.
  destruct (find _ (user db)) as [w|] eqn:E; [|discriminate].
  destruct (falsy_doc (Some w)); [discriminate|].
  rewrite serialize_some. intros H. injection H as <- _. eauto.
Qed.

Lemma serialize_dict_same_id (u u' : dict) :
  alist_get "_id" u' = alist_get "_id" u -> alist_get "_id" u <> None ->
  alist_get "id" (serialize_dict u') = alist_get "id" (serialize_dict u).
Proof.
  intros H Hu. destruct (alist_get "_id" u) as [v|] eqn:E; [|congruence].
  destruct (serialize_dict_id u v E) as [-> _].
  destruct (serialize_dict_id u' v H) as [-> _]. reflexivity.
Qed.

(** After a token has been pushed on one user, the new token resolves to
    that user and every token that resolved before resolves as before. *)
Lemma lookup_token_after_push
    (l1 l2 : list dict) (u u' : dict) (o : ObjectId) (token : string)
    (db db' : DB) :
  user db = l1 ++ u :: l2 -> user db' = l1 ++ u' :: l2 ->
  alist_get "_id" u = Some (VObjectId o) ->
  apply_update (Push "tokens" (VStr token)) u = Some u' ->
  token_unused token (user db) = true ->
  lookup_token token db' = (Ok (Some (serialize_dict u')), db')
  /\ alist_get "id" (serialize_dict u') = Some (VStr (Hex.hexlify o))
  /\ forall t v,
       lookup_token t db = (Ok (Some v), db) ->
       exists v', lookup_token t db' = (Ok (Some v'), db')
                  /\ alist_get "id" v' = alist_get "id" v.
Proof.
  intros Hl Hl' Hid Hpush Hfresh.
  destruct (push_token _ _ _ Hpush) as (_ & Hother & Hmatch & _).
  assert (alist_get "_id" u' = Some (VObjectId o)) as Hid'
    by (rewrite Hother by discriminate; exact Hid).
  unfold token_unused in Hfresh. apply negb_true_iff in Hfresh.
  rewrite Hl, existsb_app in Hfresh. cbn [existsb] in Hfresh.
  apply orb_false_iff in Hfresh. destruct Hfresh as [Hf1 Hf].
  apply orb_false_iff in Hf. destruct Hf as [Hfu Hf2].
  split; [|split].
  - apply lookup_token_found. rewrite Hl'. apply find_app_first; [exact Hf1|].
    rewrite Hmatch, String.eqb_refl. apply orb_true_r.
  - destruct (serialize_dict_id u' _ Hid') as [-> _]. reflexivity.
  - intros t v Hv. apply lookup_token_inv in Hv. destruct Hv as (w & Hw & ->).
    rewrite Hl, find_app_split in Hw.
    destruct (find (matches [("tokens", VStr t)]) l1) as [x|] eqn:E1.
    + injection Hw as ->. exists (serialize_dict w). split; [|reflexivity].
      apply lookup_token_found. rewrite Hl', find_app_split, E1. reflexivity.
    + cbn [find] in Hw.
      destruct (matches [("tokens", VStr t)] u) eqn:Eu.
      * injection Hw as <-. exists (serialize_dict u'). split.
        -- apply lookup_token_found. rewrite Hl', find_app_split, E1. cbn [find].
           rewrite Hmatch, Eu. reflexivity.
        -- apply serialize_dict_same_id; congruence.
      * exists (serialize_dict w). split; [|reflexivity].
        apply lookup_token_found. rewrite Hl', find_app_split, E1. cbn [find].
        rewrite Hmatch, Eu. cbn [orb].
        destruct (String.eqb token t) eqn:Et; [|exact Hw].
        apply String.eqb_eq in Et. subst t.
        apply find_none_existsb in Hf2. congruence.
Qed.

Lemma authenticates_after_push
    (l1 l2 : list dict) (u u' : dict) (o : ObjectId) (token : string)
    (db db' : DB) :
  user db = l1 ++ u :: l2 -> user db' = l1 ++ u' :: l2 ->
  alist_get "_id" u = Some (VObjectId o) ->
  apply_update (Push "tokens" (VStr token)) u = Some u' ->
  token_unused token (user db) = true ->
  PyStr.strip token = token ->
  authenticates (bearer token) db' (VStr (Hex.hexlify o))
  /\ forall h id, authenticates h db id -> authenticates h db' id.
Proof.
  intros Hl Hl' Hid Hpush Hfresh Hstrip.
  destruct (lookup_token_after_push _ _ _ _ _ _ _ _ Hl Hl' Hid Hpush Hfresh)
    as (Hnew & Hnewid & Hold).
  split.
  - exists (serialize_dict u'). rewrite get_current_user_bearer by exact Hstrip.
    auto.
  - intros h id (v & Hv & Hvid).
    destruct (get_current_user_inv _ _ _ _ Hv) as (t & w & _ & _ & _ & Hh).
    rewrite Hh in Hv. destruct (Hold t v Hv) as (v' & Hv' & Hid').
    exists v'. rewrite Hh. split; [exact Hv' | congruence].
Qed.

Lemma token_in_matches (token : string) (u : dict) :
  In (VStr token) (tokens_of u) ->
  matches [("tokens", VStr token)] u = true.
Proof.
  unfold tokens_of, matches. cbn [forallb fst snd].
  destruct (alist_get "tokens" u) as [[]|]; try (intros []).
  intros Hin. unfold field_matches. cbn [py_eq orb].
  rewrite andb_true_r. apply existsb_exists.
  exists (VStr token). split; [exact Hin | apply py_eq_str_refl].
Qed.

(** ** Provider mode and services *)

Lemma Depends_run {A : Type} (h : option string) (handler : option dict -> M A)
    (cur : option dict) (db : DB) :
  get_current_user h db = (Ok cur, db) -> Depends h handler db = handler cur db.
Proof. intros H. unfold Depends, bind. rewrite H. reflexivity. Qed.

Lemma alist_get_filter_none (f : string * value -> bool) (k : string) (d : dict) :
  alist_get k d = None -> alist_get k (filter f d) = None.
Proof.
  induction d as [|[k' v'] d IH]; simpl; [reflexivity|].
  destruct (String.eqb k k') eqn:E; [discriminate|].
  intros H. destruct (f (k', v')); simpl; [rewrite E|]; auto.
Qed.

Lemma matches_own_id (o : ObjectId) (d : dict) :
  alist_get "_id" d = Some (VObjectId o) ->
  matches [("_id", VObjectId o)] d = true.
Proof.
  intros H.
  rewrite matches_id_has_oid by (unfold oid_of; rewrite H; discriminate).
  unfold has_oid, oid_of. rewrite H. apply String.eqb_refl.
Qed.

Lemma set_provider_mode_run (enabled : bool) (l1 l2 : list dict) (u : dict)
    (o : ObjectId) (db : DB) :
  ids_ok (user db) = true ->
  user db = l1 ++ u :: l2 ->
  alist_get "_id" u = Some (VObjectId o) ->
  set_provider_mode (ProviderModeRequest.mk enabled) (Some (serialize_dict u)) db
  = (Ok [("provider_mode", VBool enabled)],
     mkDB (l1 ++ dict_set "provider_mode" (VBool enabled) u :: l2)
       (service db) (booking db)).
Proof.
  intros Hok Hl Hid.
  destruct (serialize_dict_id u _ Hid) as [Hcid _]. cbn [py_str] in Hcid.
  rewrite Hl in Hok.
  destruct (ids_ok_unique _ _ _ o Hok) as (Hu1 & _ & Hlen);
    [unfold oid_of; rewrite Hid; reflexivity|].
  rewrite <- (existsb_matches_id_prefix o _ _ Hok) in Hu1.
  pose proof (ObjectId_of_hexlify o Hlen) as Hoid.
  assert (update_first (matches [("_id", VObjectId o)])
            (apply_update (Set_ [("provider_mode", VBool enabled)])) (user db)
          = Some (l1 ++ dict_set "provider_mode" (VBool enabled) u :: l2))
    as Hupd.
  { rewrite Hl. rewrite update_first_split; [reflexivity | exact Hu1 |].
    apply matches_own_id. exact Hid. }
  unfold set_provider_mode. cbn [ProviderModeRequest.enabled].
  run_with ltac:(rewrite ?Hcid, ?Hoid, ?Hupd).
  reflexivity.
Qed.

Lemma create_service_forbidden data c now fresh db :
  truthy (dict_get_default "provider_mode" c) = false ->
  create_service data (Some c) now fresh db
  = (Raise (HTTPException 403 "Enable provider mode to create services"), db).
Proof.
  intros H. unfold create_service. run_with ltac:(rewrite ?H). reflexivity.
Qed.

Lemma find_snoc {A : Type} (p : A -> bool) (l : list A) (x : A) :
  existsb p l = false -> p x = true -> find p (l ++ [x]) = Some x.
Proof. intros. apply find_app_first; assumption. Qed.

Lemma create_service_run data c cid now fresh db :
  truthy (dict_get_default "provider_mode" c) = true ->
  alist_get "id" c = Some cid ->
  String.length fresh = 12 ->
  existsb (matches [("_id", VObjectId fresh)]) (service db) = false ->
  create_service data (Some c) now fresh db
  = (Ok (Some (serialize_dict (new_service_doc data cid now fresh))),
     mkDB (user db) (service db ++ [new_service_doc data cid now fresh])
       (booking db)).
Proof.
  intros Hpm Hcid Hlen Hfresh.
  pose proof (ObjectId_of_hexlify fresh Hlen) as Hoid.
  pose proof (find_snoc _ (service db) (new_service_doc data cid now fresh)
                Hfresh
                (matches_own_id fresh (new_service_doc data cid now fresh)
                   eq_refl)) as Hfind.
  unfold create_service.
  run_with ltac:(rewrite ?Hpm, ?Hcid).
  change (alist_get "_id"
            (dict_set "updated_at" (VDatetime now)
               (dict_set "created_at" (VDatetime now)
                  (dict_set "provider_id" cid
                     (ServiceCreateRequest.model_dump data)))))
    with (@None value).
  change (dict_mem "_id"
            (dict_set "updated_at" (VDatetime now)
               (dict_set "created_at" (VDatetime now)
                  (dict_set "provider_id" cid
                     (ServiceCreateRequest.model_dump data)))))
    with false.
  run_with ltac:(rewrite ?Hfresh).
  change (py_str (VObjectId fresh)) with (Hex.hexlify fresh).
  fold (new_service_doc data cid now fresh).
  run_with ltac:(rewrite ?Hoid, ?Hfind).
  rewrite serialize_some. reflexivity.
Qed.

Lemma service_update_fields_no_id payload now :
  alist_get "_id" (service_update_fields payload now) = None.
Proof.
  unfold service_update_fields.
  rewrite alist_get_dict_set_neq by discriminate.
  apply alist_get_filter_none. reflexivity.
Qed.

Lemma service_update_fields_no_owner payload now :
  alist_get "provider_id" (service_update_fields payload now) = None.
Proof.
  unfold service_update_fields.
  rewrite alist_get_dict_set_neq by discriminate.
  apply alist_get_filter_none. reflexivity.
Qed.

(** The update of a service that exists, by the caller it names. *)
Lemma update_service_owner
    (id : string) (oid : ObjectId) (svc c : dict) (cid : value)
    (payload : ServiceUpdateRequest.t) (now : datetime) (db : DB) :
  ids_ok (service db) = true ->
  ObjectId_of (VStr id) = Some oid ->
  find (matches [("_id", VObjectId oid)]) (service db) = Some svc ->
  alist_get "id" c = Some cid ->
  py_eq (dict_get_default "provider_id" svc) cid = true ->
  let svc' := dict_update (service_update_fields payload now) svc in
  exists l1 l2,
    service db = l1 ++ svc :: l2
    /\ update_service id payload (Some c) now db
       = (Ok (Some (serialize_dict svc')),
          mkDB (user db) (l1 ++ svc' :: l2) (booking db))
    /\ find (matches [("_id", VObjectId oid)]) (l1 ++ svc' :: l2) = Some svc'
    /\ dict_get_default "provider_id" svc' = dict_get_default "provider_id" svc.
Proof.
  intros Hok Hoid Hfind Hcid Hown svc'.
  pose proof (find_by_id_oid _ _ _ Hok Hfind) as Hid.
  pose proof (find_matches_truthy "_id" (VObjectId oid) _ _ eq_refl Hfind) as Ht.
  destruct (find_split _ _ _ Hfind) as (l1 & l2 & Hl & Hm & Hl1).
  assert (alist_get "_id" svc' = alist_get "_id" svc) as Hid'
    by (apply alist_get_dict_update_notin, service_update_fields_no_id).
  assert (find (matches [("_id", VObjectId oid)]) (l1 ++ svc' :: l2) = Some svc')
    as Hfind'.
  { apply find_app_first; [exact Hl1|].
    rewrite (matches_same_field _ _ _ _ Hid'). exact Hm. }
  assert (py_ne (dict_get_default "provider_id" svc) cid = false) as Hne
    by (unfold py_ne; rewrite Hown; reflexivity).
  assert (update_first (matches [("_id", VObjectId oid)])
            (apply_update (Set_ (service_update_fields payload now)))
            (service db)
          = Some (l1 ++ svc' :: l2)) as Hupd
    by (rewrite Hl; rewrite update_first_split; [reflexivity | exact Hl1 | exact Hm]).
  exists l1, l2. split; [exact Hl|]. split; [|split; [exact Hfind'|]].
  - unfold update_service. fold (service_update_fields payload now).
    run_with ltac:(rewrite ?Hoid, ?Hfind, ?Ht, ?Hcid, ?Hne, ?Hid, ?Hupd, ?Hfind').
    rewrite serialize_some. reflexivity.
  - unfold dict_get_default, svc'.
    rewrite alist_get_dict_update_notin
      by apply service_update_fields_no_owner.
    reflexivity.
Qed.

(** The deletion of a service that exists, by the caller it names. *)
Lemma delete_service_owner
    (id : string) (oid : ObjectId) (svc c : dict) (cid : value) (db : DB) :
  ids_ok (service db) = true ->
  ObjectId_of (VStr id) = Some oid ->
  find (matches [("_id", VObjectId oid)]) (service db) = Some svc ->
  alist_get "id" c = Some cid ->
  py_eq (dict_get_default "provider_id" svc) cid = true ->
  exists l1 l2,
    service db = l1 ++ svc :: l2
    /\ delete_service id (Some c) db
       = (Ok [("deleted", VBool true)],
          mkDB (user db) (l1 ++ l2) (booking db)).
Proof.
  intros Hok Hoid Hfind Hcid Hown.
  pose proof (find_by_id_oid _ _ _ Hok Hfind) as Hid.
  pose proof (find_matches_truthy "_id" (VObjectId oid) _ _ eq_refl Hfind) as Ht.
  destruct (find_split _ _ _ Hfind) as (l1 & l2 & Hl & Hm & Hl1).
  assert (py_ne (dict_get_default "provider_id" svc) cid = false) as Hne
    by (unfold py_ne; rewrite Hown; reflexivity).
  assert (remove_first (matches [("_id", VObjectId oid)]) (service db)
          = l1 ++ l2) as Hrm
    by (rewrite Hl; apply remove_first_split; assumption).
  exists l1, l2. split; [exact Hl|].
  unfold delete_service.
  run_with ltac:(rewrite ?Hoid, ?Hfind, ?Ht, ?Hcid, ?Hne, ?Hid, ?Hrm).
  reflexivity.
Qed.

(** The user document a header resolves to, after [provider_mode] has been
    set on it: the header resolves to the rewritten document. *)
Lemma lookup_token_after_set (t : string) (l1 l2 : list dict) (u : dict)
    (k : string) (v : value) (db : DB) :
  k <> "tokens" ->
  existsb (matches [("tokens", VStr t)]) l1 = false ->
  matches [("tokens", VStr t)] u = true ->
  user db = l1 ++ dict_set k v u :: l2 ->
  lookup_token t db = (Ok (Some (serialize_dict (dict_set k v u))), db).
Proof.
  intros Hk Hl1 Hm Hl. apply lookup_token_found. rewrite Hl.
  apply find_app_first; [exact Hl1|].
  rewrite (matches_same_field "tokens" _ u (dict_set k v u)); [exact Hm|].
  apply alist_get_dict_set_neq. congruence.
Qed.

(** ** The handlers keep the store invariant *)

Lemma preserves_ret {A : Type} (a : A) : preserves (ret a).
Proof. intros db H. exact H. Qed.

Lemma preserves_raise {A : Type} (e : exn) : preserves (raise (A := A) e).
Proof. intros db H. exact H. Qed.

Lemma preserves_bind {A B : Type} (m : M A) (k : A -> M B) :
  preserves m -> (forall a, preserves (k a)) -> preserves (bind m k).
Proof.
  intros Hm Hk db H. unfold bind. specialize (Hm db H).
  destruct (m db) as [[a|e] db1]; cbn [snd] in *.
  - apply Hk. exact Hm.
  - exact Hm.
Qed.

Lemma preserves_if {A : Type} (b : bool) (m1 m2 : M A) :
  preserves m1 -> preserves m2 -> preserves (if b then m1 else m2).
Proof. destruct b; auto. Qed.

Lemma preserves_find_one c filt : preserves (find_one c filt).
Proof. intros db H. exact H. Qed.

Lemma preserves_subscript o k : preserves (subscript o k).
Proof.
  intros db H. unfold subscript.
  destruct o as [d|]; [destruct (alist_get k d)|]; exact H.
Qed.

Lemma preserves_subscript_value v k : preserves (subscript_value v k).
Proof.
  destruct v; try apply preserves_raise. apply preserves_subscript.
Qed.

Lemma preserves_dot_get o k : preserves (dot_get o k).
Proof. intros db H. unfold dot_get. destruct o; exact H. Qed.

Lemma preserves_to_object_id v : preserves (to_object_id v).
Proof. intros db H. unfold to_object_id. destruct (ObjectId_of v); exact H. Qed.

Lemma db_ok_set_coll c l db :
  db_ok db = true -> ids_ok l = true -> db_ok (set_coll c l db) = true.
Proof.
  unfold db_ok. intros H Hl.
  apply andb_prop in H. destruct H as [H1 H].
  apply andb_prop in H. destruct H as [H2 H3].
  destruct c; cbn [set_coll user service booking];
    rewrite ?H1, ?H2, ?H3, ?Hl; reflexivity.
Qed.

Lemma db_ok_coll c db : db_ok db = true -> ids_ok (coll c db) = true.
Proof.
  unfold db_ok. intros H.
  apply andb_prop in H. destruct H as [H1 H].
  apply andb_prop in H. destruct H as [H2 H3].
  destruct c; assumption.
Qed.

Lemma update_first_cases (p : dict -> bool) (f : dict -> option dict)
    (l l' : list dict) :
  update_first p f l = Some l' ->
  l' = l \/ exists l1 x x' l2,
              l = l1 ++ x :: l2 /\ f x = Some x' /\ l' = l1 ++ x' :: l2.
Proof.
  revert l'. induction l as [|a l IH]; simpl; intros l' H.
  - left. congruence.
  - destruct (p a).
    + destruct (f a) as [a'|] eqn:E; [|discriminate]. injection H as <-.
      right. exists [], a, a', l. auto.
    + destruct (update_first p f l) as [l0|]; [|discriminate].
      injection H as <-.
      destruct (IH l0 eq_refl) as [->|(l1 & x & x' & l2 & -> & Hx & ->)].
      * left. reflexivity.
      * right. exists (a :: l1), x, x', l2. auto.
Qed.

Lemma has_oid_remove_first (o : ObjectId) (p : dict -> bool) (l : list dict) :
  existsb (has_oid o) l = false ->
  existsb (has_oid o) (remove_first p l) = false.
Proof.
  induction l as [|a l IH]; simpl; [auto|].
  intros H. apply orb_false_iff in H. destruct H as [Ha Hl].
  destruct (p a); [exact Hl|]. simpl. rewrite Ha. auto.
Qed.

Lemma ids_ok_remove_first (p : dict -> bool) (l : list dict) :
  ids_ok l = true -> ids_ok (remove_first p l) = true.
Proof.
  induction l as [|a l IH]; simpl; [auto|].
  destruct (oid_of a) as [o|] eqn:E; [|discriminate].
  intros H. apply andb_prop in H. destruct H as [H1 H].
  apply andb_prop in H. destruct H as [H2 H3].
  destruct (p a); [exact H3|]. simpl. rewrite E, H1, (IH H3), andb_true_r.
  apply negb_true_iff in H2. rewrite (has_oid_remove_first _ _ _ H2).
  reflexivity.
Qed.

Lemma preserves_update_one c filt u :
  (forall d d', apply_update u d = Some d' -> oid_of d' = oid_of d) ->
  preserves (update_one c filt u).
Proof.
  intros Hu db H. unfold update_one.
  destruct (update_first _ _ _) as [l|] eqn:E; [|exact H]. cbn [snd].
  apply db_ok_set_coll; [exact H|].
  pose proof (db_ok_coll c db H) as Hc.
  destruct (update_first_cases _ _ _ _ E)
    as [->|(l1 & x & x' & l2 & Hl & Hx & ->)]; [exact Hc|].
  rewrite Hl in Hc. eapply ids_ok_replace; [|exact Hc]. apply Hu. exact Hx.
Qed.

Lemma preserves_delete_one c filt : preserves (delete_one c filt).
Proof.
  intros db H. unfold delete_one. cbn [snd].
  apply db_ok_set_coll; [exact H|].
  apply ids_ok_remove_first, db_ok_coll. exact H.
Qed.

Lemma preserves_insert_one c doc fresh :
  alist_get "_id" doc = None -> String.length fresh = 12 ->
  preserves (insert_one c doc fresh).
Proof.
  intros Hdoc Hlen db H. unfold insert_one, dict_mem. rewrite Hdoc.
  destruct (existsb _ (coll c db)) eqn:E; [exact H|]. cbn [snd].
  apply db_ok_set_coll; [exact H|].
  pose proof (db_ok_coll c db H) as Hc.
  apply ids_ok_snoc with (o := fresh); [exact Hc | | exact Hlen |].
  - unfold oid_of. simpl. reflexivity.
  - rewrite <- existsb_matches_id by exact Hc. exact E.
Qed.

Lemma set_keeps_oid (fields : dict) (d d' : dict) :
  alist_get "_id" fields = None ->
  apply_update (Set_ fields) d = Some d' -> oid_of d' = oid_of d.
Proof.
  intros Hf H. injection H as <-. unfold oid_of.
  rewrite alist_get_dict_update_notin by exact Hf. reflexivity.
Qed.

Lemma push_keeps_oid (k : string) (v : value) (d d' : dict) :
  k <> "_id" ->
  apply_update (Push k v) d = Some d' -> oid_of d' = oid_of d.
Proof.
  intros Hk H. unfold apply_update in H.
  destruct (alist_get k d) as [[]|]; try discriminate; injection H as <-;
    unfold oid_of; rewrite alist_get_dict_set_neq by congruence; reflexivity.
Qed.

(** X23. Every handler takes a store that satisfies the invariant to one
    that does, whatever its outcome, the identifiers the driver generates
    being twelve bytes long. *)
Theorem handlers_preserve_the_invariant :
  (forall payload rs rt fresh,
     String.length fresh = 12 -> preserves (signup payload rs rt fresh))
  /\ (forall payload rnd, preserves (login payload rnd))
  /\ (forall h, preserves (get_current_user h))
  /\ (forall req cur, preserves (set_provider_mode req cur))
  /\ (forall data cur now fresh,
        String.length fresh = 12 -> preserves (create_service data cur now fresh))
  /\ (forall id payload cur now, preserves (update_service id payload cur now))
  /\ (forall id cur, preserves (delete_service id cur))
  /\ (forall data cur now fresh,
        String.length fresh = 12 -> preserves (create_booking data cur now fresh))
  /\ (forall id req cur now, preserves (update_booking_status id req cur now)).
Proof.
  repeat split; intros;
    cbv beta delta [signup login get_current_user set_provider_mode
                    create_service update_service delete_service
                    create_booking update_booking_status create_document];
    repeat first
      [ apply preserves_ret | apply preserves_raise
      | apply preserves_find_one | apply preserves_subscript
      | apply preserves_subscript_value
      | apply preserves_dot_get | apply preserves_to_object_id
      | apply preserves_delete_one
      | apply preserves_if
      | apply preserves_bind; [|intro]
      | match goal with
        | |- preserves (match ?x with _ => _ end) => destruct x
        end ];
    first
      [ apply preserves_insert_one;
        [ first [ reflexivity
                | rewrite !alist_get_dict_set_neq by discriminate; reflexivity ]
        | assumption ]
      | apply preserves_update_one; intros d d';
        first [ apply push_keeps_oid; discriminate
              | apply set_keeps_oid;
                first [ reflexivity | apply service_update_fields_no_id ] ] ].
Qed.

Example demo_db_ok :
  db_ok Demo.empty = true /\ db_ok Demo.users = true
  /\ db_ok Demo.with_service = true /\ db_ok Demo.with_booking = true.
Proof. vm_compute. auto. Qed.

(* ================================================================== *)
(** * The claims of the specification *)
(* ================================================================== *)

(** ** C1: existence before ownership *)




(** ** C2: status transitions *)



(** The sequence of the specification: accepted, then declined, then
    canceled, each accepted by the handler. *)
Example accepted_declined_canceled :
  let patch s := Route.patch_booking_status (bearer Demo.alice_token)
                   (Hex.hexlify Demo.visit_id) s Demo.t1 in
  let r1 := patch "accepted" Demo.with_booking in
  let r2 := patch "declined" (snd r1) in
  let r3 := patch "canceled" (snd r2) in
  let r4 := patch "pending" (snd r3) in
  let status_of (r : outcome (option dict) * DB) :=
    match fst r with
    | Ok (Some view) => alist_get "status" view
    | _ => None
    end in
  map status_of [r1; r2; r3]
    = [Some (VStr "accepted"); Some (VStr "declined"); Some (VStr "canceled")]
  /\ r4 = (Raise RequestValidationError, snd r3).
Proof. vm_compute. auto. Qed.

(** ** C3: email uniqueness *)



(** ** C4: multiple sessions *)

(** C4. Of two successive successful logins to the same account, the
    second leaves the account with its earlier tokens followed by the two
    new ones, none removed; both new tokens authenticate as that account
    ([uid] is its public identifier), and every header that authenticated
    before the logins authenticates afterwards as the same user.  The
    tokens are fresh: no user holds them when they are generated. *)
Theorem logins_accumulate_tokens
    (p1 p2 : LoginRequest.t) (rnd1 rnd2 : string)
    (db db1 db2 : DB) (r1 r2 : dict) :
  ids_ok (user db) = true ->
  login p1 rnd1 db = (Ok r1, db1) ->
  login p2 rnd2 db1 = (Ok r2, db2) ->
  PyStr.lower (LoginRequest.email p2) = PyStr.lower (LoginRequest.email p1) ->
  token_unused (new_token rnd1) (user db) = true ->
  token_unused (new_token rnd2) (user db1) = true ->
  exists u u2 uid,
    find (matches (by_email (LoginRequest.email p1))) (user db) = Some u
    /\ alist_get "id" (serialize_dict u) = Some uid
    /\ find (matches (by_email (LoginRequest.email p1))) (user db2) = Some u2
    /\ tokens_of u2
       = tokens_of u ++ [VStr (new_token rnd1); VStr (new_token rnd2)]
    /\ alist_get "token" r1 = Some (VStr (new_token rnd1))
    /\ alist_get "token" r2 = Some (VStr (new_token rnd2))
    /\ authenticates (bearer (new_token rnd1)) db2 uid
    /\ authenticates (bearer (new_token rnd2)) db2 uid
    /\ forall h id, authenticates h db id -> authenticates h db2 id.
Proof.
  intros Hok H1 H2 Hemail Hf1 Hf2.
  destruct (login_inv _ _ _ _ _ Hok H1)
    as (l1 & l2 & u & u1 & o & Hl & Hl1 & Hm & Hid & Hpush1 & -> & ->).
  destruct (push_token _ _ _ Hpush1) as (Htok1 & Hother1 & _ & _).
  assert (ids_ok (l1 ++ u1 :: l2) = true) as Hok1.
  { rewrite Hl in Hok. eapply ids_ok_replace; [|exact Hok].
    unfold oid_of. rewrite Hother1 by discriminate. reflexivity. }
  assert (matches (by_email (LoginRequest.email p1)) u1 = true) as Hm1.
  { unfold by_email. rewrite (matches_same_field "email" _ u u1); [exact Hm|].
    apply Hother1. discriminate. }
  destruct (login_inv p2 rnd2
              (mkDB (l1 ++ u1 :: l2) (service db) (booking db)) db2 r2
              Hok1 H2)
    as (k1 & k2 & w & w2 & o' & Hk & Hk1 & Hmw & Hidw & Hpush2 & -> & ->).
  cbn [user] in *.
  assert (find (matches (by_email (LoginRequest.email p1))) (l1 ++ u1 :: l2)
          = Some u1) as Hfind1 by (apply find_app_first; assumption).
  assert (w = u1) as ->.
  { unfold by_email in *. rewrite Hemail in Hk1, Hmw.
    rewrite Hk in Hfind1.
    rewrite (find_app_first _ k1 k2 w Hk1 Hmw) in Hfind1. congruence. }
  assert (o' = o) as ->.
  { rewrite Hother1 in Hidw by discriminate. congruence. }
  destruct (push_token _ _ _ Hpush2) as (Htok2 & Hother2 & _ & _).
  assert (matches (by_email (LoginRequest.email p1)) w2 = true) as Hm2.
  { unfold by_email. rewrite (matches_same_field "email" _ u1 w2); [exact Hm1|].
    apply Hother2. discriminate. }
  destruct (authenticates_after_push l1 l2 u u1 o (new_token rnd1) db
              (mkDB (l1 ++ u1 :: l2) (service db) (booking db))
              Hl eq_refl Hid Hpush1 Hf1 (strip_token_hex _ _))
    as [Ha1 Hkeep1].
  destruct (authenticates_after_push k1 k2 u1 w2 o (new_token rnd2)
              (mkDB (l1 ++ u1 :: l2) (service db) (booking db))
              (mkDB (k1 ++ w2 :: k2) (service db) (booking db))
              Hk eq_refl Hidw Hpush2 Hf2 (strip_token_hex _ _))
    as [Ha2 Hkeep2].
  exists u, w2, (VStr (Hex.hexlify o)).
  split; [rewrite Hl; apply find_app_first; assumption|].
  split; [destruct (serialize_dict_id u _ Hid) as [E _]; exact E|].
  split.
  { unfold by_email in *. rewrite <- Hemail.
    apply find_app_first; [exact Hk1|]. rewrite Hemail. exact Hm2. }
  split; [rewrite Htok2, Htok1, <- app_assoc; reflexivity|].
  split; [reflexivity|]. split; [reflexivity|].
  split; [apply Hkeep2; exact Ha1|].
  split; [exact Ha2|].
  intros h id Hh. apply Hkeep2, Hkeep1. exact Hh.
Qed.

Lemma logins_accumulate_tokens_witness :
  let db1 := snd (login Demo.alice_login Demo.alice_rnd2 Demo.users) in
  let db2 := snd (login Demo.alice_login Demo.alice_rnd3 db1) in
  exists u u2 uid,
    find (matches (by_email "ALICE@example.com")) (user Demo.users) = Some u
    /\ alist_get "id" (serialize_dict u) = Some uid
    /\ find (matches (by_email "ALICE@example.com")) (user db2) = Some u2
    /\ tokens_of u2
       = tokens_of u ++ [VStr (new_token Demo.alice_rnd2);
                         VStr (new_token Demo.alice_rnd3)]
    /\ alist_get "token"
         (match fst (login Demo.alice_login Demo.alice_rnd2 Demo.users) with
          | Ok r => r
          | Raise _ => []
          end) = Some (VStr (new_token Demo.alice_rnd2))
    /\ alist_get "token"
         (match fst (login Demo.alice_login Demo.alice_rnd3 db1) with
          | Ok r => r
          | Raise _ => []
          end) = Some (VStr (new_token Demo.alice_rnd3))
    /\ authenticates (bearer (new_token Demo.alice_rnd2)) db2 uid
    /\ authenticates (bearer (new_token Demo.alice_rnd3)) db2 uid
    /\ forall h id, authenticates h Demo.users id -> authenticates h db2 id.
Proof.
  intros db1 db2.
  apply (logins_accumulate_tokens Demo.alice_login Demo.alice_login
           Demo.alice_rnd2 Demo.alice_rnd3 Demo.users db1 db2);
    vm_compute; reflexivity.
Defined.

(** ** C5: signup *)

(** C5. A signup that succeeds adds exactly one user document and touches
    nothing else.  The document has [provider_mode] false, the password
    record made of the random salt and of the SHA-256 digest, taken once,
    of the salt followed by the password, and the one generated token as
    its whole token list.  That token, which no earlier user holds,
    authenticates at once as the new user. *)
Theorem signup_creates_user
    (payload : SignupRequest.t) (rnd_salt rnd_token : string)
    (fresh : ObjectId) (db db' : DB) (r : dict) :
  signup payload rnd_salt rnd_token fresh db = (Ok r, db') ->
  token_unused (new_token rnd_token) (user db) = true ->
  exists doc,
    db' = mkDB (user db ++ [doc]) (service db) (booking db)
    /\ alist_get "_id" doc = Some (VObjectId fresh)
    /\ alist_get "provider_mode" doc = Some (VBool false)
    /\ alist_get "password" doc
       = Some (VDict
                 [ ("salt", VStr (token_hex 8 rnd_salt));
                   ("hash", VStr (Sha256.hexdigest
                                    (token_hex 8 rnd_salt
                                     ++ SignupRequest.password payload))) ])
    /\ alist_get "tokens" doc = Some (VList [VStr (new_token rnd_token)])
    /\ alist_get "token" r = Some (VStr (new_token rnd_token))
    /\ get_current_user (bearer (new_token rnd_token)) db'
       = (Ok (Some (serialize_dict doc)), db')
    /\ authenticates (bearer (new_token rnd_token)) db'
         (VStr (Hex.hexlify fresh)).
Proof.
  intros H Hfresh. apply signup_inv in H. destruct H as (-> & -> & _).
  exists (new_user_doc payload rnd_salt rnd_token fresh).
  assert (get_current_user (bearer (new_token rnd_token))
            (mkDB (user db ++ [new_user_doc payload rnd_salt rnd_token fresh])
               (service db) (booking db))
          = (Ok (Some (serialize_dict
                         (new_user_doc payload rnd_salt rnd_token fresh))),
             mkDB (user db ++ [new_user_doc payload rnd_salt rnd_token fresh])
               (service db) (booking db))) as Hauth.
  { rewrite get_current_user_bearer by apply strip_token_hex.
    apply lookup_token_found. cbn [user].
    apply find_app_first.
    - unfold token_unused in Hfresh. apply negb_true_iff in Hfresh.
      exact Hfresh.
    - apply matches_token_new_user. }
  repeat (split; [reflexivity|]).
  split; [exact Hauth|].
  eexists. split; [exact Hauth|]. reflexivity.
Qed.

Lemma signup_creates_user_witness :
  exists doc,
    Demo.users
    = mkDB ([hd [] (user Demo.users)] ++ [doc]) [] []
    /\ alist_get "_id" doc = Some (VObjectId Demo.bob_id)
    /\ alist_get "provider_mode" doc = Some (VBool false)
    /\ alist_get "password" doc
       = Some (VDict
                 [ ("salt", VStr "626f622d73616c74");
                   ("hash", VStr (Sha256.hexdigest
                                    "626f622d73616c74battery staple")) ])
    /\ alist_get "tokens" doc = Some (VList [VStr Demo.bob_token])
    /\ alist_get "token"
         [ ("user", VDict [ ("id", VStr (Hex.hexlify Demo.bob_id));
                            ("name", VStr "Bob");
                            ("email", VStr "bob@example.com");
                            ("provider_mode", VBool false) ]);
           ("token", VStr Demo.bob_token) ]
       = Some (VStr Demo.bob_token)
    /\ get_current_user (bearer Demo.bob_token) Demo.users
       = (Ok (Some (serialize_dict doc)), Demo.users)
    /\ authenticates (bearer Demo.bob_token) Demo.users
         (VStr (Hex.hexlify Demo.bob_id)).
Proof.
  apply (signup_creates_user Demo.bob_signup "bob-salt" Demo.bob_rnd
           Demo.bob_id
           (snd (signup Demo.alice_signup "alicesal" Demo.alice_rnd
                   Demo.alice_id Demo.empty))
           Demo.users);
    vm_compute; reflexivity.
Defined.

(** ** C6: the provider-mode gate *)

(** C6. For an authenticated user whose provider mode is off, creating a
    service fails with 403 and writes nothing.  Once the same user has
    turned provider mode on, the same request succeeds and the service it
    creates names the caller as its provider.  After the user has turned
    provider mode off again, the update and the deletion of that service
    by the same user still succeed. *)
Theorem provider_mode_gates_creation_only
    (h : option string) (cur : dict) (data : ServiceCreateRequest.t)
    (payload : ServiceUpdateRequest.t) (now now' : datetime)
    (fresh : ObjectId) (db : DB) :
  ids_ok (user db) = true ->
  ids_ok (service db) = true ->
  get_current_user h db = (Ok (Some cur), db) ->
  truthy (dict_get_default "provider_mode" cur) = false ->
  String.length fresh = 12 ->
  existsb (matches [("_id", VObjectId fresh)]) (service db) = false ->
  exists uid db1 view db2 db3 view' db4 db5,
    alist_get "id" cur = Some uid
    /\ Route.post_services h data now fresh db
       = (Raise (HTTPException 403 "Enable provider mode to create services"),
          db)
    /\ Route.post_me_provider_mode h (ProviderModeRequest.mk true) db
       = (Ok [("provider_mode", VBool true)], db1)
    /\ Route.post_services h data now fresh db1 = (Ok (Some view), db2)
    /\ alist_get "provider_id" view = Some uid
    /\ service db2 = service db ++ [new_service_doc data uid now fresh]
    /\ Route.post_me_provider_mode h (ProviderModeRequest.mk false) db2
       = (Ok [("provider_mode", VBool false)], db3)
    /\ service db3 = service db2
    /\ Route.put_service h (Hex.hexlify fresh) payload now' db3
       = (Ok (Some view'), db4)
    /\ Route.delete_service h (Hex.hexlify fresh) db3
       = (Ok [("deleted", VBool true)], db5).
Proof.
  intros Hoku Hoks Hauth Hpm Hlen Hfresh.
  destruct (get_current_user_inv _ _ _ _ Hauth)
    as (t & u & _ & Hcur & Hfind & Hh).
  injection Hcur as ->.
  destruct (find_split _ _ _ Hfind) as (l1 & l2 & Hl & Hm & Hl1).
  pose proof (find_some _ _ Hfind) as [Hin _].
  destruct (ids_ok_In _ _ Hoku Hin) as (o & Hid & Hleno).
  set (uid := VStr (Hex.hexlify o)).
  set (u_on := dict_set "provider_mode" (VBool true) u).
  set (u_off := dict_set "provider_mode" (VBool false) u_on).
  set (sdoc := new_service_doc data uid now fresh).
  set (db1 := mkDB (l1 ++ u_on :: l2) (service db) (booking db)).
  set (db2 := mkDB (l1 ++ u_on :: l2) (service db ++ [sdoc]) (booking db)).
  set (db3 := mkDB (l1 ++ u_off :: l2) (service db ++ [sdoc]) (booking db)).
  assert (alist_get "_id" u_on = Some (VObjectId o)) as Hid_on
    by (unfold u_on; rewrite alist_get_dict_set_neq by discriminate; exact Hid).
  assert (alist_get "_id" u_off = Some (VObjectId o)) as Hid_off
    by (unfold u_off; rewrite alist_get_dict_set_neq by discriminate;
        exact Hid_on).
  assert (forall x, alist_get "_id" x = Some (VObjectId o) ->
                    alist_get "id" (serialize_dict x) = Some uid) as Huid
    by (intros x Hx; destruct (serialize_dict_id x _ Hx) as [-> _];
        reflexivity).
  assert (matches [("tokens", VStr t)] u_on = true) as Hm_on.
  { unfold u_on.
    rewrite (matches_same_field "tokens" _ u
               (dict_set "provider_mode" (VBool true) u)); [exact Hm|].
    apply alist_get_dict_set_neq. discriminate. }
  assert (forall d, user d = l1 ++ u_on :: l2 ->
                    get_current_user h d = (Ok (Some (serialize_dict u_on)), d))
    as Hauth_on.
  { intros d Hd. rewrite Hh.
    apply (lookup_token_after_set t l1 l2 u "provider_mode" (VBool true) d);
      (discriminate || assumption). }
  assert (get_current_user h db3 = (Ok (Some (serialize_dict u_off)), db3))
    as Hauth_off.
  { rewrite Hh.
    apply (lookup_token_after_set t l1 l2 u_on "provider_mode" (VBool false) db3);
      (discriminate || assumption || reflexivity). }
  assert (ids_ok (l1 ++ u_on :: l2) = true) as Hok_on.
  { rewrite Hl in Hoku. eapply ids_ok_replace; [|exact Hoku].
    unfold oid_of. rewrite Hid_on, Hid. reflexivity. }
  assert (ids_ok (service db ++ [sdoc]) = true) as Hoks'.
  { apply ids_ok_snoc with (o := fresh); [exact Hoks | reflexivity | exact Hlen |].
    rewrite <- existsb_matches_id by exact Hoks. exact Hfresh. }
  assert (find (matches [("_id", VObjectId fresh)]) (service db ++ [sdoc])
          = Some sdoc) as Hfind_s
    by (apply find_snoc; [exact Hfresh | apply matches_own_id; reflexivity]).
  destruct (update_service_owner (Hex.hexlify fresh) fresh sdoc
              (serialize_dict u_off) uid payload now' db3 Hoks'
              (ObjectId_of_hexlify fresh Hlen) Hfind_s (Huid _ Hid_off)
              (py_eq_str_refl _))
    as (k1 & k2 & _ & Hput & _ & _).
  destruct (delete_service_owner (Hex.hexlify fresh) fresh sdoc
              (serialize_dict u_off) uid db3 Hoks'
              (ObjectId_of_hexlify fresh Hlen) Hfind_s (Huid _ Hid_off)
              (py_eq_str_refl _))
    as (j1 & j2 & _ & Hdel).
  exists uid, db1, (serialize_dict sdoc), db2, db3.
  eexists _, _, _.
  split; [apply Huid; exact Hid|].
  split.
  { unfold Route.post_services. rewrite (Depends_run _ _ _ _ Hauth).
    apply create_service_forbidden. exact Hpm. }
  split.
  { unfold Route.post_me_provider_mode. rewrite (Depends_run _ _ _ _ Hauth).
    apply (set_provider_mode_run true l1 l2 u o db); assumption. }
  split.
  { unfold Route.post_services.
    rewrite (Depends_run _ _ _ _ (Hauth_on db1 eq_refl)).
    apply (create_service_run data (serialize_dict u_on) uid now fresh db1).
    - unfold dict_get_default.
      rewrite serialize_dict_other by discriminate.
      unfold u_on. rewrite alist_get_dict_set_eq. reflexivity.
    - apply Huid. exact Hid_on.
    - exact Hlen.
    - exact Hfresh. }
  split.
  { rewrite serialize_dict_other by discriminate. reflexivity. }
  split; [reflexivity|].
  split.
  { unfold Route.post_me_provider_mode.
    rewrite (Depends_run _ _ _ _ (Hauth_on db2 eq_refl)).
    apply (set_provider_mode_run false l1 l2 u_on o db2);
      [exact Hok_on | reflexivity | exact Hid_on]. }
  split; [reflexivity|].
  split.
  { unfold Route.put_service. rewrite (Depends_run _ _ _ _ Hauth_off).
    exact Hput. }
  { unfold Route.delete_service. rewrite (Depends_run _ _ _ _ Hauth_off).
    exact Hdel. }
Qed.

Lemma provider_mode_gates_creation_only_witness :
  exists uid db1 view db2 db3 view' db4 db5,
    alist_get "id" (match Demo.bob with Some c => c | None => [] end) = Some uid
    /\ Route.post_services (bearer Demo.bob_token) Demo.lawn Demo.t1
         "hedge-000005" Demo.with_booking
       = (Raise (HTTPException 403 "Enable provider mode to create services"),
          Demo.with_booking)
    /\ Route.post_me_provider_mode (bearer Demo.bob_token)
         (ProviderModeRequest.mk true) Demo.with_booking
       = (Ok [("provider_mode", VBool true)], db1)
    /\ Route.post_services (bearer Demo.bob_token) Demo.lawn Demo.t1
         "hedge-000005" db1 = (Ok (Some view), db2)
    /\ alist_get "provider_id" view = Some uid
    /\ service db2
       = service Demo.with_booking
         ++ [new_service_doc Demo.lawn uid Demo.t1 "hedge-000005"]
    /\ Route.post_me_provider_mode (bearer Demo.bob_token)
         (ProviderModeRequest.mk false) db2
       = (Ok [("provider_mode", VBool false)], db3)
    /\ service db3 = service db2
    /\ Route.put_service (bearer Demo.bob_token) (Hex.hexlify "hedge-000005")
         Demo.lawn_dearer Demo.t1 db3 = (Ok (Some view'), db4)
    /\ Route.delete_service (bearer Demo.bob_token)
         (Hex.hexlify "hedge-000005") db3
       = (Ok [("deleted", VBool true)], db5).
Proof.
  apply (provider_mode_gates_creation_only (bearer Demo.bob_token)
           (match Demo.bob with Some c => c | None => [] end)
           Demo.lawn Demo.lawn_dearer Demo.t1 Demo.t1 "hedge-000005"
           Demo.with_booking);
    vm_compute; reflexivity.
Defined.

(** ** C7: the price snapshot *)

(** C7. The booking that [create_booking] stores carries under
    [total_price] the price the referenced service has at that moment, and
    no later series of service updates, price changes included, alters the
    stored bookings. *)
Theorem booking_price_is_a_snapshot
    (data : BookingCreateRequest.t) (current : option dict)
    (now : datetime) (fresh : ObjectId) (db db1 : DB) (created : option dict) :
  create_booking data current now fresh db = (Ok created, db1) ->
  exists oid svc doc,
    ObjectId_of (VStr (BookingCreateRequest.service_id data)) = Some oid
    /\ find (matches [("_id", VObjectId oid)]) (service db) = Some svc
    /\ booking db1 = booking db ++ [doc]
    /\ alist_get "total_price" doc = Some (dict_get_default "price" svc)
    /\ forall reqs, booking (update_services reqs db1) = booking db ++ [doc].
Proof.
  unfold create_booking. intros H. run_inv.
  all: eexists _, _, _; split; [reflexivity|]; split; [eassumption|];
    split; [reflexivity|]; split; [reflexivity|];
    intros reqs; apply update_services_booking_frame.
Qed.

Lemma booking_price_is_a_snapshot_witness :
  exists oid svc doc,
    ObjectId_of (VStr (BookingCreateRequest.service_id Demo.visit)) = Some oid
    /\ find (matches [("_id", VObjectId oid)]) (service Demo.with_service) = Some svc
    /\ booking Demo.with_booking = booking Demo.with_service ++ [doc]
    /\ alist_get "total_price" doc = Some (dict_get_default "price" svc)
    /\ forall reqs,
         booking (update_services reqs Demo.with_booking)
         = booking Demo.with_service ++ [doc].
Proof.
  apply (booking_price_is_a_snapshot Demo.visit Demo.bob Demo.t0 Demo.visit_id
           Demo.with_service Demo.with_booking
           (serialize (hd_error (booking Demo.with_booking)))).
  vm_compute. reflexivity.
Defined.

(** The scenario of the specification: a booking against a service priced
    100 keeps that price after the owner raises the service to 200. *)
Example price_100_then_200 :
  let db := snd (Route.put_service (bearer Demo.alice_token)
                   (Hex.hexlify Demo.lawn_id) Demo.lawn_dearer Demo.t1
                   Demo.with_booking) in
  map (alist_get "price") (service Demo.with_booking) = [Some (VNum (100 # 1))]
  /\ map (alist_get "price") (service db) = [Some (VNum (200 # 1))]
  /\ map (alist_get "total_price") (booking db) = [Some (VNum (100 # 1))].
Proof. vm_compute. auto. Qed.

(** ** C8: the serializer *)

(** C8 (as amended). [serialize] gives back [None] and the empty record as
    they are.  Of any other record it removes [_id] and puts its text under
    [id]; every timestamp becomes its ISO-8601 text in UTC; and every other
    field keeps its value, none being added or removed -- except a field
    already named [id], which the renamed identifier replaces when [_id]
    is present.  Credential material and tokens pass through. *)
Theorem serialize_spec :
  serialize None = None
  /\ serialize (Some []) = Some []
  /\ forall d : dict,
       exists d', serialize (Some d) = Some d'
       /\ (forall v, alist_get "_id" d = Some v ->
             alist_get "id" d' = Some (VStr (py_str v))
             /\ alist_get "_id" d' = None)
       /\ (forall k, k <> "_id" ->
             k <> "id" \/ alist_get "_id" d = None ->
             (forall t, alist_get k d = Some (VDatetime t) ->
                alist_get k d' = Some (VStr (DateTime.isoformat t)))
             /\ (forall v, alist_get k d = Some v ->
                   (forall t, v <> VDatetime t) -> alist_get k d' = Some v)
             /\ (alist_get k d = None -> alist_get k d' = None)).
Proof.
  split; [reflexivity|]. split; [reflexivity|].
  intros d. exists (serialize_dict d).
  split; [apply serialize_some|].
  split; [apply serialize_dict_id|].
  intros k Hk Hid.
  assert (alist_get k (serialize_dict d)
          = option_map iso_if_datetime (alist_get k d)) as E.
  { destruct Hid as [Hid|Hid].
    - apply serialize_dict_other; assumption.
    - apply serialize_dict_no_id; assumption. }
  rewrite E. repeat split.
  - intros t ->. reflexivity.
  - intros v -> Hv. destruct v; try reflexivity.
    exfalso. eapply Hv. reflexivity.
  - intros ->. reflexivity.
Qed.

Lemma serialize_spec_witness :
  let d := [ ("_id", VObjectId Demo.alice_id);
             ("password", VDict [("salt", VStr "00"); ("hash", VStr "ff")]);
             ("tokens", VList [VStr Demo.alice_token]);
             ("updated_at", VDatetime Demo.t1) ] in
  exists d', serialize (Some d) = Some d'
    /\ alist_get "id" d' = Some (VStr "616c6963652d303030303031")
    /\ alist_get "_id" d' = None
    /\ alist_get "updated_at" d' = Some (VStr "2024-02-29T12:34:56.123456+00:00")
    /\ alist_get "password" d' = alist_get "password" d
    /\ alist_get "tokens" d' = alist_get "tokens" d
    /\ alist_get "name" d' = None.
Proof.
  intros d.
  destruct serialize_spec as (_ & _ & H).
  destruct (H d) as (d' & E & Hid & Hother).
  exists d'. split; [exact E|].
  destruct (Hid (VObjectId Demo.alice_id) eq_refl) as [H1 H2].
  split; [exact H1|]. split; [exact H2|].
  split.
  { destruct (Hother "updated_at") as (Ht & _ & _);
      [discriminate | left; discriminate |].
    exact (Ht Demo.t1 eq_refl). }
  split.
  { destruct (Hother "password") as (_ & Hv & _);
      [discriminate | left; discriminate |].
    apply Hv; [reflexivity | discriminate]. }
  split.
  { destruct (Hother "tokens") as (_ & Hv & _);
      [discriminate | left; discriminate |].
    apply Hv; [reflexivity | discriminate]. }
  { destruct (Hother "name") as (_ & _ & Hn);
      [discriminate | left; discriminate |].
    apply Hn. reflexivity. }
Defined.

(** C8, as the specification states it, fails on a record that has both
    [_id] and [id]: the field [id] is not left untouched. *)
Lemma serialize_overwrites_id :
  ~ (forall (d : dict) k v,
       alist_get k d = Some v -> k <> "_id" -> (forall t, v <> VDatetime t) ->
       option_map (alist_get k) (serialize (Some d)) = Some (Some v)).
Proof.
  intros H.
  assert (option_map (alist_get "id")
            (serialize (Some [("_id", VObjectId Demo.alice_id);
                              ("id", VStr "legacy")]))
          = Some (Some (VStr "legacy"))) as F
    by (apply H; [reflexivity | discriminate | discriminate]).
  vm_compute in F. discriminate F.
Qed.

(** ** C9: the view returned by login *)

(** C9 (as amended). A successful login returns the new token together
    with the view of the user document as it was read before the token
    was appended: the token list of the view is the list the user had
    before this login, which a fresh token is not in, while the stored
    user has the new token appended to it; every other field of the
    stored user is as in the view's source. *)
Theorem login_returns_view_read_before_append
    (payload : LoginRequest.t) (rnd : string) (db db' : DB) (r : dict) :
  ids_ok (user db) = true ->
  login payload rnd db = (Ok r, db') ->
  exists u u',
    find (matches (by_email (LoginRequest.email payload))) (user db) = Some u
    /\ find (matches (by_email (LoginRequest.email payload))) (user db')
       = Some u'
    /\ r = [ ("user", VDict (serialize_dict u));
             ("token", VStr (new_token rnd)) ]
    /\ alist_get "tokens" (serialize_dict u) = alist_get "tokens" u
    /\ (token_unused (new_token rnd) (user db) = true ->
        ~ In (VStr (new_token rnd)) (tokens_of u))
    /\ tokens_of u' = tokens_of u ++ [VStr (new_token rnd)]
    /\ forall k, k <> "tokens" -> alist_get k u' = alist_get k u.
Proof.
  intros Hok H.
  destruct (login_inv _ _ _ _ _ Hok H)
    as (l1 & l2 & u & u' & o & Hl & Hl1 & Hm & Hid & Hpush & -> & ->).
  destruct (push_token _ _ _ Hpush) as (Htok & Hother & _ & Hview).
  exists u, u'.
  split; [rewrite Hl; apply find_app_first; assumption|].
  split.
  { cbn [user]. apply find_app_first; [exact Hl1|].
    unfold by_email in *.
    rewrite (matches_same_field "email" _ u u'); [exact Hm|].
    apply Hother. discriminate. }
  split; [reflexivity|]. split; [exact Hview|].
  split; [|split; assumption].
  intros Hfresh Hin. apply token_in_matches in Hin.
  unfold token_unused in Hfresh. apply negb_true_iff in Hfresh.
  rewrite Hl, existsb_app in Hfresh. cbn [existsb] in Hfresh.
  rewrite Hin, orb_true_r in Hfresh. discriminate.
Qed.

Lemma login_returns_view_read_before_append_witness :
  let run := login Demo.alice_login Demo.alice_rnd2 Demo.users in
  exists u u',
    find (matches (by_email "ALICE@example.com")) (user Demo.users) = Some u
    /\ find (matches (by_email "ALICE@example.com")) (user (snd run)) = Some u'
    /\ match fst run with Ok r => r | Raise _ => [] end
       = [ ("user", VDict (serialize_dict u));
           ("token", VStr (new_token Demo.alice_rnd2)) ]
    /\ alist_get "tokens" (serialize_dict u) = alist_get "tokens" u
    /\ (token_unused (new_token Demo.alice_rnd2) (user Demo.users) = true ->
        ~ In (VStr (new_token Demo.alice_rnd2)) (tokens_of u))
    /\ tokens_of u' = tokens_of u ++ [VStr (new_token Demo.alice_rnd2)]
    /\ forall k, k <> "tokens" -> alist_get k u' = alist_get k u.
Proof.
  intros run.
  apply (login_returns_view_read_before_append Demo.alice_login
           Demo.alice_rnd2 Demo.users (snd run));
    vm_compute; reflexivity.
Defined.

(** C9, as the specification states it, fails: the view that [login]
    returns is not the view of the user as stored after the append. *)
Lemma login_view_is_stale :
  ~ (forall payload rnd db r db',
       login payload rnd db = (Ok r, db') ->
       exists u',
         find (matches (by_email (LoginRequest.email payload))) (user db')
           = Some u'
         /\ alist_get "user" r = Some (opt_dict (serialize (Some u')))).
Proof.
  intros H.
  destruct (H Demo.alice_login Demo.alice_rnd2 Demo.users
              (match fst (login Demo.alice_login Demo.alice_rnd2 Demo.users) with
               | Ok r => r
               | Raise _ => []
               end)
              (snd (login Demo.alice_login Demo.alice_rnd2 Demo.users)))
    as (u' & Hu' & Hr).
  - vm_compute. reflexivity.
  - vm_compute in Hu'. injection Hu' as <-.
    vm_compute in Hr. discriminate Hr.
Qed.

(** ** C10: frame of the status update *)

(** C10. A successful [update_booking_status] leaves the user and service
    collections as they were, and every booking document agrees with its
    predecessor on every field other than [status] and [updated_at]:
    [service_id], [provider_id], [customer_id], [scheduled_start],
    [scheduled_end], [message], [answers] and [total_price] among them. *)
Theorem update_booking_status_frame
    (booking_id : string) (req : BookingStatusUpdate.t)
    (current : option dict) (now : datetime) (db db' : DB) (r : option dict) :
  update_booking_status booking_id req current now db = (Ok r, db') ->
  user db' = user db /\ service db' = service db /\
  Forall2 (fun old new => forall k, k <> "status" -> k <> "updated_at" ->
                                    alist_get k new = alist_get k old)
          (booking db) (booking db').
Proof.
  unfold update_booking_status. intros H. run_inv.
  split; [reflexivity|]. split; [reflexivity|].
  eapply update_first_Forall2; [| |eassumption].
  - reflexivity.
  - intros x x' Hx k Hk1 Hk2. cbn [apply_update] in Hx. injection Hx as <-.
    unfold dict_update. cbn [fold_left fst snd].
    rewrite !alist_get_dict_set_neq by assumption. reflexivity.
Qed.

Lemma update_booking_status_frame_witness :
  let db := Demo.with_booking in
  let db' := snd (update_booking_status (Hex.hexlify Demo.visit_id)
                    (BookingStatusUpdate.mk "declined") Demo.alice Demo.t1 db) in
  user db' = user db /\ service db' = service db /\
  Forall2 (fun old new => forall k, k <> "status" -> k <> "updated_at" ->
                                    alist_get k new = alist_get k old)
          (booking db) (booking db').
Proof.
  intros db db'.
  apply (update_booking_status_frame (Hex.hexlify Demo.visit_id)
           (BookingStatusUpdate.mk "declined") Demo.alice Demo.t1 db db'
           (Some (serialize_dict
                    (dict_update [("status", VStr "declined");
                                  ("updated_at", VDatetime Demo.t1)]
                       (hd [] (booking db)))))).
  vm_compute. reflexivity.
Defined.

(* ================================================================== *)
(** * Further properties of the code *)
(* ================================================================== *)

(** ** Identifiers as text *)

Lemma value_of_lower (c : ascii) :
  Hex.value_of (PyStr.lower_char c) = Hex.value_of c.
Proof. destruct c as [[] [] [] [] [] [] [] []]; reflexivity. Qed.

Lemma c_isspace_lower (c : ascii) :
  Hex.c_isspace (PyStr.lower_char c) = Hex.c_isspace c.
Proof. destruct c as [[] [] [] [] [] [] [] []]; reflexivity. Qed.

Lemma length_lower (s : string) :
  String.length (PyStr.lower s) = String.length s.
Proof. induction s as [|c s IH]; simpl; congruence. Qed.

Lemma fromhex_step (c : ascii) (s : string) :
  Hex.fromhex (String c s)
  = if Hex.c_isspace c then Hex.fromhex s
    else match Hex.value_of c, s with
         | Some hi, String c2 s'' =>
             match Hex.value_of c2 with
             | Some lo =>
                 match Hex.fromhex s'' with
                 | Some rest => Some (String (ascii_of_nat (16 * hi + lo)) rest)
                 | None => None
                 end
             | None => None
             end
         | _, _ => None
         end.
Proof. reflexivity. Qed.

(** [bytes.fromhex] does not look at the case of the digits. *)
Lemma fromhex_lower (s : string) :
  Hex.fromhex (PyStr.lower s) = Hex.fromhex s.
Proof.
  enough (Hex.fromhex (PyStr.lower s) = Hex.fromhex s
          /\ forall c, Hex.fromhex (PyStr.lower (String c s))
                       = Hex.fromhex (String c s)) as [H _] by exact H.
  induction s as [|a s [IH1 IH2]].
  - split; [reflexivity|]. intros c. cbn [PyStr.lower].
    rewrite !fromhex_step, c_isspace_lower, value_of_lower. reflexivity.
  - split; [apply IH2|]. intros c.
    change (PyStr.lower (String c (String a s)))
      with (String (PyStr.lower_char c)
              (String (PyStr.lower_char a) (PyStr.lower s))).
    rewrite (fromhex_step (PyStr.lower_char c)), (fromhex_step c).
    rewrite c_isspace_lower, !value_of_lower, IH1.
    change (String (PyStr.lower_char a) (PyStr.lower s))
      with (PyStr.lower (String a s)).
    rewrite IH2. reflexivity.
Qed.

(** X1. The text of a twelve-byte identifier, in any casing of its
    hexadecimal digits, is read back by [to_object_id] as that
    identifier: [str] then [to_object_id] is the identity, and the
    identifiers in the routes are case-insensitive. *)
Theorem object_id_text_is_read_back (o : ObjectId) (s : string) (db : DB) :
  String.length o = 12 ->
  PyStr.lower s = Hex.hexlify o ->
  to_object_id (VStr s) db = (Ok o, db)
  /\ to_object_id (VStr (py_str (VObjectId o))) db = (Ok o, db).
Proof.
  intros Hlen Hs. split.
  - unfold to_object_id, ObjectId_of.
    rewrite <- (length_lower s), Hs, length_hexlify, Hlen.
    cbn [Nat.mul Nat.add Nat.eqb].
    rewrite <- fromhex_lower, Hs, fromhex_hexlify. reflexivity.
  - unfold to_object_id. cbn [py_str].
    rewrite (ObjectId_of_hexlify o Hlen). reflexivity.
Qed.

Lemma object_id_text_is_read_back_witness :
  to_object_id (VStr "6C61776E2d2D303030303033") Demo.with_booking
    = (Ok Demo.lawn_id, Demo.with_booking)
  /\ to_object_id (VStr (py_str (VObjectId Demo.lawn_id))) Demo.with_booking
     = (Ok Demo.lawn_id, Demo.with_booking).
Proof.
  apply (object_id_text_is_read_back Demo.lawn_id "6C61776E2d2D303030303033"
           Demo.with_booking); reflexivity.
Defined.

Lemma digit_of_value (c : ascii) (hi : nat) :
  Hex.value_of c = Some hi ->
  hi < 16 /\ Hex.digit hi = PyStr.lower_char c /\ Hex.c_isspace c = false.
Proof.
  destruct c as [[] [] [] [] [] [] [] []]; vm_compute; intros H;
    try discriminate H; injection H as <-; repeat split;
    repeat constructor.
Qed.

Lemma byte_of_digits (hi lo : nat) :
  hi < 16 -> lo < 16 ->
  nat_of_ascii (ascii_of_nat (16 * hi + lo)) / 16 = hi
  /\ nat_of_ascii (ascii_of_nat (16 * hi + lo)) mod 16 = lo.
Proof.
  intros Hhi Hlo. rewrite nat_ascii_embedding by lia. split.
  - rewrite (Nat.mul_comm 16 hi), Nat.div_add_l by lia.
    rewrite (Nat.div_small lo 16) by lia. lia.
  - rewrite Nat.add_comm, (Nat.mul_comm 16 hi), Nat.Div0.mod_add.
    apply Nat.mod_small. lia.
Qed.

Lemma isspace_of_c_isspace (c : ascii) :
  Hex.c_isspace c = true -> PyStr.isspace c = true.
Proof.
  destruct c as [[] [] [] [] [] [] [] []]; vm_compute; intros H;
    first [reflexivity | discriminate H].
Qed.

(** What [bytes.fromhex] reads from a text without white space is the
    text itself, up to the case of its digits. *)
Lemma hexlify_fromhex (s o : string) :
  no_space s = true -> Hex.fromhex s = Some o ->
  Hex.hexlify o = PyStr.lower s /\ 2 * String.length o = String.length s.
Proof.
  revert o.
  enough ((forall o, no_space s = true -> Hex.fromhex s = Some o ->
                     Hex.hexlify o = PyStr.lower s
                     /\ 2 * String.length o = String.length s)
          /\ forall c o, no_space (String c s) = true ->
                         Hex.fromhex (String c s) = Some o ->
                         Hex.hexlify o = PyStr.lower (String c s)
                         /\ 2 * String.length o = String.length (String c s))
    as [H _] by exact H.
  induction s as [|a s [IH1 IH2]].
  - split.
    + intros o _ H. injection H as <-. split; reflexivity.
    + intros c o Hc H. rewrite fromhex_step in H.
      destruct (Hex.c_isspace c) eqn:E.
      * apply isspace_of_c_isspace in E. cbn [no_space] in Hc.
        rewrite E in Hc. discriminate.
      * destruct (Hex.value_of c); discriminate.
  - split; [apply IH2|].
    intros c o Hc H. rewrite fromhex_step in H.
    destruct (Hex.c_isspace c) eqn:E.
    { apply isspace_of_c_isspace in E. cbn [no_space] in Hc.
      rewrite E in Hc. discriminate. }
    destruct (Hex.value_of c) as [hi|] eqn:Ehi; [|discriminate].
    destruct (Hex.value_of a) as [lo|] eqn:Elo; [|discriminate].
    destruct (Hex.fromhex s) as [rest|] eqn:Erest; [|discriminate].
    destruct (digit_of_value c hi Ehi) as (Hhi & Hdc & _).
    destruct (digit_of_value a lo Elo) as (Hlo & Hda & _).
    destruct (byte_of_digits hi lo Hhi Hlo) as [Hdiv Hmod].
    set (n := 16 * hi + lo) in *.
    assert (o = String (ascii_of_nat n) rest) as -> by congruence.
    cbn [no_space] in Hc.
    apply andb_prop in Hc. destruct Hc as [_ Hc].
    apply andb_prop in Hc. destruct Hc as [_ Hc].
    destruct (IH1 rest Hc eq_refl) as [Hh Hl].
    split.
    + change (Hex.hexlify (String (ascii_of_nat n) rest))
        with (String (Hex.digit (nat_of_ascii (ascii_of_nat n) / 16))
                (String (Hex.digit (nat_of_ascii (ascii_of_nat n) mod 16))
                   (Hex.hexlify rest))).
      rewrite Hdiv, Hmod, Hdc, Hda, Hh. reflexivity.
    + cbn [String.length]. lia.
Qed.

(** X2. When [to_object_id] accepts a text without white space, the
    identifier it returns has twelve bytes and its own text is the given
    one in lower case: what is looked up is the identifier that was
    written, and nothing else. *)
Theorem object_id_read_is_the_text (s : string) (o : ObjectId) (db db' : DB) :
  no_space s = true ->
  to_object_id (VStr s) db = (Ok o, db') ->
  db' = db /\ String.length s = 24 /\ String.length o = 12
  /\ py_str (VObjectId o) = PyStr.lower s.
Proof.
  intros Hs H. unfold to_object_id, ObjectId_of in H.
  destruct (Nat.eqb (String.length s) 24) eqn:E; [|discriminate H].
  destruct (Hex.fromhex s) as [o'|] eqn:F; [|discriminate H].
  injection H as -> <-. apply Nat.eqb_eq in E.
  destruct (hexlify_fromhex s o Hs F) as [Hh Hl].
  repeat split; [exact E | lia | exact Hh].
Qed.

Lemma object_id_read_is_the_text_witness :
  Demo.with_booking = Demo.with_booking
  /\ String.length "6C61776E2d2D303030303033" = 24
  /\ String.length Demo.lawn_id = 12
  /\ py_str (VObjectId Demo.lawn_id) = PyStr.lower "6C61776E2d2D303030303033".
Proof.
  apply (object_id_read_is_the_text "6C61776E2d2D303030303033" Demo.lawn_id
           Demo.with_booking Demo.with_booking); reflexivity.
Defined.

(** ** The serializer, applied twice *)

Lemma iso_if_datetime_idem (v : value) :
  iso_if_datetime (iso_if_datetime v) = iso_if_datetime v.
Proof. destruct v; reflexivity. Qed.

Lemma serialize_dict_no_id_key (d : dict) :
  alist_get "_id" (serialize_dict d) = None.
Proof.
  destruct (alist_get "_id" d) as [v|] eqn:E.
  - apply (serialize_dict_id d v E).
  - rewrite serialize_dict_no_id by exact E. rewrite E. reflexivity.
Qed.

Lemma serialize_dict_idem (d : dict) :
  serialize_dict (serialize_dict d) = serialize_dict d.
Proof.
  unfold serialize_dict at 1. rewrite serialize_dict_no_id_key.
  unfold serialize_dict.
  rewrite map_map. apply map_ext. intros [k v]. cbn [fst snd].
  rewrite iso_if_datetime_idem. reflexivity.
Qed.

(** X3. [serialize] is idempotent, and in what it returns no field is
    named [_id] and no field of the document itself holds a timestamp. *)
Theorem serialize_is_idempotent (doc : option dict) :
  serialize (serialize doc) = serialize doc
  /\ forall view, serialize doc = Some view ->
       alist_get "_id" view = None
       /\ Forall (fun kv => is_datetime (snd kv) = false) view.
Proof.
  split.
  - destruct doc as [d|]; [|reflexivity].
    rewrite !serialize_some, serialize_dict_idem. reflexivity.
  - intros view H. destruct doc as [d|]; [|discriminate H].
    rewrite serialize_some in H. injection H as <-.
    split; [apply serialize_dict_no_id_key|].
    unfold serialize_dict. apply Forall_map. apply Forall_forall.
    intros [k v] _. cbn [fst snd]. destruct v; reflexivity.
Qed.

Lemma serialize_is_idempotent_witness :
  let doc := hd_error (booking Demo.with_booking) in
  serialize (serialize doc) = serialize doc
  /\ exists view, serialize doc = Some view
       /\ alist_get "_id" view = None
       /\ Forall (fun kv => is_datetime (snd kv) = false) view.
Proof.
  intros doc. destruct (serialize_is_idempotent doc) as [H1 H2].
  split; [exact H1|].
  exists (serialize_dict (hd [] (booking Demo.with_booking))).
  split; [reflexivity|]. apply H2. reflexivity.
Defined.

(** ** Passwords *)

Lemma length_be_bytes (n : nat) (x : Z) :
  length (Sha256.be_bytes n x) = n.
Proof.
  revert x. induction n as [|n IH]; intros x; simpl; [reflexivity|].
  rewrite length_app, IH. simpl. lia.
Qed.

Lemma length_string_of_bytes (bs : list Z) :
  String.length (Sha256.string_of_bytes bs) = length bs.
Proof.
  unfold Sha256.string_of_bytes.
  induction bs as [|b bs IH]; simpl; [reflexivity|]. rewrite IH. reflexivity.
Qed.

Lemma length_hexdigest (s : string) :
  String.length (Sha256.hexdigest s) = 64.
Proof.
  unfold Sha256.hexdigest, Sha256.digest.
  rewrite length_hexlify, length_string_of_bytes.
  destruct (Sha256.blocks _ _ _) as [[[[[[[a b] c] d] e] f] g] h].
  cbn [flat_map]. rewrite !length_app, !length_be_bytes. reflexivity.
Qed.

(** X4. What [hash_password] returns verifies the password it was given,
    whatever the salt; a salt that is given and not empty is the one used,
    a missing or empty one is replaced by [token_hex(8)]; the digest is
    always 64 characters long. *)
Theorem hashed_password_verifies
    (rnd password : string) (salt : option string) :
  exists s h,
    hash_password rnd password salt = [("salt", VStr s); ("hash", VStr h)]
    /\ verify_password password s (VStr h) = true
    /\ String.length h = 64
    /\ (forall s0, salt = Some s0 -> s0 <> "" -> s = s0)
    /\ (salt = None \/ salt = Some "" -> s = token_hex 8 rnd).
Proof.
  unfold hash_password, verify_password.
  eexists _, _. split; [reflexivity|].
  split; [apply py_eq_str_refl|].
  split; [apply length_hexdigest|].
  split.
  - intros s0 -> Hs0. destruct s0; [contradiction Hs0; reflexivity|reflexivity].
  - intros [->| ->]; reflexivity.
Qed.

Lemma hashed_password_verifies_witness :
  exists s h,
    hash_password "0123456789" "correct horse" (Some "pepper")
      = [("salt", VStr s); ("hash", VStr h)]
    /\ verify_password "correct horse" s (VStr h) = true
    /\ String.length h = 64
    /\ s = "pepper".
Proof.
  destruct (hashed_password_verifies "0123456789" "correct horse"
              (Some "pepper")) as (s & h & H1 & H2 & H3 & H4 & _).
  exists s, h. repeat split; try assumption.
  apply (H4 "pepper"); [reflexivity | discriminate].
Defined.

(** ** The Authorization header *)

Lemma lower_char_space (c : ascii) :
  PyStr.lower_char c = " "%char -> c = " "%char.
Proof.
  destruct c as [[] [] [] [] [] [] [] []]; vm_compute; intros H;
    first [reflexivity | discriminate H].
Qed.

Lemma not_space_of_lower (c x : ascii) :
  PyStr.lower_char c = x -> Ascii.eqb x " " = false -> Ascii.eqb c " " = false.
Proof.
  intros H Hx. destruct (Ascii.eqb c " ") eqn:E; [|reflexivity].
  apply Ascii.eqb_eq in E. subst c. cbn in H. subst x. discriminate Hx.
Qed.

Lemma startswith_lower_cons (a p : string) (x : ascii) :
  PyStr.startswith (PyStr.lower a) (String x p) = true ->
  exists c a', a = String c a' /\ PyStr.lower_char c = x
               /\ PyStr.startswith (PyStr.lower a') p = true.
Proof.
  destruct a as [|c a']; cbn [PyStr.lower PyStr.startswith]; [discriminate|].
  intros H. apply andb_prop in H. destruct H as [H1 H2].
  apply Ascii.eqb_eq in H1. eauto.
Qed.

(** A header whose lower-case form starts with the scheme has the shape
    the handler relies on when it splits it. *)
Lemma bearer_shape (a : string) :
  PyStr.startswith (PyStr.lower a) "bearer " = true ->
  exists scheme rest,
    a = (scheme ++ " " ++ rest)%string
    /\ PyStr.lower scheme = "bearer"
    /\ PyStr.split_space_1 a = [scheme; rest].
Proof.
  intros H.
  apply startswith_lower_cons in H. destruct H as (c1 & a1 & -> & L1 & H).
  apply startswith_lower_cons in H. destruct H as (c2 & a2 & -> & L2 & H).
  apply startswith_lower_cons in H. destruct H as (c3 & a3 & -> & L3 & H).
  apply startswith_lower_cons in H. destruct H as (c4 & a4 & -> & L4 & H).
  apply startswith_lower_cons in H. destruct H as (c5 & a5 & -> & L5 & H).
  apply startswith_lower_cons in H. destruct H as (c6 & a6 & -> & L6 & H).
  apply startswith_lower_cons in H. destruct H as (c7 & rest & -> & L7 & _).
  apply lower_char_space in L7. subst c7.
  exists (String c1 (String c2 (String c3 (String c4 (String c5
            (String c6 EmptyString)))))), rest.
  split; [reflexivity|]. split.
  - cbn [PyStr.lower]. congruence.
  - cbn [PyStr.split_space_1].
    rewrite (not_space_of_lower c1 _ L1 eq_refl),
            (not_space_of_lower c2 _ L2 eq_refl),
            (not_space_of_lower c3 _ L3 eq_refl),
            (not_space_of_lower c4 _ L4 eq_refl),
            (not_space_of_lower c5 _ L5 eq_refl),
            (not_space_of_lower c6 _ L6 eq_refl).
    reflexivity.
Qed.




(** X6. The authentication dependency, and [GET /me] behind it, never
    write and end in one of four ways only: the view of a user with the
    presented token, which has no [_id] field, or 401 for a missing or
    empty header, for another scheme, or for a token that no user holds.
    No other exception escapes the parsing of the header. *)
Theorem authentication_outcomes (authorization : option string) (db : DB) :
  get_me authorization db = get_current_user authorization db
  /\ exists o,
       get_current_user authorization db = (o, db)
       /\ ((exists view, o = Ok (Some view) /\ alist_get "_id" view = None
                         /\ alist_get "tokens" view <> None)
           \/ (PyStr.falsy authorization = true
               /\ o = Raise (HTTPException 401 "Missing Authorization header"))
           \/ o = Raise (HTTPException 401 "Invalid auth scheme")
           \/ o = Raise (HTTPException 401 "Invalid or expired token")).
Proof.
  split.
  { unfold get_me, Depends, me, bind, ret.
    destruct (get_current_user authorization db) as [[v|e] d]; reflexivity. }
  unfold get_current_user.
  destruct (PyStr.falsy authorization) eqn:Hf.
  { eexists. split; [reflexivity|]. right. left. auto. }
  destruct (PyStr.startswith _ _) eqn:Hstart; cbn [negb].
  2:{ eexists. split; [reflexivity|]. right. right. left. reflexivity. }
  destruct (bearer_shape _ Hstart) as (scheme & rest & _ & _ & ->).
  cbn [nth_error]. unfold bind, find_one, raise, ret. cbn [coll].
  destruct (find _ (user db)) as [u|] eqn:Hu.
  2:{ eexists. split; [reflexivity|]. right. right. right. reflexivity. }
  rewrite (find_matches_truthy "tokens" (VStr _) _ _ eq_refl Hu).
  rewrite serialize_some.
  eexists. split; [reflexivity|]. left.
  exists (serialize_dict u). split; [reflexivity|].
  split; [apply serialize_dict_no_id_key|].
  rewrite serialize_dict_other by discriminate.
  apply find_some in Hu. destruct Hu as [_ Hm].
  unfold matches in Hm. cbn [forallb fst snd] in Hm.
  destruct (alist_get "tokens" u); [discriminate|].
  cbn in Hm. discriminate Hm.
Qed.

(** ** Errors write nothing *)

Lemma signup_raise_keeps payload rs rt fresh db e db' :
  signup payload rs rt fresh db = (Raise e, db') -> db' = db.
Proof. unfold signup. intros H. run_cases; reflexivity. Qed.

Lemma login_raise_keeps payload rnd db e db' :
  login payload rnd db = (Raise e, db') -> db' = db.
Proof. unfold login. intros H. run_cases; reflexivity. Qed.

Lemma set_provider_mode_raise_keeps req cur db e db' :
  set_provider_mode req cur db = (Raise e, db') -> db' = db.
Proof. unfold set_provider_mode. intros H. run_cases; reflexivity. Qed.

Lemma update_service_raise_keeps id payload cur now db e db' :
  update_service id payload cur now db = (Raise e, db') -> db' = db.
Proof. unfold update_service. intros H. run_cases; reflexivity. Qed.

Lemma delete_service_raise_keeps id cur db e db' :
  delete_service id cur db = (Raise e, db') -> db' = db.
Proof. unfold delete_service. intros H. run_cases; reflexivity. Qed.

Lemma update_booking_status_raise_keeps id req cur now db e db' :
  update_booking_status id req cur now db = (Raise e, db') -> db' = db.
Proof. unfold update_booking_status. intros H. run_cases; reflexivity. Qed.

Lemma create_service_raise_keeps data cur now fresh db e db' :
  String.length fresh = 12 ->
  create_service data cur now fresh db = (Raise e, db') -> db' = db.
Proof.
  intros Hlen. unfold create_service. intros H.
  pose proof (ObjectId_of_hexlify fresh Hlen) as Hoid.
  run_cases; try reflexivity; congruence.
Qed.

Lemma create_booking_raise_keeps data cur now fresh db e db' :
  String.length fresh = 12 ->
  create_booking data cur now fresh db = (Raise e, db') -> db' = db.
Proof.
  intros Hlen. unfold create_booking. intros H.
  pose proof (ObjectId_of_hexlify fresh Hlen) as Hoid.
  run_cases; try reflexivity; congruence.
Qed.

Lemma get_current_user_only_reads (h : option string) (db : DB) :
  exists o, get_current_user h db = (o, db).
Proof.
  unfold get_current_user.
  destruct (PyStr.falsy h); [eexists; reflexivity|].
  destruct (negb _); [eexists; reflexivity|].
  destruct (nth_error _ 1); [|eexists; reflexivity].
  unfold bind, find_one, raise, ret.
  destruct (falsy_doc _); eexists; reflexivity.
Qed.

Lemma Depends_raise_keeps {A : Type} (h : option string)
    (handler : option dict -> M A) (db db' : DB) (e : exn) :
  (forall cur d e' d', handler cur d = (Raise e', d') -> d' = d) ->
  Depends h handler db = (Raise e, db') -> db' = db.
Proof.
  intros Hh H. unfold Depends, bind in H.
  destruct (get_current_user_only_reads h db) as [o Ho]. rewrite Ho in H.
  destruct o as [cur|e0].
  - eapply Hh. exact H.
  - injection H as _ <-. reflexivity.
Qed.

(** X7. A request that ends in an error has written nothing: whenever
    signup, login or one of the authenticated routes raises, the database
    is the one it started from.  The identifier the driver generates for
    an insert is twelve bytes long. *)
Theorem errors_write_nothing (db db' : DB) (e : exn) :
  (forall payload rs rt fresh,
     signup payload rs rt fresh db = (Raise e, db') -> db' = db)
  /\ (forall payload rnd, login payload rnd db = (Raise e, db') -> db' = db)
  /\ (forall h req,
        Route.post_me_provider_mode h req db = (Raise e, db') -> db' = db)
  /\ (forall h data now fresh,
        String.length fresh = 12 ->
        Route.post_services h data now fresh db = (Raise e, db') -> db' = db)
  /\ (forall h id payload now,
        Route.put_service h id payload now db = (Raise e, db') -> db' = db)
  /\ (forall h id, Route.delete_service h id db = (Raise e, db') -> db' = db)
  /\ (forall h data now fresh,
        String.length fresh = 12 ->
        Route.post_bookings h data now fresh db = (Raise e, db') -> db' = db)
  /\ (forall h id raw now,
        Route.patch_booking_status h id raw now db = (Raise e, db') ->
        db' = db).
Proof.
  split; [intros; eapply signup_raise_keeps; eassumption|].
  split; [intros; eapply login_raise_keeps; eassumption|].
  split.
  { intros h req H. eapply Depends_raise_keeps; [|exact H].
    intros. eapply set_provider_mode_raise_keeps; eassumption. }
  split.
  { intros h data now fresh Hlen H. eapply Depends_raise_keeps; [|exact H].
    intros cur d e' d' H'. exact (create_service_raise_keeps _ _ _ _ _ _ _ Hlen H'). }
  split.
  { intros h id payload now H. eapply Depends_raise_keeps; [|exact H].
    intros cur d e' d' H'. exact (update_service_raise_keeps _ _ _ _ _ _ _ H'). }
  split.
  { intros h id H. eapply Depends_raise_keeps; [|exact H].
    intros cur d e' d' H'. exact (delete_service_raise_keeps _ _ _ _ _ H'). }
  split.
  { intros h data now fresh Hlen H. eapply Depends_raise_keeps; [|exact H].
    intros cur d e' d' H'. exact (create_booking_raise_keeps _ _ _ _ _ _ _ Hlen H'). }
  { intros h id raw now H. eapply Depends_raise_keeps; [|exact H].
    intros cur d e' d' H'. unfold bind, BookingStatusUpdate.validate in H'.
    destruct (BookingStatusUpdate.pattern_ok raw).
    - eapply update_booking_status_raise_keeps. exact H'.
    - injection H' as _ <-. reflexivity. }
Qed.

Lemma errors_write_nothing_witness :
  snd (Route.post_services (bearer Demo.bob_token) Demo.lawn Demo.t1
         "hedge-000005" Demo.with_booking) = Demo.with_booking
  /\ snd (Route.post_bookings (bearer Demo.bob_token)
            (BookingCreateRequest.mk (Hex.hexlify Demo.bob_id) None None None [])
            Demo.t1 "visit-000006" Demo.with_booking) = Demo.with_booking.
Proof.
  split.
  - destruct (errors_write_nothing Demo.with_booking
                (snd (Route.post_services (bearer Demo.bob_token) Demo.lawn
                        Demo.t1 "hedge-000005" Demo.with_booking))
                (HTTPException 403 "Enable provider mode to create services"))
      as (_ & _ & _ & H & _).
    apply (H (bearer Demo.bob_token) Demo.lawn Demo.t1 "hedge-000005");
      vm_compute; reflexivity.
  - destruct (errors_write_nothing Demo.with_booking
                (snd (Route.post_bookings (bearer Demo.bob_token)
                        (BookingCreateRequest.mk (Hex.hexlify Demo.bob_id)
                           None None None [])
                        Demo.t1 "visit-000006" Demo.with_booking))
                (HTTPException 404 "Service not found"))
      as (_ & _ & _ & _ & _ & _ & H & _).
    apply (H (bearer Demo.bob_token)
             (BookingCreateRequest.mk (Hex.hexlify Demo.bob_id) None None None [])
             Demo.t1 "visit-000006");
      vm_compute; reflexivity.
Defined.

(** ** Signup, then login *)







(** ** Refused logins *)

Lemma login_http_error (lp : LoginRequest.t) (rnd : string) (db db' : DB)
    (status : Z) (detail : string) :
  login lp rnd db = (Raise (HTTPException status detail), db') ->
  status = 401%Z /\ detail = "Invalid credentials".
Proof.
  unfold login. intros H. run_cases; split; congruence.
Qed.

(** X9. A login is refused in one way only: with 401 and the detail
    Invalid credentials, the database untouched.  That is the answer when
    no user has the email, when the user found has no password record, and
    when the password does not verify against the stored salt and hash, so
    the response does not tell these cases apart; login raises no other
    HTTP error. *)
Theorem login_refusals_are_uniform (lp : LoginRequest.t) (rnd : string) (db : DB) :
  let refused :=
    login lp rnd db = (Raise (HTTPException 401 "Invalid credentials"), db) in
  (find (matches (by_email (LoginRequest.email lp))) (user db) = None -> refused)
  /\ (forall u,
        find (matches (by_email (LoginRequest.email lp))) (user db) = Some u ->
        alist_get "password" u = None -> refused)
  /\ (forall u pw salt hash_val,
        find (matches (by_email (LoginRequest.email lp))) (user db) = Some u ->
        alist_get "password" u = Some (VDict pw) ->
        alist_get "salt" pw = Some (VStr salt) ->
        alist_get "hash" pw = Some hash_val ->
        verify_password (LoginRequest.password lp) salt hash_val = false ->
        refused)
  /\ (forall status detail db',
        login lp rnd db = (Raise (HTTPException status detail), db') ->
        status = 401%Z /\ detail = "Invalid credentials" /\ db' = db).
Proof.
  intros refused. unfold refused, by_email.
  split; [|split; [|split]].
  - intros Hf. unfold login. run_with ltac:(rewrite ?Hf). reflexivity.
  - intros u Hf Hp. unfold login, dict_mem.
    run_with ltac:(rewrite ?Hf, ?Hp).
    rewrite orb_true_r. reflexivity.
  - intros u pw salt hash_val Hf Hp Hs Hh Hv. unfold login, dict_mem.
    pose proof (find_matches_truthy "email" (VStr _) _ _ eq_refl Hf) as Ht.
    run_with ltac:(rewrite ?Hf, ?Hp, ?Ht, ?Hs, ?Hh, ?Hv).
    reflexivity.
  - intros status detail db' H.
    destruct (login_http_error _ _ _ _ _ _ H) as [-> ->].
    repeat split. eapply login_raise_keeps. exact H.
Qed.

Lemma login_refusals_are_uniform_witness :
  login (LoginRequest.mk "carol@example.com" "correct horse") Demo.alice_rnd2
    Demo.with_booking
  = (Raise (HTTPException 401 "Invalid credentials"), Demo.with_booking)
  /\ login (LoginRequest.mk "alice@example.com" "Correct horse") Demo.alice_rnd2
       Demo.with_booking
     = (Raise (HTTPException 401 "Invalid credentials"), Demo.with_booking).
Proof.
  split.
  - destruct (login_refusals_are_uniform
                (LoginRequest.mk "carol@example.com" "correct horse")
                Demo.alice_rnd2 Demo.with_booking) as (H & _).
    apply H. vm_compute. reflexivity.
  - destruct (login_refusals_are_uniform
                (LoginRequest.mk "alice@example.com" "Correct horse")
                Demo.alice_rnd2 Demo.with_booking) as (_ & _ & H & _).
    eapply H.
    + vm_compute. reflexivity.
    + vm_compute. reflexivity.
    + vm_compute. reflexivity.
    + vm_compute. reflexivity.
    + vm_compute. reflexivity.
Defined.

(** ** Services: creation and retrieval *)

Lemma ObjectId_of_hexlify_inv (f o : ObjectId) :
  ObjectId_of (VStr (Hex.hexlify f)) = Some o -> o = f /\ String.length f = 12.
Proof.
  unfold ObjectId_of. rewrite length_hexlify, fromhex_hexlify.
  destruct (Nat.eqb (2 * String.length f) 24) eqn:E; [|discriminate].
  apply Nat.eqb_eq in E. intros H. injection H as <-. split; [reflexivity | lia].
Qed.

Lemma create_service_inv data cur now fresh db r db1 :
  create_service data cur now fresh db = (Ok r, db1) ->
  exists c cid,
    cur = Some c
    /\ alist_get "id" c = Some cid
    /\ truthy (dict_get_default "provider_mode" c) = true
    /\ String.length fresh = 12
    /\ existsb (matches [("_id", VObjectId fresh)]) (service db) = false
    /\ db1 = mkDB (user db) (service db ++ [new_service_doc data cid now fresh])
               (booking db)
    /\ r = Some (serialize_dict (new_service_doc data cid now fresh)).
Proof.
  intros H. pose proof H as H0. unfold create_service in H0. run_cases.
  match goal with
  | Ho : ObjectId_of (VStr (Hex.hexlify fresh)) = Some _ |- _ =>
      destruct (ObjectId_of_hexlify_inv _ _ Ho) as [-> Hlen]
  end.
  match goal with Hp : negb (truthy _) = false |- _ =>
    apply negb_false_iff in Hp; rename Hp into Hpm end.
  match goal with Hc : alist_get "id" _ = Some _ |- _ => rename Hc into Hcid end.
  match goal with He : existsb _ (service _) = false |- _ =>
    rename He into Hfresh end.
  rewrite (create_service_run _ _ _ _ _ _ Hpm Hcid Hlen Hfresh) in H.
  eexists _, _. repeat split; try eassumption; try reflexivity.
  congruence.
Qed.

Lemma get_service_found (id : string) (oid : ObjectId) (svc : dict) (db : DB) :
  ObjectId_of (VStr id) = Some oid ->
  find (matches [("_id", VObjectId oid)]) (service db) = Some svc ->
  get_service id db = (Ok (Some (serialize_dict svc)), db).
Proof.
  intros Hoid Hfind.
  pose proof (find_matches_truthy "_id" (VObjectId oid) _ _ eq_refl Hfind) as Ht.
  unfold get_service. run_with ltac:(rewrite ?Hoid, ?Hfind, ?Ht).
  rewrite serialize_some. reflexivity.
Qed.

Lemma get_service_missing (id : string) (oid : ObjectId) (db : DB) :
  ObjectId_of (VStr id) = Some oid ->
  find (matches [("_id", VObjectId oid)]) (service db) = None ->
  get_service id db = (Raise (HTTPException 404 "Service not found"), db).
Proof.
  intros Hoid Hfind.
  unfold get_service. run_with ltac:(rewrite ?Hoid, ?Hfind). reflexivity.
Qed.

(** X10. The service that [create_service] returns can be fetched at once
    under the identifier in the response, by anyone: [get_service] takes
    no caller and returns the same view.  The new service has no
    [is_active] field. *)
Theorem created_service_can_be_fetched
    (data : ServiceCreateRequest.t) (cur : option dict) (now : datetime)
    (fresh : ObjectId) (db db1 : DB) (r : option dict) :
  create_service data cur now fresh db = (Ok r, db1) ->
  exists view,
    r = Some view
    /\ alist_get "id" view = Some (VStr (Hex.hexlify fresh))
    /\ alist_get "is_active" view = None
    /\ get_service (Hex.hexlify fresh) db1 = (Ok (Some view), db1).
Proof.
  intros H.
  destruct (create_service_inv _ _ _ _ _ _ _ H)
    as (c & cid & -> & Hcid & _ & Hlen & Hfresh & -> & ->).
  eexists. split; [reflexivity|].
  split; [|split].
  - destruct (serialize_dict_id (new_service_doc data cid now fresh)
                (VObjectId fresh) eq_refl) as [Hid _].
    exact Hid.
  - rewrite serialize_dict_other by discriminate.
    unfold new_service_doc.
    cbn [alist_get String.eqb Ascii.eqb Bool.eqb].
    rewrite !alist_get_dict_set_neq by discriminate. reflexivity.
  - apply get_service_found with (oid := fresh).
    + apply ObjectId_of_hexlify. exact Hlen.
    + cbn [service]. apply find_snoc; [exact Hfresh|].
      apply matches_own_id. reflexivity.
Qed.

Lemma created_service_can_be_fetched_witness :
  get_service (Hex.hexlify Demo.lawn_id) Demo.with_service
  = (fst (Route.post_services (bearer Demo.alice_token) Demo.lawn Demo.t0
            Demo.lawn_id
            (snd (Route.post_me_provider_mode (bearer Demo.alice_token)
                    (ProviderModeRequest.mk true) Demo.users))),
     Demo.with_service).
Proof.
  destruct (created_service_can_be_fetched Demo.lawn Demo.alice
              Demo.t0 Demo.lawn_id
              (snd (Route.post_me_provider_mode (bearer Demo.alice_token)
                      (ProviderModeRequest.mk true) Demo.users))
              Demo.with_service
              (match fst (get_service (Hex.hexlify Demo.lawn_id)
                                Demo.with_service) with
               | Ok v => v
               | Raise _ => None
               end))
    as (view & Hr & _ & _ & Hget).
  - vm_compute. reflexivity.
  - rewrite Hget. vm_compute in Hr. injection Hr as <-.
    vm_compute. reflexivity.
Defined.

(** X11. [get_service] only reads.  An identifier that is not the text of
    an [ObjectId] gives 400, one under which no service is stored gives
    404, and otherwise the view of the stored service is returned, which
    bears the identifier asked for, in lower case; the view has no [_id]
    field. *)
Theorem get_service_outcomes (service_id : string) (db : DB) :
  ids_ok (service db) = true ->
  (ObjectId_of (VStr service_id) = None
   /\ get_service service_id db
      = (Raise (HTTPException 400 "Invalid ID format"), db))
  \/ (exists oid,
        ObjectId_of (VStr service_id) = Some oid
        /\ existsb (has_oid oid) (service db) = false
        /\ get_service service_id db
           = (Raise (HTTPException 404 "Service not found"), db))
  \/ (exists oid svc,
        ObjectId_of (VStr service_id) = Some oid
        /\ In svc (service db)
        /\ get_service service_id db = (Ok (Some (serialize_dict svc)), db)
        /\ alist_get "id" (serialize_dict svc) = Some (VStr (Hex.hexlify oid))
        /\ alist_get "_id" (serialize_dict svc) = None).
Proof.
  intros Hok.
  destruct (ObjectId_of (VStr service_id)) as [oid|] eqn:Hoid.
  - right.
    destruct (find (matches [("_id", VObjectId oid)]) (service db))
      as [svc|] eqn:Hfind.
    + right. exists oid, svc.
      pose proof (find_by_id_oid _ _ _ Hok Hfind) as Hid.
      destruct (serialize_dict_id svc _ Hid) as [Hv Hno].
      split; [reflexivity|].
      split; [apply (find_some _ _ Hfind)|].
      split; [apply get_service_found with (oid := oid); assumption|].
      split; [exact Hv | exact Hno].
    + left. exists oid. split; [reflexivity|].
      split.
      * rewrite <- (existsb_matches_id oid _ Hok).
        apply find_none_existsb. exact Hfind.
      * apply get_service_missing with (oid := oid); assumption.
  - left. split; [reflexivity|].
    unfold get_service. run_with ltac:(rewrite ?Hoid). reflexivity.
Qed.

Lemma get_service_outcomes_witness :
  let service_id := "6C61776E2D2D303030303033" in
  let db := Demo.with_booking in
  (ObjectId_of (VStr service_id) = None
   /\ get_service service_id db
      = (Raise (HTTPException 400 "Invalid ID format"), db))
  \/ (exists oid,
        ObjectId_of (VStr service_id) = Some oid
        /\ existsb (has_oid oid) (service db) = false
        /\ get_service service_id db
           = (Raise (HTTPException 404 "Service not found"), db))
  \/ (exists oid svc,
        ObjectId_of (VStr service_id) = Some oid
        /\ In svc (service db)
        /\ get_service service_id db = (Ok (Some (serialize_dict svc)), db)
        /\ alist_get "id" (serialize_dict svc) = Some (VStr (Hex.hexlify oid))
        /\ alist_get "_id" (serialize_dict svc) = None).
Proof.
  apply (get_service_outcomes "6C61776E2D2D303030303033" Demo.with_booking).
  vm_compute. reflexivity.
Defined.

(** ** Services: update and deletion *)

Lemma alist_get_notin_keys (k : string) (d : dict) :
  ~ In k (map fst d) -> alist_get k d = None.
Proof.
  induction d as [|[k' v'] d IH]; simpl; [reflexivity|].
  intros H. destruct (String.eqb k k') eqn:E.
  - apply String.eqb_eq in E. subst k'. exfalso. apply H. left. reflexivity.
  - apply IH. intros Hin. apply H. right. exact Hin.
Qed.

Lemma alist_get_filter_nodup (f : string * value -> bool) (k : string) (d : dict) :
  NoDup (map fst d) ->
  alist_get k (filter f d)
  = match alist_get k d with
    | Some v => if f (k, v) then Some v else None
    | None => None
    end.
Proof.
  induction d as [|[k' v'] d IH]; simpl; [reflexivity|].
  intros Hnd. inversion Hnd as [|? ? Hnotin Hnd']. subst.
  destruct (String.eqb k k') eqn:E.
  - apply String.eqb_eq in E. subst k'.
    destruct (f (k, v')); simpl.
    + rewrite String.eqb_refl. reflexivity.
    + apply alist_get_filter_none, alist_get_notin_keys. exact Hnotin.
  - destruct (f (k', v')); simpl; [rewrite E|]; apply IH; exact Hnd'.
Qed.

Lemma alist_get_dict_update_in (e d : dict) (k : string) (v : value) :
  NoDup (map fst e) -> alist_get k e = Some v ->
  alist_get k (dict_update e d) = Some v.
Proof.
  unfold dict_update. revert d.
  induction e as [|[k0 v0] e IH]; intros d Hnd H; simpl in *; [discriminate|].
  inversion Hnd as [|? ? Hnotin Hnd']. subst.
  destruct (String.eqb k k0) eqn:E.
  - apply String.eqb_eq in E. subst k0. injection H as ->.
    pose proof (alist_get_dict_update_notin e (dict_set k v d) k
                  (alist_get_notin_keys _ _ Hnotin)) as Hn.
    unfold dict_update in Hn. rewrite Hn. apply alist_get_dict_set_eq.
  - apply IH; assumption.
Qed.

Lemma keys_filter_nodup (f : string * value -> bool) (d : dict) :
  NoDup (map fst d) -> NoDup (map fst (filter f d)).
Proof.
  induction d as [|[k v] d IH]; simpl; [auto|].
  intros Hnd. inversion Hnd as [|? ? Hnotin Hnd']. subst.
  destruct (f (k, v)); simpl; [|auto].
  constructor; [|auto].
  intros Hin. apply Hnotin. apply in_map_iff in Hin.
  destruct Hin as (x & Hx & Hin). apply filter_In in Hin.
  apply in_map_iff. exists x. tauto.
Qed.

Lemma keys_dict_set (k : string) (v : value) (d : dict) (k' : string) :
  In k' (map fst (dict_set k v d)) <-> k' = k \/ In k' (map fst d).
Proof.
  induction d as [|[k0 v0] d IH]; simpl.
  - intuition.
  - destruct (String.eqb k k0) eqn:E; simpl.
    + apply String.eqb_eq in E. subst k0. intuition.
    + rewrite IH. intuition.
Qed.

Lemma keys_dict_set_nodup (k : string) (v : value) (d : dict) :
  NoDup (map fst d) -> NoDup (map fst (dict_set k v d)).
Proof.
  induction d as [|[k0 v0] d IH]; simpl; intros Hnd.
  - repeat constructor. intros [].
  - inversion Hnd as [|? ? Hnotin Hnd']. subst.
    destruct (String.eqb k k0) eqn:E; simpl.
    + apply String.eqb_eq in E. subst k0. constructor; assumption.
    + constructor; [|auto]. rewrite keys_dict_set.
      apply String.eqb_neq in E. intros [->|Hin]; [congruence | contradiction].
Qed.

Lemma service_update_keys_nodup payload :
  NoDup (map fst (ServiceUpdateRequest.model_dump payload)).
Proof.
  unfold ServiceUpdateRequest.model_dump, ServiceCreateRequest.model_dump.
  cbn [map fst app].
  repeat (constructor; [cbn [In]; intuition discriminate|]).
  constructor.
Qed.

Lemma service_update_fields_nodup payload now :
  NoDup (map fst (service_update_fields payload now)).
Proof.
  unfold service_update_fields, drop_none.
  apply keys_dict_set_nodup, keys_filter_nodup, service_update_keys_nodup.
Qed.

(** What [$set] of the update makes of one field of a service. *)
Lemma service_update_field payload now svc k :
  k <> "updated_at" ->
  alist_get k (dict_update (service_update_fields payload now) svc)
  = match alist_get k (ServiceUpdateRequest.model_dump payload) with
    | Some VNone | None => alist_get k svc
    | Some v => Some v
    end.
Proof.
  intros Hk.
  assert (alist_get k (service_update_fields payload now)
          = match alist_get k (ServiceUpdateRequest.model_dump payload) with
            | Some VNone | None => None
            | Some v => Some v
            end) as Hf.
  { unfold service_update_fields, drop_none.
    rewrite alist_get_dict_set_neq by exact Hk.
    rewrite alist_get_filter_nodup by apply service_update_keys_nodup.
    destruct (alist_get k (ServiceUpdateRequest.model_dump payload)) as [[]|];
      reflexivity. }
  destruct (alist_get k (service_update_fields payload now)) as [v|] eqn:E.
  - rewrite (alist_get_dict_update_in _ _ _ _
               (service_update_fields_nodup payload now) E).
    destruct (alist_get k (ServiceUpdateRequest.model_dump payload)) as [[]|];
      congruence.
  - rewrite (alist_get_dict_update_notin _ _ _ E).
    destruct (alist_get k (ServiceUpdateRequest.model_dump payload)) as [[]|];
      congruence.
Qed.

Lemma update_service_inv id payload cur now db r db' :
  ids_ok (service db) = true ->
  update_service id payload cur now db = (Ok r, db') ->
  exists oid svc l1 l2,
    let svc' := dict_update (service_update_fields payload now) svc in
    ObjectId_of (VStr id) = Some oid
    /\ service db = l1 ++ svc :: l2
    /\ alist_get "_id" svc = Some (VObjectId oid)
    /\ db' = mkDB (user db) (l1 ++ svc' :: l2) (booking db)
    /\ r = Some (serialize_dict svc')
    /\ find (matches [("_id", VObjectId oid)]) (l1 ++ svc' :: l2) = Some svc'.
Proof.
  intros Hok H. pose proof H as H0. unfold update_service in H0. run_cases.
  match goal with Hp : py_ne _ _ = false |- _ =>
    unfold py_ne in Hp; apply negb_false_iff in Hp; rename Hp into Hown end.
  match goal with Hc : alist_get "id" _ = Some _ |- _ => rename Hc into Hcid end.
  match goal with Ho : ObjectId_of _ = Some _ |- _ => rename Ho into Hoid end.
  match goal with Hf : find _ (service _) = Some _ |- _ =>
    rename Hf into Hfind end.
  destruct (update_service_owner _ _ _ _ _ payload now _ Hok Hoid Hfind Hcid Hown)
    as (l1 & l2 & Hl & Hrun & Hfind' & _).
  rewrite Hrun in H.
  eexists _, _, l1, l2. cbv zeta.
  split; [reflexivity|]. split; [exact Hl|].
  split; [exact (find_by_id_oid _ _ _ Hok Hfind)|].
  split; [congruence|]. split; [congruence | exact Hfind'].
Qed.



Lemma delete_service_inv id cur db r db' :
  ids_ok (service db) = true ->
  delete_service id cur db = (Ok r, db') ->
  exists oid svc l1 l2,
    ObjectId_of (VStr id) = Some oid
    /\ service db = l1 ++ svc :: l2
    /\ alist_get "_id" svc = Some (VObjectId oid)
    /\ db' = mkDB (user db) (l1 ++ l2) (booking db)
    /\ r = [("deleted", VBool true)].
Proof.
  intros Hok H. pose proof H as H0. unfold delete_service in H0. run_cases.
  match goal with Hp : py_ne _ _ = false |- _ =>
    unfold py_ne in Hp; apply negb_false_iff in Hp; rename Hp into Hown end.
  match goal with Hc : alist_get "id" _ = Some _ |- _ => rename Hc into Hcid end.
  match goal with Ho : ObjectId_of _ = Some _ |- _ => rename Ho into Hoid end.
  match goal with Hf : find _ (service _) = Some _ |- _ =>
    rename Hf into Hfind end.
  destruct (delete_service_owner _ _ _ _ _ _ Hok Hoid Hfind Hcid Hown)
    as (l1 & l2 & Hl & Hrun).
  rewrite Hrun in H.
  eexists _, _, l1, l2.
  split; [reflexivity|]. split; [exact Hl|].
  split; [exact (find_by_id_oid _ _ _ Hok Hfind)|].
  split; congruence.
Qed.

Lemma ids_ok_remove (l1 l2 : list dict) (u : dict) :
  ids_ok (l1 ++ u :: l2) = true -> ids_ok (l1 ++ l2) = true.
Proof.
  induction l1 as [|a l1 IH]; simpl.
  - destruct (oid_of u); [|discriminate].
    intros H. apply andb_prop in H. destruct H as [_ H].
    apply andb_prop in H. tauto.
  - destruct (oid_of a) as [o|]; [|discriminate].
    intros H. apply andb_prop in H. destruct H as [Hlen H].
    apply andb_prop in H. destruct H as [Hno H].
    rewrite Hlen, (IH H). rewrite existsb_has_oid_app in Hno.
    rewrite existsb_app.
    destruct (existsb (has_oid o) l1); [discriminate|].
    destruct (has_oid o u); [discriminate|].
    cbn [orb andb] in *. rewrite Hno. reflexivity.
Qed.

(** X13. A successful [delete_service] removes exactly the service asked
    for and nothing else: the other services keep their order, users and
    bookings are untouched, so the bookings of the deleted service stay.
    Afterwards the service cannot be fetched, and a second deletion
    fails, both with 404. *)
Theorem delete_service_effect
    (service_id : string) (cur : option dict) (db db' : DB) (r : dict) :
  ids_ok (service db) = true ->
  delete_service service_id cur db = (Ok r, db') ->
  exists svc l1 l2,
    service db = l1 ++ svc :: l2
    /\ db' = mkDB (user db) (l1 ++ l2) (booking db)
    /\ r = [("deleted", VBool true)]
    /\ get_service service_id db'
       = (Raise (HTTPException 404 "Service not found"), db')
    /\ forall cur',
         delete_service service_id cur' db'
         = (Raise (HTTPException 404 "Service not found"), db').
Proof.
  intros Hok H.
  destruct (delete_service_inv _ _ _ _ _ Hok H)
    as (oid & svc & l1 & l2 & Hoid & Hl & Hid & -> & ->).
  exists svc, l1, l2.
  split; [exact Hl|]. split; [reflexivity|]. split; [reflexivity|].
  assert (find (matches [("_id", VObjectId oid)]) (l1 ++ l2) = None) as Hgone.
  { rewrite Hl in Hok.
    apply find_none_existsb.
    rewrite (existsb_matches_id oid _ (ids_ok_remove _ _ _ Hok)).
    destruct (ids_ok_unique _ _ _ oid Hok) as (H1 & H2 & _);
      [unfold oid_of; rewrite Hid; reflexivity|].
    rewrite existsb_app, H1, H2. reflexivity. }
  split.
  - apply get_service_missing with (oid := oid); assumption.
  - intros cur'. apply delete_service_missing with (oid := oid); assumption.
Qed.

Lemma delete_service_effect_witness :
  let db' := snd (delete_service (Hex.hexlify Demo.lawn_id) Demo.alice
                    Demo.with_booking) in
  service db' = []
  /\ booking db' = booking Demo.with_booking
  /\ get_service (Hex.hexlify Demo.lawn_id) db'
     = (Raise (HTTPException 404 "Service not found"), db').
Proof.
  intros db'.
  destruct (delete_service_effect (Hex.hexlify Demo.lawn_id) Demo.alice
              Demo.with_booking db' [("deleted", VBool true)])
    as (svc & l1 & l2 & Hl & Hdb & _ & Hget & _).
  - vm_compute. reflexivity.
  - vm_compute. reflexivity.
  - split; [vm_compute; reflexivity|].
    split; [rewrite Hdb; reflexivity | exact Hget].
Defined.

(** ** Bookings *)

Lemma create_booking_run data c cid oid svc pid now fresh db :
  ObjectId_of (VStr (BookingCreateRequest.service_id data)) = Some oid ->
  find (matches [("_id", VObjectId oid)]) (service db) = Some svc ->
  alist_get "provider_id" svc = Some pid ->
  alist_get "id" c = Some cid ->
  String.length fresh = 12 ->
  existsb (matches [("_id", VObjectId fresh)]) (booking db) = false ->
  let doc := new_booking_doc data pid cid (dict_get_default "price" svc)
               now fresh in
  create_booking data (Some c) now fresh db
  = (Ok (Some (serialize_dict doc)),
     mkDB (user db) (service db) (booking db ++ [doc])).
Proof.
  intros Hoid Hfind Hpid Hcid Hlen Hfresh doc.
  pose proof (find_matches_truthy "_id" (VObjectId oid) _ _ eq_refl Hfind) as Ht.
  pose proof (ObjectId_of_hexlify fresh Hlen) as Hoid'.
  pose proof (find_snoc _ (booking db) doc Hfresh
                (matches_own_id fresh doc eq_refl)) as Hfind'.
  unfold create_booking.
  run_with ltac:(rewrite ?Hoid, ?Hfind, ?Ht, ?Hpid, ?Hcid).
  cbn [dict_set String.eqb Ascii.eqb Bool.eqb alist_get dict_mem py_str].
  run_with ltac:(rewrite ?Hfresh, ?Hoid').
  fold (dict_get_default "price" svc).
  change (_ :: _ :: _) with doc.
  change (py_str (VObjectId fresh)) with (Hex.hexlify fresh).
  run_with ltac:(rewrite ?Hoid', ?Hfind'). reflexivity.
Qed.

Lemma create_booking_inv data cur now fresh db r db1 :
  create_booking data cur now fresh db = (Ok r, db1) ->
  exists oid svc pid c cid,
    ObjectId_of (VStr (BookingCreateRequest.service_id data)) = Some oid
    /\ find (matches [("_id", VObjectId oid)]) (service db) = Some svc
    /\ alist_get "provider_id" svc = Some pid
    /\ cur = Some c
    /\ alist_get "id" c = Some cid
    /\ String.length fresh = 12
    /\ existsb (matches [("_id", VObjectId fresh)]) (booking db) = false
    /\ db1 = mkDB (user db) (service db)
               (booking db
                ++ [new_booking_doc data pid cid (dict_get_default "price" svc)
                      now fresh])
    /\ r = Some (serialize_dict
                   (new_booking_doc data pid cid (dict_get_default "price" svc)
                      now fresh)).
Proof.
  intros H. pose proof H as H0. unfold create_booking in H0. run_cases.
  match goal with
  | Ho : ObjectId_of (VStr (Hex.hexlify fresh)) = Some _ |- _ =>
      destruct (ObjectId_of_hexlify_inv _ _ Ho) as [-> Hlen]
  end.
  match goal with Hc : alist_get "id" _ = Some _ |- _ => rename Hc into Hcid end.
  match goal with Hp : alist_get "provider_id" _ = Some _ |- _ =>
    rename Hp into Hpid end.
  match goal with Ho : ObjectId_of (VStr (BookingCreateRequest.service_id _)) = _
    |- _ => rename Ho into Hoid end.
  match goal with Hf : find _ (service _) = Some _ |- _ =>
    rename Hf into Hfind end.
  match goal with He : existsb _ (booking _) = false |- _ =>
    rename He into Hfresh end.
  rewrite (create_booking_run _ _ _ _ _ _ _ _ _ Hoid Hfind Hpid Hcid Hlen Hfresh)
    in H.
  eexists _, _, _, _, _. repeat split; try eassumption; try reflexivity.
  congruence.
Qed.

(** X14. Booking asks only that the service exist.  Whoever the
    authenticated caller is, the provider of the service included, whether
    or not the service is active and whatever the caller's provider mode,
    [create_booking] stores a booking in status [pending] that names the
    service's provider as provider and the caller as customer, keeps the
    service identifier as it was sent, and returns its view. *)
Theorem booking_needs_only_the_service
    (data : BookingCreateRequest.t) (c : dict) (cid : value) (oid : ObjectId)
    (svc : dict) (pid : value) (now : datetime) (fresh : ObjectId) (db : DB) :
  ObjectId_of (VStr (BookingCreateRequest.service_id data)) = Some oid ->
  find (matches [("_id", VObjectId oid)]) (service db) = Some svc ->
  alist_get "provider_id" svc = Some pid ->
  alist_get "id" c = Some cid ->
  String.length fresh = 12 ->
  existsb (matches [("_id", VObjectId fresh)]) (booking db) = false ->
  exists doc,
    create_booking data (Some c) now fresh db
    = (Ok (Some (serialize_dict doc)),
       mkDB (user db) (service db) (booking db ++ [doc]))
    /\ alist_get "_id" doc = Some (VObjectId fresh)
    /\ alist_get "service_id" doc
       = Some (VStr (BookingCreateRequest.service_id data))
    /\ alist_get "provider_id" doc = Some pid
    /\ alist_get "customer_id" doc = Some cid
    /\ alist_get "status" doc = Some (VStr "pending")
    /\ alist_get "id" (serialize_dict doc) = Some (VStr (Hex.hexlify fresh)).
Proof.
  intros Hoid Hfind Hpid Hcid Hlen Hfresh.
  exists (new_booking_doc data pid cid (dict_get_default "price" svc) now fresh).
  split; [eapply create_booking_run; eassumption|].
  repeat (split; [reflexivity|]).
  destruct (serialize_dict_id
              (new_booking_doc data pid cid (dict_get_default "price" svc)
                 now fresh) (VObjectId fresh) eq_refl) as [H _].
  exact H.
Qed.

Lemma booking_needs_only_the_service_witness :
  exists doc,
    create_booking Demo.visit Demo.alice Demo.t1 "visit-000005"
      Demo.with_booking
    = (Ok (Some (serialize_dict doc)),
       mkDB (user Demo.with_booking) (service Demo.with_booking)
         (booking Demo.with_booking ++ [doc]))
    /\ alist_get "provider_id" doc = alist_get "customer_id" doc.
Proof.
  destruct (booking_needs_only_the_service Demo.visit
              (match Demo.alice with Some c => c | None => [] end)
              (VStr (Hex.hexlify Demo.alice_id)) Demo.lawn_id
              (match service Demo.with_booking with s :: _ => s | [] => [] end)
              (VStr (Hex.hexlify Demo.alice_id))
              Demo.t1 "visit-000005" Demo.with_booking)
    as (doc & Hrun & _ & _ & Hp & Hc & _).
  - vm_compute. reflexivity.
  - vm_compute. reflexivity.
  - vm_compute. reflexivity.
  - vm_compute. reflexivity.
  - vm_compute. reflexivity.
  - vm_compute. reflexivity.
  - exists doc. split; [exact Hrun | congruence].
Defined.

(** X15. Only the provider that the service named when it was booked can
    change the status of the new booking.  A caller whose identifier
    equals that [provider_id] succeeds, with any status the request
    carries; any other caller, the customer who made the booking
    included, gets 403 and the booking is unchanged, so a customer cannot
    cancel. *)
Theorem only_the_provider_changes_a_booking
    (data : BookingCreateRequest.t) (cur : option dict) (now : datetime)
    (fresh : ObjectId) (db db1 : DB) (r : option dict) :
  ids_ok (booking db) = true ->
  create_booking data cur now fresh db = (Ok r, db1) ->
  exists oid svc pid,
    ObjectId_of (VStr (BookingCreateRequest.service_id data)) = Some oid
    /\ find (matches [("_id", VObjectId oid)]) (service db) = Some svc
    /\ alist_get "provider_id" svc = Some pid
    /\ forall c' cid' req now',
         alist_get "id" c' = Some cid' ->
         (py_eq pid cid' = true ->
          exists bk' db2,
            update_booking_status (Hex.hexlify fresh) req (Some c') now' db1
            = (Ok (Some (serialize_dict bk')), db2)
            /\ find (matches [("_id", VObjectId fresh)]) (booking db2) = Some bk'
            /\ alist_get "status" bk'
               = Some (VStr (BookingStatusUpdate.status req)))
         /\ (py_eq pid cid' = false ->
             update_booking_status (Hex.hexlify fresh) req (Some c') now' db1
             = (Raise (HTTPException 403 "Only provider can change status"),
                db1)).
Proof.
  intros Hok H.
  destruct (create_booking_inv _ _ _ _ _ _ _ H)
    as (oid & svc & pid & c & cid & Hoid & Hfind & Hpid & -> & Hcid & Hlen
        & Hfresh & -> & ->).
  exists oid, svc, pid.
  split; [exact Hoid|]. split; [exact Hfind|]. split; [exact Hpid|].
  set (doc := new_booking_doc data pid cid (dict_get_default "price" svc)
                now fresh).
  assert (find (matches [("_id", VObjectId fresh)]) (booking db ++ [doc])
          = Some doc) as Hfind'
    by (apply find_snoc; [exact Hfresh | apply matches_own_id; reflexivity]).
  assert (ids_ok (booking db ++ [doc]) = true) as Hok'.
  { apply ids_ok_snoc with (o := fresh); [exact Hok | reflexivity | exact Hlen|].
    rewrite <- (existsb_matches_id fresh _ Hok). exact Hfresh. }
  pose proof (ObjectId_of_hexlify fresh Hlen) as Hoid'.
  intros c' cid' req now' Hcid'. split.
  - intros Hown.
    destruct (update_booking_status_owner (Hex.hexlify fresh) fresh doc c' cid'
                req now'
                (mkDB (user db) (service db) (booking db ++ [doc]))
                Hok' Hoid' Hfind' Hcid' Hown)
      as (l1 & l2 & Hl & Hrun & Hf & _).
    rewrite serialize_some in Hrun.
    eexists _, _. split; [exact Hrun|].
    split; [exact Hf|].
    unfold dict_update. cbn [fold_left fst snd].
    rewrite alist_get_dict_set_neq by discriminate.
    apply alist_get_dict_set_eq.
  - intros Hown.
    apply update_booking_status_not_owner with (oid := fresh) (cid := cid')
                                               (bk := doc);
      try assumption.
    unfold py_ne. change (dict_get_default "provider_id" doc) with pid.
    rewrite Hown. reflexivity.
Qed.

Lemma only_the_provider_changes_a_booking_witness :
  let alice := match Demo.alice with Some c => c | None => [] end in
  let bob := match Demo.bob with Some c => c | None => [] end in
  update_booking_status (Hex.hexlify Demo.visit_id)
    (BookingStatusUpdate.mk "canceled") (Some bob) Demo.t1 Demo.with_booking
  = (Raise (HTTPException 403 "Only provider can change status"),
     Demo.with_booking)
  /\ exists bk' db2,
       update_booking_status (Hex.hexlify Demo.visit_id)
         (BookingStatusUpdate.mk "accepted") (Some alice) Demo.t1
         Demo.with_booking
       = (Ok (Some (serialize_dict bk')), db2)
       /\ alist_get "status" bk' = Some (VStr "accepted").
Proof.
  intros alice bob.
  destruct (only_the_provider_changes_a_booking Demo.visit Demo.bob Demo.t0
              Demo.visit_id Demo.with_service Demo.with_booking
              (match fst (create_booking Demo.visit Demo.bob Demo.t0
                            Demo.visit_id Demo.with_service) with
               | Ok v => v
               | Raise _ => None
               end))
    as (oid & svc & pid & Hoid & Hfind & Hpid & Hstatus).
  - vm_compute. reflexivity.
  - vm_compute. reflexivity.
  - vm_compute in Hoid. injection Hoid as <-.
    vm_compute in Hfind. injection Hfind as <-.
    vm_compute in Hpid. injection Hpid as <-.
    split.
    + destruct (Hstatus bob (VStr (Hex.hexlify Demo.bob_id))
                  (BookingStatusUpdate.mk "canceled") Demo.t1) as [_ Hno].
      * vm_compute. reflexivity.
      * apply Hno. vm_compute. reflexivity.
    + destruct (Hstatus alice (VStr (Hex.hexlify Demo.alice_id))
                  (BookingStatusUpdate.mk "accepted") Demo.t1) as [Hyes _].
      * vm_compute. reflexivity.
      * destruct Hyes as (bk' & db2 & Hrun & _ & Hst);
          [vm_compute; reflexivity|].
        exists bk', db2. split; [exact Hrun | exact Hst].
Defined.

(** ** Listing services *)

Lemma hexlify_inj (a b : string) : Hex.hexlify a = Hex.hexlify b -> a = b.
Proof.
  intros H. pose proof (fromhex_hexlify a) as Ha.
  rewrite H, fromhex_hexlify in Ha. congruence.
Qed.

Lemma ids_ok_same_oid (l : list dict) (a b : dict) (o : ObjectId) :
  ids_ok l = true -> In a l -> In b l ->
  oid_of a = Some o -> oid_of b = Some o -> a = b.
Proof.
  induction l as [|d l IH]; simpl; [tauto|].
  destruct (oid_of d) as [od|] eqn:Ed; [|discriminate].
  intros H. apply andb_prop in H. destruct H as [_ H].
  apply andb_prop in H. destruct H as [Hno Hok].
  apply negb_true_iff in Hno.
  assert (forall x, In x l -> oid_of x = Some od -> False) as Hfresh.
  { intros x Hx Hox.
    assert (existsb (has_oid od) l = true) as E.
    { apply existsb_exists. exists x. split; [exact Hx|].
      unfold has_oid. rewrite Hox. apply String.eqb_refl. }
    congruence. }
  intros [->|Ha] [->|Hb] Hoa Hob.
  - reflexivity.
  - exfalso. apply (Hfresh b Hb). congruence.
  - exfalso. apply (Hfresh a Ha). congruence.
  - apply IH; assumption.
Qed.

Lemma In_query_set (k : string) (cl : clause) (q : query) :
  In (k, cl) (query_set k cl q).
Proof.
  induction q as [|[k' cl'] q IH]; simpl; [auto|].
  destruct (String.eqb k k'); simpl; auto.
Qed.

Lemma In_query_set_other (k k' : string) (cl cl' : clause) (q : query) :
  k' <> k -> In (k', cl') q -> In (k', cl') (query_set k cl q).
Proof.
  intros Hne. induction q as [|[k0 cl0] q IH]; simpl; [tauto|].
  destruct (String.eqb k k0) eqn:E; simpl.
  - apply String.eqb_eq in E. subst k0.
    intros [H|H]; [congruence | auto].
  - intros [H|H]; auto.
Qed.

Lemma In_set_if_given_other (k k' : string) (v : option string) (cl' : clause)
    (q : query) :
  k' <> k -> In (k', cl') q -> In (k', cl') (set_if_given k v q).
Proof.
  intros Hne H. unfold set_if_given.
  destruct (PyStr.falsy v); [exact H|].
  apply In_query_set_other; assumption.
Qed.

Lemma In_set_if_given (k c : string) (q : query) :
  c <> "" -> In (k, Field (CEq (VStr c))) (set_if_given k (Some c) q).
Proof.
  intros Hc. unfold set_if_given.
  destruct c; [congruence|]. apply In_query_set.
Qed.

(** The entries of the filter that [list_services] builds. *)
Lemma list_services_filter_entries q country province category provider_id :
  let filt := list_services_filter q country province category provider_id in
  In ("is_active", Field (CNe (VBool false))) filt
  /\ (forall k c,
        In (k, Some c) [ ("country", country); ("province", province);
                         ("category", category); ("provider_id", provider_id) ] ->
        c <> "" -> In (k, Field (CEq (VStr c))) filt)
  /\ (forall p, q = Some p -> p <> "" ->
        In ("$or", Or [ [("name", CRegex p "i")];
                        [("description", CRegex p "i")] ]) filt).
Proof.
  assert (forall cl k, k <> "$or" ->
            In (k, cl)
              (set_if_given "provider_id" provider_id
                 (set_if_given "category" category
                    (set_if_given "province" province
                       (set_if_given "country" country
                          [("is_active", Field (CNe (VBool false)))])))) ->
            In (k, cl)
              (list_services_filter q country province category provider_id))
    as Hq.
  { intros cl k Hk H. unfold list_services_filter.
    destruct (PyStr.falsy q); [exact H|].
    apply In_query_set_other; assumption. }
  cbv zeta. split; [|split].
  - apply Hq; [discriminate|].
    repeat (apply In_set_if_given_other; [discriminate|]). left. reflexivity.
  - intros k c Hin Hc. cbn [In] in Hin.
    destruct Hin as [H|[H|[H|[H|[]]]]]; injection H as <- ->;
      (apply Hq; [discriminate|]).
    + repeat (apply In_set_if_given_other; [discriminate|]).
      apply In_set_if_given. exact Hc.
    + repeat (apply In_set_if_given_other; [discriminate|]).
      apply In_set_if_given. exact Hc.
    + repeat (apply In_set_if_given_other; [discriminate|]).
      apply In_set_if_given. exact Hc.
    + apply In_set_if_given. exact Hc.
  - intros p -> Hp. unfold list_services_filter.
    destruct p; [congruence|]. cbn [PyStr.falsy]. apply In_query_set.
Qed.

Section ListingServices.

Variable regex : string -> string -> option (string -> bool).
Variable cursor_limit : Z -> list dict -> list dict.

Lemma list_services_inv q country province category provider_id limit db views :
  list_services regex cursor_limit q country province category provider_id
    limit db = Some views ->
  let filt := list_services_filter q country province category provider_id in
  forallb (fun kcl => clause_valid regex (snd kcl)) filt = true
  /\ views = map (fun x => serialize (Some x))
               (cursor_limit (Z.min limit 100)
                  (filter (query_holds regex filt) (service db))).
Proof.
  unfold list_services, find_query. cbv zeta.
  destruct (forallb _ _); [|discriminate].
  intros H. injection H as <-. split; reflexivity.
Qed.

(** The documents the cursor yields are among those the query found. *)
Hypothesis limit_incl : forall n l x, In x (cursor_limit n l) -> In x l.

Lemma listed_service_holds q country province category provider_id limit db
    views v :
  list_services regex cursor_limit q country province category provider_id
    limit db = Some views ->
  In v views ->
  exists svc,
    In svc (service db) /\ v = Some (serialize_dict svc)
    /\ query_holds regex
         (list_services_filter q country province category provider_id) svc
       = true.
Proof.
  intros H Hv. apply list_services_inv in H. destruct H as [_ ->].
  apply in_map_iff in Hv. destruct Hv as (svc & <- & Hin).
  apply limit_incl in Hin. apply filter_In in Hin. destruct Hin as [Hin Hq].
  exists svc. split; [exact Hin|]. split; [apply serialize_some | exact Hq].
Qed.

(** X16. Every entry that [list_services] returns is the view of a stored
    service that has not been deactivated and that meets each filter
    given: the country, province, category and provider asked for, when
    not empty, equal the stored field, and a search text, when not empty,
    is found by the server, letters compared without case, in the name or
    in the description.  The cursor is only required to yield documents
    that the query found. *)
Theorem listed_services_pass_the_filters
    (q country province category provider_id : option string) (limit : Z)
    (db : DB) (views : list (option dict)) (v : option dict) :
  list_services regex cursor_limit q country province category provider_id
    limit db = Some views ->
  In v views ->
  exists svc,
    In svc (service db)
    /\ v = Some (serialize_dict svc)
    /\ store_field_matches (alist_get "is_active" svc) (VBool false) = false
    /\ (forall k c,
          In (k, Some c) [ ("country", country); ("province", province);
                           ("category", category);
                           ("provider_id", provider_id) ] ->
          c <> "" -> store_field_matches (alist_get k svc) (VStr c) = true)
    /\ (forall p, q = Some p -> p <> "" ->
          exists m,
            regex p "i" = Some m
            /\ orb (regex_field m (alist_get "name" svc))
                   (regex_field m (alist_get "description" svc)) = true).
Proof.
  intros H Hv.
  destruct (listed_service_holds _ _ _ _ _ _ _ _ _ H Hv)
    as (svc & Hin & -> & Hq).
  exists svc. split; [exact Hin|]. split; [reflexivity|].
  destruct (list_services_filter_entries q country province category provider_id)
    as (Hact & Hf & Hor).
  unfold query_holds in Hq. rewrite forallb_forall in Hq.
  split; [|split].
  - apply Hq in Hact. cbn [fst snd clause_holds cond_holds] in Hact.
    apply negb_true_iff in Hact. exact Hact.
  - intros k c Hk Hc. apply (Hf k c Hk) in Hc. apply Hq in Hc. exact Hc.
  - intros p Hp Hne. apply (Hor p Hp) in Hne. apply Hq in Hne.
    cbn [fst snd clause_holds existsb all_hold forallb cond_holds] in Hne.
    destruct (regex p "i") as [m|]; [|discriminate].
    exists m. split; [reflexivity|].
    rewrite !andb_true_r, orb_false_r in Hne. exact Hne.
Qed.

End ListingServices.

(** The driver of the examples meets what is asked of a cursor. *)
Lemma In_firstn {A : Type} (n : nat) (l : list A) (x : A) :
  In x (firstn n l) -> In x l.
Proof.
  intros H. rewrite <- (firstn_skipn n l). apply in_or_app. left. exact H.
Qed.

Lemma demo_limit_incl (n : Z) (l : list dict) (x : dict) :
  In x (DemoDriver.cursor_limit n l) -> In x l.
Proof.
  unfold DemoDriver.cursor_limit. destruct (Z.eqb n 0); [auto|].
  apply In_firstn.
Qed.

Lemma demo_limit_pos (n : Z) (l : list dict) :
  (0 < n)%Z -> DemoDriver.cursor_limit n l = firstn (Z.to_nat n) l.
Proof.
  intros H. unfold DemoDriver.cursor_limit.
  destruct (Z.eqb_spec n 0); [lia|]. rewrite Z.abs_eq by lia. reflexivity.
Qed.

Lemma demo_limit_zero (l : list dict) : DemoDriver.cursor_limit 0 l = l.
Proof. reflexivity. Qed.

Lemma listed_services_pass_the_filters_witness :
  let views := list_services DemoDriver.regex DemoDriver.cursor_limit
                 (Some "LAWN") None None (Some "garden") None 50
                 Demo.with_booking in
  exists svc,
    In svc (service Demo.with_booking)
    /\ views = Some [Some (serialize_dict svc)]
    /\ store_field_matches (alist_get "category" svc) (VStr "garden") = true.
Proof.
  intros views.
  destruct (listed_services_pass_the_filters DemoDriver.regex
              DemoDriver.cursor_limit demo_limit_incl
              (Some "LAWN") None None (Some "garden") None 50
              Demo.with_booking
              (match views with Some l => l | None => [] end)
              (match views with Some (v :: _) => v | _ => None end))
    as (svc & Hin & Hv & _ & Hf & _).
  - vm_compute. reflexivity.
  - vm_compute. left. reflexivity.
  - exists svc. split; [exact Hin|]. split.
    + rewrite <- Hv. vm_compute. reflexivity.
    + apply Hf; [right; right; left; reflexivity | discriminate].
Defined.

Section ListingLimit.

Variable regex : string -> string -> option (string -> bool).
Variable cursor_limit : Z -> list dict -> list dict.

(** A positive limit keeps that many documents from the front, and a
    limit of 0 is no limit. *)
Hypothesis limit_pos :
  forall n l, (0 < n)%Z -> cursor_limit n l = firstn (Z.to_nat n) l.
Hypothesis limit_zero : forall l, cursor_limit 0 l = l.

(** X17. With a positive [limit], [list_services] returns at most
    [limit] entries and never more than 100, the first of those that
    match, in the order of the collection.  With [limit=0] the cap of 100
    does not apply: every matching service is returned. *)
Theorem list_services_limit
    (q country province category provider_id : option string) (limit : Z)
    (db : DB) (views : list (option dict)) :
  list_services regex cursor_limit q country province category provider_id
    limit db = Some views ->
  let found :=
    filter (query_holds regex
              (list_services_filter q country province category provider_id))
      (service db) in
  ((0 < limit)%Z ->
   views = map (fun x => serialize (Some x))
             (firstn (Z.to_nat (Z.min limit 100)) found)
   /\ length views <= Z.to_nat limit
   /\ length views <= 100)
  /\ (limit = 0%Z ->
      views = map (fun x => serialize (Some x)) found
      /\ length views = length found).
Proof.
  intros H found. apply list_services_inv in H. destruct H as [_ ->].
  fold found. split.
  - intros Hpos. rewrite limit_pos by lia.
    split; [reflexivity|].
    rewrite length_map.
    pose proof (firstn_le_length (Z.to_nat (Z.min limit 100)) found).
    lia.
  - intros ->. change (Z.min 0 100) with 0%Z. rewrite limit_zero.
    split; [reflexivity | apply length_map].
Qed.

End ListingLimit.

Lemma list_services_limit_witness :
  exists views,
    list_services DemoDriver.regex DemoDriver.cursor_limit
      None None None None None 500 Demo.with_booking = Some views
    /\ length views <= 100.
Proof.
  eexists. split; [vm_compute; reflexivity|].
  destruct (list_services_limit DemoDriver.regex DemoDriver.cursor_limit
              demo_limit_pos demo_limit_zero None None None None None 500
              Demo.with_booking
              (match list_services DemoDriver.regex DemoDriver.cursor_limit
                       None None None None None 500 Demo.with_booking with
               | Some l => l
               | None => []
               end)) as [H _].
  - vm_compute. reflexivity.
  - destruct H as (_ & _ & H); [reflexivity|]. exact H.
Defined.

Section ListingAndActivity.

Variable regex : string -> string -> option (string -> bool).
Variable cursor_limit : Z -> list dict -> list dict.

Hypothesis limit_incl : forall n l x, In x (cursor_limit n l) -> In x l.
Hypothesis limit_zero : forall l, cursor_limit 0 l = l.

(** X18. Listing follows [is_active] and nothing else does.  A service
    just created, which has no [is_active] field, is in the unfiltered
    listing read without limit.  Once its provider has updated it with
    [is_active] false, no listing, whatever its filters and limit,
    contains an entry with its identifier, while [get_service] still
    returns it. *)
Theorem listing_follows_is_active :
  (forall data cur now fresh db r db1,
     create_service data cur now fresh db = (Ok r, db1) ->
     exists views,
       list_services regex cursor_limit None None None None None 0 db1
       = Some views
       /\ In r views)
  /\ (forall service_id payload cur now db r db',
        ids_ok (service db) = true ->
        ServiceUpdateRequest.is_active payload = Some false ->
        update_service service_id payload cur now db = (Ok r, db') ->
        get_service service_id db' = (Ok r, db')
        /\ forall q country province category provider_id limit views v view,
             list_services regex cursor_limit q country province category
               provider_id limit db' = Some views ->
             In (Some v) views ->
             r = Some view ->
             alist_get "id" v <> alist_get "id" view).
Proof.
  split.
  - intros data cur now fresh db r db1 H.
    destruct (create_service_inv _ _ _ _ _ _ _ H)
      as (c & cid & _ & _ & _ & _ & _ & -> & ->).
    eexists. split.
    + unfold list_services, find_query. cbn [list_services_filter set_if_given
        PyStr.falsy forallb snd clause_valid cond_valid andb].
      change (Z.min 0 100) with 0%Z. rewrite limit_zero. reflexivity.
    + apply in_map_iff. exists (new_service_doc data cid now fresh).
      split; [apply serialize_some|].
      apply filter_In. cbn [service]. split.
      * apply in_or_app. right. left. reflexivity.
      * unfold query_holds.
        cbn [forallb fst snd clause_holds cond_holds andb].
        replace (alist_get "is_active" (new_service_doc data cid now fresh))
          with (@None value); [reflexivity|].
        unfold new_service_doc.
        cbn [alist_get String.eqb Ascii.eqb Bool.eqb].
        rewrite !alist_get_dict_set_neq by discriminate. reflexivity.
  - intros service_id payload cur now db r db' Hok Hact H.
    destruct (update_service_inv _ _ _ _ _ _ _ Hok H)
      as (oid & svc & l1 & l2 & Hoid & Hl & Hid & -> & -> & Hfind').
    set (svc' := dict_update (service_update_fields payload now) svc) in *.
    assert (alist_get "_id" svc' = Some (VObjectId oid)) as Hid'.
    { unfold svc'. rewrite service_update_field by discriminate.
      replace (alist_get "_id" (ServiceUpdateRequest.model_dump payload))
        with (@None value) by reflexivity.
      exact Hid. }
    assert (alist_get "is_active" svc' = Some (VBool false)) as Hoff.
    { unfold svc'. rewrite service_update_field by discriminate.
      replace (alist_get "is_active" (ServiceUpdateRequest.model_dump payload))
        with (Some (VBool false)); [reflexivity|].
      unfold ServiceUpdateRequest.model_dump, ServiceCreateRequest.model_dump.
      rewrite Hact. reflexivity. }
    assert (ids_ok (l1 ++ svc' :: l2) = true) as Hok'.
    { rewrite Hl in Hok. eapply ids_ok_replace; [|exact Hok].
      unfold oid_of. rewrite Hid, Hid'. reflexivity. }
    split; [apply get_service_found with (oid := oid); assumption|].
    intros q country province category provider_id limit views v view
      Hlist Hv Hr Hsame.
    injection Hr as <-.
    destruct (listed_service_holds regex cursor_limit limit_incl
                _ _ _ _ _ _ _ _ _ Hlist Hv) as (s & Hin & Hs & Hq).
    injection Hs as ->. cbn [service] in Hin.
    destruct (ids_ok_In _ _ Hok' Hin) as (o' & Ho' & _).
    destruct (serialize_dict_id s _ Ho') as [Hv1 _].
    destruct (serialize_dict_id svc' _ Hid') as [Hv2 _].
    rewrite Hv1, Hv2 in Hsame. cbn [py_str] in Hsame.
    injection Hsame as Hhex. apply hexlify_inj in Hhex. subst o'.
    assert (s = svc') as ->.
    { apply (ids_ok_same_oid _ _ _ oid Hok' Hin).
      - apply in_or_app. right. left. reflexivity.
      - unfold oid_of. rewrite Ho'. reflexivity.
      - unfold oid_of. rewrite Hid'. reflexivity. }
    destruct (list_services_filter_entries q country province category
                provider_id) as (Hentry & _).
    unfold query_holds in Hq. rewrite forallb_forall in Hq.
    apply Hq in Hentry. cbn [fst snd clause_holds cond_holds] in Hentry.
    rewrite Hoff in Hentry. discriminate Hentry.
Qed.

End ListingAndActivity.

Lemma listing_follows_is_active_witness :
  let off := ServiceUpdateRequest.mk
               (ServiceUpdateRequest.base Demo.lawn_dearer) (Some false) in
  let run := update_service (Hex.hexlify Demo.lawn_id) off Demo.alice Demo.t1
               Demo.with_booking in
  get_service (Hex.hexlify Demo.lawn_id) (snd run)
  = (match fst run with Ok r => Ok r | Raise e => Raise e end, snd run)
  /\ list_services DemoDriver.regex DemoDriver.cursor_limit
       None None None None None 0 (snd run) = Some [].
Proof.
  intros off run.
  destruct (listing_follows_is_active DemoDriver.regex DemoDriver.cursor_limit
              demo_limit_incl demo_limit_zero) as [_ H].
  destruct (H (Hex.hexlify Demo.lawn_id) off Demo.alice Demo.t1
              Demo.with_booking
              (match fst run with Ok r => r | Raise _ => None end)
              (snd run)) as [Hget _].
  - vm_compute. reflexivity.
  - reflexivity.
  - vm_compute. reflexivity.
  - split; [|vm_compute; reflexivity].
    rewrite Hget. vm_compute. reflexivity.
Defined.

(** ** Listing bookings *)

Lemma matches_one_field (k : string) (t : value) (d : dict) :
  matches [(k, t)] d = field_matches (alist_get k d) t.
Proof. unfold matches. cbn [forallb fst snd]. apply andb_true_r. Qed.

Lemma demo_sort_perm (key : string) (direction : Z) (l : list dict) :
  Permutation (DemoDriver.cursor_sort key direction l) l.
Proof.
  unfold DemoDriver.cursor_sort.
  induction l as [|d l IH]; simpl; [constructor|].
  transitivity (d :: fold_right (DemoDriver.insert_by key direction) [] l);
    [|constructor; exact IH].
  generalize (fold_right (DemoDriver.insert_by key direction) [] l) as s.
  clear. intros s. induction s as [|x s IH]; simpl; [reflexivity|].
  destruct (Z.leb _ _); [reflexivity|].
  transitivity (x :: d :: s); [constructor; exact IH | constructor].
Qed.

Section ListingBookings.

Variable cursor_sort : string -> Z -> list dict -> list dict.

(** Sorting rearranges the documents found and neither adds nor drops
    any. *)
Hypothesis sort_perm :
  forall key direction l, Permutation (cursor_sort key direction l) l.

Lemma list_bookings_run role c cid db :
  alist_get "id" c = Some cid ->
  list_bookings cursor_sort role (Some c) db
  = (Ok (map (fun x => serialize (Some x))
           (cursor_sort "created_at" (-1)
              (filter (matches [(party role, cid)]) (booking db)))),
     db).
Proof.
  intros Hcid. unfold list_bookings, party.
  run_with ltac:(rewrite ?Hcid).
  destruct (String.eqb role "customer"); reflexivity.
Qed.

Lemma In_list_bookings role cid db v :
  In v (map (fun x => serialize (Some x))
          (cursor_sort "created_at" (-1)
             (filter (matches [(party role, cid)]) (booking db))))
  <-> exists bk,
        In bk (booking db) /\ v = Some (serialize_dict bk)
        /\ field_matches (alist_get (party role) bk) cid = true.
Proof.
  rewrite in_map_iff. split.
  - intros (bk & <- & Hin).
    apply (Permutation_in _ (sort_perm _ _ _)) in Hin.
    apply filter_In in Hin. destruct Hin as [Hin Hm].
    rewrite matches_one_field in Hm.
    exists bk. split; [exact Hin|]. split; [apply serialize_some | exact Hm].
  - intros (bk & Hin & -> & Hm). exists bk. split; [apply serialize_some|].
    apply (Permutation_in _ (Permutation_sym (sort_perm _ _ _))).
    apply filter_In. rewrite matches_one_field. split; assumption.
Qed.

(** X19. [list_bookings] only reads, and what it returns is the caller's:
    for the role [customer] the entries are the views of exactly the
    stored bookings whose [customer_id] is the caller's identifier, each
    once, and for any other role those whose [provider_id] is.  Behind the
    route, a role other than [customer] and [provider] is refused before
    the handler runs. *)
Theorem bookings_listed_are_the_callers
    (role : string) (c : dict) (cid : value) (db : DB) :
  alist_get "id" c = Some cid ->
  exists views,
    list_bookings cursor_sort role (Some c) db = (Ok views, db)
    /\ (forall v,
          In v views
          <-> exists bk,
                In bk (booking db) /\ v = Some (serialize_dict bk)
                /\ field_matches
                     (alist_get (if String.eqb role "customer"
                                 then "customer_id" else "provider_id") bk)
                     cid = true)
    /\ length views
       = length (filter (matches [(if String.eqb role "customer"
                                   then "customer_id" else "provider_id",
                                   cid)])
                   (booking db))
    /\ forall h,
         get_current_user h db = (Ok (Some c), db) ->
         get_bookings cursor_sort h role db
         = if role_ok role then (Ok views, db)
           else (Raise RequestValidationError, db).
Proof.
  intros Hcid. eexists. split; [apply list_bookings_run; exact Hcid|].
  split; [intros v; apply In_list_bookings|].
  split.
  - rewrite length_map. apply Permutation_length, sort_perm.
  - intros h Hh. unfold get_bookings. rewrite (Depends_run _ _ _ _ Hh).
    destruct (role_ok role); [|reflexivity].
    apply list_bookings_run. exact Hcid.
Qed.

(** X20. A booking just made is listed for both of its parties and for
    nobody else: it is in the customer listing of a caller exactly when
    that caller's identifier matches the identifier of the one who
    booked, and in the provider listing of a caller exactly when it
    matches the provider the service named.  The one who booked finds it
    in their own customer listing. *)
Theorem new_booking_is_listed_for_its_parties
    (data : BookingCreateRequest.t) (c : dict) (now : datetime)
    (fresh : ObjectId) (db db1 : DB) (r : option dict) :
  ids_ok (booking db) = true ->
  create_booking data (Some c) now fresh db = (Ok r, db1) ->
  exists svc pid cid,
    In svc (service db)
    /\ alist_get "provider_id" svc = Some pid
    /\ alist_get "id" c = Some cid
    /\ (forall c' cid',
          alist_get "id" c' = Some cid' ->
          exists as_customer as_provider,
            list_bookings cursor_sort "customer" (Some c') db1
            = (Ok as_customer, db1)
            /\ list_bookings cursor_sort "provider" (Some c') db1
               = (Ok as_provider, db1)
            /\ (In r as_customer <-> field_matches (Some cid) cid' = true)
            /\ (In r as_provider <-> field_matches (Some pid) cid' = true))
    /\ forall s views,
         cid = VStr s ->
         list_bookings cursor_sort "customer" (Some c) db1 = (Ok views, db1) ->
         In r views.
Proof.
  intros Hok H.
  destruct (create_booking_inv _ _ _ _ _ _ _ H)
    as (oid & svc & pid & c0 & cid & Hoid & Hfind & Hpid & Hc & Hcid & Hlen
        & Hfresh & -> & ->).
  injection Hc as <-.
  exists svc, pid, cid.
  split; [apply (find_some _ _ Hfind)|].
  split; [exact Hpid|]. split; [exact Hcid|].
  set (doc := new_booking_doc data pid cid (dict_get_default "price" svc)
                now fresh).
  set (db1 := mkDB (user db) (service db) (booking db ++ [doc])).
  assert (ids_ok (booking db1) = true) as Hok1.
  { apply ids_ok_snoc with (o := fresh); [exact Hok | reflexivity | exact Hlen|].
    rewrite <- (existsb_matches_id fresh _ Hok). exact Hfresh. }
  assert (In doc (booking db1)) as Hdoc
    by (apply in_or_app; right; left; reflexivity).
  assert (forall role cid',
            In (Some (serialize_dict doc))
              (map (fun x => serialize (Some x))
                 (cursor_sort "created_at" (-1)
                    (filter (matches [(party role, cid')]) (booking db1))))
            <-> field_matches (alist_get (party role) doc) cid' = true)
    as Hlisted.
  { intros role cid'. rewrite In_list_bookings. split.
    - intros (bk & Hin & Hv & Hm).
      destruct (ids_ok_In _ _ Hok1 Hin) as (o' & Ho' & _).
      destruct (serialize_dict_id bk _ Ho') as [Hv1 _].
      destruct (serialize_dict_id doc (VObjectId fresh) eq_refl) as [Hv2 _].
      injection Hv as Hv. rewrite <- Hv, Hv2 in Hv1. cbn [py_str] in Hv1.
      injection Hv1 as Hhex. apply hexlify_inj in Hhex. subst o'.
      assert (bk = doc) as ->; [|exact Hm].
      apply (ids_ok_same_oid _ _ _ fresh Hok1 Hin Hdoc).
      + unfold oid_of. rewrite Ho'. reflexivity.
      + reflexivity.
    - intros Hm. exists doc. split; [exact Hdoc|]. split; [reflexivity | exact Hm]. }
  split.
  - intros c' cid' Hcid'.
    eexists _, _.
    split; [apply list_bookings_run; exact Hcid'|].
    split; [apply list_bookings_run; exact Hcid'|].
    split; [apply (Hlisted "customer") | apply (Hlisted "provider")].
  - intros s views -> Hrun.
    rewrite (list_bookings_run _ _ _ _ Hcid) in Hrun. injection Hrun as <-.
    apply (Hlisted "customer").
    change (alist_get (party "customer") doc) with (Some (VStr s)).
    unfold field_matches. rewrite py_eq_str_refl. reflexivity.
Qed.

End ListingBookings.

Lemma bookings_listed_are_the_callers_witness :
  let bob := match Demo.bob with Some c => c | None => [] end in
  exists views,
    get_bookings DemoDriver.cursor_sort (bearer Demo.bob_token) "customer"
      Demo.with_booking = (Ok views, Demo.with_booking)
    /\ length views = 1
    /\ get_bookings DemoDriver.cursor_sort (bearer Demo.bob_token) "admin"
         Demo.with_booking = (Raise RequestValidationError, Demo.with_booking).
Proof.
  intros bob.
  destruct (bookings_listed_are_the_callers DemoDriver.cursor_sort
              demo_sort_perm "customer" bob (VStr (Hex.hexlify Demo.bob_id))
              Demo.with_booking) as (views & _ & _ & Hlen & Hroute).
  - vm_compute. reflexivity.
  - exists views. split; [|split].
    + apply Hroute. vm_compute. reflexivity.
    + rewrite Hlen. vm_compute. reflexivity.
    + vm_compute. reflexivity.
Defined.

Lemma new_booking_is_listed_for_its_parties_witness :
  let bob := match Demo.bob with Some c => c | None => [] end in
  let r := match fst (create_booking Demo.visit (Some bob) Demo.t0
                        Demo.visit_id Demo.with_service) with
           | Ok v => v
           | Raise _ => None
           end in
  In r (match fst (list_bookings DemoDriver.cursor_sort "customer" (Some bob)
                     Demo.with_booking) with
        | Ok views => views
        | Raise _ => []
        end).
Proof.
  intros bob r.
  destruct (new_booking_is_listed_for_its_parties DemoDriver.cursor_sort
              demo_sort_perm Demo.visit bob Demo.t0 Demo.visit_id
              Demo.with_service Demo.with_booking r)
    as (svc & pid & cid & _ & _ & Hcid & _ & Hown).
  - vm_compute. reflexivity.
  - vm_compute. reflexivity.
  - vm_compute in Hcid. injection Hcid as <-.
    apply (Hown "626f622d2d2d303030303032"); [reflexivity|].
    vm_compute. reflexivity.
Defined.

(** ** Provider mode and the view of the caller *)

Lemma dict_set_idem (k : string) (v : value) (d : dict) :
  dict_set k v (dict_set k v d) = dict_set k v d.
Proof.
  induction d as [|[k' v'] d IH]; simpl.
  - rewrite String.eqb_refl. reflexivity.
  - destruct (String.eqb k k') eqn:E; simpl.
    + rewrite String.eqb_refl. reflexivity.
    + rewrite E, IH. reflexivity.
Qed.

Lemma serialize_dict_set_other (k k' : string) (v : value) (d : dict) :
  k <> "_id" -> k' <> k ->
  alist_get k' (serialize_dict (dict_set k v d)) = alist_get k' (serialize_dict d).
Proof.
  intros Hk Hne.
  assert (alist_get "_id" (dict_set k v d) = alist_get "_id" d) as Hid
    by (apply alist_get_dict_set_neq; congruence).
  destruct (String.eqb_spec k' "_id") as [->|H1].
  - rewrite !serialize_dict_no_id_key. reflexivity.
  - destruct (String.eqb_spec k' "id") as [->|H2].
    + destruct (alist_get "_id" d) as [w|] eqn:E.
      * destruct (serialize_dict_id d w E) as [-> _].
        destruct (serialize_dict_id (dict_set k v d) w) as [-> _];
          [congruence | reflexivity].
      * rewrite !serialize_dict_no_id by congruence.
        rewrite alist_get_dict_set_neq by exact Hne. reflexivity.
    + rewrite !serialize_dict_other by assumption.
      rewrite alist_get_dict_set_neq by exact Hne. reflexivity.
Qed.

(** X21. [set_provider_mode] changes the caller's [provider_mode] and
    nothing else: services and bookings are untouched, the caller's
    header still authenticates, and [GET /me] then shows the mode just
    set and every other field as before.  Setting the same mode again
    leaves the database as it is. *)
Theorem provider_mode_is_what_me_shows
    (h : option string) (cur : dict) (enabled : bool) (db : DB) :
  ids_ok (user db) = true ->
  get_current_user h db = (Ok (Some cur), db) ->
  exists db' view',
    Route.post_me_provider_mode h (ProviderModeRequest.mk enabled) db
    = (Ok [("provider_mode", VBool enabled)], db')
    /\ service db' = service db
    /\ booking db' = booking db
    /\ get_me h db' = (Ok (Some view'), db')
    /\ alist_get "provider_mode" view' = Some (VBool enabled)
    /\ (forall k, k <> "provider_mode" -> alist_get k view' = alist_get k cur)
    /\ Route.post_me_provider_mode h (ProviderModeRequest.mk enabled) db'
       = (Ok [("provider_mode", VBool enabled)], db').
Proof.
  intros Hok Hauth.
  destruct (get_current_user_inv _ _ _ _ Hauth)
    as (t & u & _ & Hcur & Hfind & Hh).
  injection Hcur as ->.
  destruct (find_split _ _ _ Hfind) as (l1 & l2 & Hl & Hm & Hl1).
  pose proof (find_some _ _ Hfind) as [Hin _].
  destruct (ids_ok_In _ _ Hok Hin) as (o & Hid & _).
  set (u' := dict_set "provider_mode" (VBool enabled) u).
  set (db' := mkDB (l1 ++ u' :: l2) (service db) (booking db)).
  assert (alist_get "_id" u' = Some (VObjectId o)) as Hid'
    by (unfold u'; rewrite alist_get_dict_set_neq by discriminate; exact Hid).
  assert (get_current_user h db' = (Ok (Some (serialize_dict u')), db'))
    as Hauth'.
  { rewrite Hh.
    apply (lookup_token_after_set t l1 l2 u "provider_mode" (VBool enabled) db');
      (discriminate || assumption || reflexivity). }
  assert (ids_ok (user db') = true) as Hok'.
  { cbn [db' user]. rewrite Hl in Hok. eapply ids_ok_replace; [|exact Hok].
    unfold oid_of. rewrite Hid, Hid'. reflexivity. }
  exists db', (serialize_dict u').
  split.
  { unfold Route.post_me_provider_mode. rewrite (Depends_run _ _ _ _ Hauth).
    apply (set_provider_mode_run enabled l1 l2 u o db); assumption. }
  split; [reflexivity|]. split; [reflexivity|].
  split.
  { unfold get_me. rewrite (Depends_run _ _ _ _ Hauth'). reflexivity. }
  split.
  { rewrite serialize_dict_other by discriminate.
    unfold u'. rewrite alist_get_dict_set_eq. reflexivity. }
  split.
  { intros k Hk. apply serialize_dict_set_other; [discriminate | exact Hk]. }
  { unfold Route.post_me_provider_mode. rewrite (Depends_run _ _ _ _ Hauth').
    rewrite (set_provider_mode_run enabled l1 l2 u' o db' Hok' eq_refl Hid').
    unfold u'. rewrite dict_set_idem. reflexivity. }
Qed.

Lemma provider_mode_is_what_me_shows_witness :
  exists db' view',
    Route.post_me_provider_mode (bearer Demo.bob_token)
      (ProviderModeRequest.mk true) Demo.with_booking
    = (Ok [("provider_mode", VBool true)], db')
    /\ get_me (bearer Demo.bob_token) db' = (Ok (Some view'), db')
    /\ alist_get "provider_mode" view' = Some (VBool true)
    /\ alist_get "email" view' = Some (VStr "bob@example.com").
Proof.
  destruct (provider_mode_is_what_me_shows (bearer Demo.bob_token)
              (match Demo.bob with Some c => c | None => [] end) true
              Demo.with_booking)
    as (db' & view' & Hrun & _ & _ & Hme & Hpm & Hsame & _).
  - vm_compute. reflexivity.
  - vm_compute. reflexivity.
  - exists db', view'. split; [exact Hrun|]. split; [exact Hme|].
    split; [exact Hpm|]. rewrite Hsame by discriminate.
    vm_compute. reflexivity.
Defined.

(** ** The schemas and the stored documents *)

(** X22. The documents the handlers store carry the fields that
    [get_schema_models] lists for their collection, with one exception:
    [create_service] stores no [is_active].  A user document has, in
    order, [_id], the fields of the User schema, [password] and
    [tokens]; a booking document has [_id], the fields of the Booking
    schema, [created_at] and [updated_at]; a service document has [_id],
    [created_at], [updated_at] and the fields of the Service schema
    other than [is_active]. *)
Theorem stored_documents_and_the_schemas :
  (forall payload rnd_salt rnd_token fresh db r db',
     signup payload rnd_salt rnd_token fresh db = (Ok r, db') ->
     exists doc,
       user db' = user db ++ [doc]
       /\ map fst doc = "_id" :: schema_fields "user" ++ ["password"; "tokens"])
  /\ (forall data cur now fresh db r db',
        create_booking data cur now fresh db = (Ok r, db') ->
        exists doc,
          booking db' = booking db ++ [doc]
          /\ map fst doc
             = "_id" :: schema_fields "booking" ++ ["created_at"; "updated_at"])
  /\ (forall data cur now fresh db r db',
        create_service data cur now fresh db = (Ok r, db') ->
        exists doc,
          service db' = service db ++ [doc]
          /\ forall k,
               In k (map fst doc)
               <-> (In k (schema_fields "service") /\ k <> "is_active")
                   \/ In k ["_id"; "created_at"; "updated_at"]).
Proof.
  split; [|split].
  - intros payload rnd_salt rnd_token fresh db r db' H.
    apply signup_inv in H. destruct H as (-> & _ & _).
    eexists. split; reflexivity.
  - intros data cur now fresh db r db' H.
    destruct (create_booking_inv _ _ _ _ _ _ _ H)
      as (oid & svc & pid & c & cid & _ & _ & _ & _ & _ & _ & _ & -> & _).
    eexists. split; reflexivity.
  - intros data cur now fresh db r db' H.
    destruct (create_service_inv _ _ _ _ _ _ _ H)
      as (c & cid & _ & _ & _ & _ & _ & -> & _).
    eexists. split; [reflexivity|].
    intros k.
    change (map fst (new_service_doc data cid now fresh))
      with ["_id"; "name"; "description"; "price"; "category"; "country";
            "province"; "photos"; "videos"; "questions"; "availability";
            "provider_id"; "created_at"; "updated_at"].
    change (schema_fields "service") with Schemas.Service.
    unfold Schemas.Service. cbn [In].
    split.
    + intros Hk.
      repeat (destruct Hk as [<-|Hk];
              [first [ right; tauto
                     | left; split; [tauto | discriminate] ]|]).
      destruct Hk.
    + intros [[Hk Hne]|Hk].
      * repeat (destruct Hk as [<-|Hk]; [tauto || congruence|]). destruct Hk.
      * repeat (destruct Hk as [<-|Hk]; [tauto|]). destruct Hk.
Qed.

Lemma stored_documents_and_the_schemas_witness :
  map (map fst) (user Demo.users)
  = [ "_id" :: schema_fields "user" ++ ["password"; "tokens"];
      "_id" :: schema_fields "user" ++ ["password"; "tokens"] ]
  /\ map (map fst) (booking Demo.with_booking)
     = [ "_id" :: schema_fields "booking" ++ ["created_at"; "updated_at"] ].
Proof.
  destruct stored_documents_and_the_schemas as (Hu & Hb & _).
  destruct (Hb Demo.visit Demo.bob Demo.t0 Demo.visit_id Demo.with_service
              (match fst (create_booking Demo.visit Demo.bob Demo.t0
                            Demo.visit_id Demo.with_service) with
               | Ok v => v
               | Raise _ => None
               end)
              Demo.with_booking) as (doc & Hl & Hk);
    [vm_compute; reflexivity|].
  split; [vm_compute; reflexivity|].
  rewrite Hl. change (booking Demo.with_service) with (@nil dict).
  cbn [app map]. rewrite Hk. reflexivity.
Defined.

(** ** The store invariant *)

Lemma handlers_preserve_the_invariant_witness :
  db_ok (snd (create_booking Demo.visit Demo.bob Demo.t1 "visit-000005"
                Demo.with_booking)) = true
  /\ db_ok (snd (delete_service (Hex.hexlify Demo.lawn_id) Demo.alice
                   Demo.with_booking)) = true.
Proof.
  destruct handlers_preserve_the_invariant
    as (_ & _ & _ & _ & _ & _ & Hdel & Hbook & _).
  split.
  - apply (Hbook Demo.visit Demo.bob Demo.t1 "visit-000005");
      [reflexivity | vm_compute; reflexivity].
  - apply (Hdel (Hex.hexlify Demo.lawn_id) Demo.alice).
    vm_compute. reflexivity.
Defined.
